(** * The image transform and export pipeline of app.py

    A shallow embedding of the parts of [ImageEditorApp] that decide how an
    image is resized, optionally stripped of its background, encoded and
    written: the two aspect-ratio callbacks, [format_changed],
    [apply_background_removal] with [BackgroundRemovalThread.run],
    [save_image] and [save_as_svg_direct]; and of the handlers around
    them, [load_image], [preview_changes], [toggle_aspect_ratio] and
    [refresh_rembg_status].

    Python values are modelled as the interpreter has them: integers are
    unbounded ([Z]), [float] is IEEE 754 binary64 (the [spec_float] of the
    standard library at precision 53), exceptions are an explicit outcome.
    The Qt widgets keep the fields the code reads and writes.  The imaging
    library, the segmentation engine, the dialogs and the file system are
    the environment of the program. *)

From Stdlib Require Import ZArith Lia Bool Ascii String DecimalString List.
From Stdlib Require Import Floats.SpecFloat.
From stdpp Require Import base option list strings gmap.

Local Open Scope Z_scope.

(** ** Python outcomes *)

Module Py.

(** The exceptions the modelled code can meet. *)
Inductive exn :=
| ZeroDivisionError
| OverflowError
| ValueError
| ImportError
| OSError (msg : string)
| RuntimeError (msg : string).

(** A call that returns does so with a value or with an exception. *)
Inductive outcome (A : Type) :=
| Ok (a : A)
| Raise (e : exn).
Arguments Ok {A} a.
Arguments Raise {A} e.

Definition obind {A B} (c : outcome A) (k : A -> outcome B) : outcome B :=
  match c with
  | Ok a => k a
  | Raise e => Raise e
  end.

(** *** [float]: binary64 *)

Definition prec : Z := 53.
Definition emax : Z := 1024.
Definition float := spec_float.

(** [float(n)] for an integer [n], rounded to nearest even. *)
Definition float_of_int (n : Z) : outcome float :=
  match binary_normalize prec emax n 0 false with
  | S754_infinity _ => Raise OverflowError
  | f => Ok f
  end.

(** [a / b] on two integers: the correctly rounded quotient. *)
Definition int_truediv (a b : Z) : outcome float :=
  if b =? 0 then Raise ZeroDivisionError
  else if a =? 0 then Ok (S754_zero (b <? 0))
  else
    match SFdiv prec emax
            (S754_finite (a <? 0) (Z.to_pos (Z.abs a)) 0)
            (S754_finite (b <? 0) (Z.to_pos (Z.abs b)) 0) with
    | S754_infinity _ => Raise OverflowError
    | f => Ok f
    end.

(** [n * x] with [n] an integer and [x] a float: [n] is converted first. *)
Definition int_mul_float (n : Z) (x : float) : outcome float :=
  obind (float_of_int n) (fun f => Ok (SFmul prec emax f x)).

(** [int(x)]: truncation toward zero. *)
Definition int_of_float (x : float) : outcome Z :=
  match x with
  | S754_nan => Raise ValueError
  | S754_infinity _ => Raise OverflowError
  | S754_zero _ => Ok 0
  | S754_finite s m e =>
      let v := Z.shiftl (Zpos m) e in
      Ok (if s then - v else v)
  end.

End Py.

(** ** The Qt widgets the code reads and writes *)

Module Qt.

(** [QSpinBox] and [QSlider]: a range, a value kept inside it, and whether
    the signals of the widget are blocked. *)
Record SpinBox := {
  minimum : Z;
  maximum : Z;
  value : Z;
  signalsBlocked : bool
}.

(** The C++ [int] that [setValue] takes. *)
Definition INT_MIN : Z := - 2 ^ 31.
Definition INT_MAX : Z := 2 ^ 31 - 1.

(** A Python integer handed to a parameter of type [int]: the bindings
    convert it, and raise [OverflowError] when it does not fit (the range
    check of the bindings, on by default in current versions of PyQt5). *)
Definition int_argument (v : Z) : Py.outcome Z :=
  if (INT_MIN <=? v) && (v <=? INT_MAX) then Py.Ok v
  else Py.Raise Py.OverflowError.

(** [QSpinBox::setValue(int)] brings its argument into the range of the
    widget. *)
Definition setValue (v : Z) (s : SpinBox) : SpinBox :=
  {| minimum := minimum s; maximum := maximum s;
     value := Z.max (minimum s) (Z.min (maximum s) v);
     signalsBlocked := signalsBlocked s |}.

(** [blockSignals(b)]. *)
Definition blockSignals (b : bool) (s : SpinBox) : SpinBox :=
  {| minimum := minimum s; maximum := maximum s; value := value s;
     signalsBlocked := b |}.

Record CheckBox := { isChecked : bool; isEnabled : bool }.

Definition setChecked (b : bool) (c : CheckBox) : CheckBox :=
  {| isChecked := b; isEnabled := isEnabled c |}.

Definition setEnabled (b : bool) (c : CheckBox) : CheckBox :=
  {| isChecked := isChecked c; isEnabled := b |}.

End Qt.

(** ** The imaging library, as far as the code relies on it *)

Module PIL.

(** A pixel holds four 8-bit bands; an image without alpha keeps the
    fourth band at 255. *)
Definition pixel : Type := Z * Z * Z * Z.

Record Image := { mode : string; size : Z * Z; pixels : list pixel }.

Definition white : pixel := (255, 255, 255, 255).

(** [Image.new(mode, size, color)]. *)
Definition new (m : string) (sz : Z * Z) (color : pixel) : Image :=
  {| mode := m; size := sz;
     pixels := replicate (Z.to_nat (fst sz * snd sz)) color |}.

(** The library divides by 255 with two shifts. *)
Definition shift_for_div255 (a : Z) : Z :=
  Z.shiftr (Z.shiftr a 8 + a) 8.

Definition precision_bits : Z := 7.

(** One colour band of the composite, from the two weights. *)
Definition composite_band (coef1 coef2 s d : Z) : Z :=
  Z.shiftr
    (shift_for_div255 (s * coef1 + d * coef2 + Z.shiftl 128 precision_bits))
    precision_bits.

(** One pixel of [src] laid over one pixel of [dst], in the 8-bit integer
    arithmetic of the library. *)
Definition composite_pixel (dst src : pixel) : pixel :=
  let '(dr, dg, db, da) := dst in
  let '(sr, sg, sb, sa) := src in
  if sa =? 0 then dst
  else
    let blend := da * (255 - sa) in
    let outa255 := sa * 255 + blend in
    let coef1 := sa * 255 * 255 * Z.shiftl 1 precision_bits / outa255 in
    let coef2 := 255 * Z.shiftl 1 precision_bits - coef1 in
    (composite_band coef1 coef2 sr dr,
     composite_band coef1 coef2 sg dg,
     composite_band coef1 coef2 sb db,
     shift_for_div255 (outa255 + 128)).

(** [Image.alpha_composite(dst, src)]: both images are RGBA and of one
    size, or the call raises. *)
Definition alpha_composite (dst src : Image) : Py.outcome Image :=
  if negb (String.eqb (mode dst) "RGBA") || negb (String.eqb (mode src) "RGBA")
  then Py.Raise Py.ValueError
  else if negb (fst (size dst) =? fst (size src))
          || negb (snd (size dst) =? snd (size src))
  then Py.Raise Py.ValueError
  else Py.Ok {| mode := "RGBA"; size := size dst;
                pixels := zip_with composite_pixel (pixels dst) (pixels src) |}.

(** [img.convert('RGB')] on an RGBA image drops the alpha band. *)
Definition convert_RGB (img : Image) : Image :=
  {| mode := "RGB"; size := size img;
     pixels := map (fun '(r, g, b, _) => (r, g, b, 255)) (pixels img) |}.

(** The keyword arguments the code passes to [Image.save]. *)
Record save_params := { quality : option Z; sizes : option (list (Z * Z)) }.

Definition no_params : save_params := {| quality := None; sizes := None |}.

(** *** The ICO writer

    [Image.save(..., format="ICO", sizes=sizes)], as the library has it
    from the version that brought [Image.Resampling], which the code needs:
    it stores one frame for each distinct size of [sizes], in ascending
    order, and ignores a size that is bigger than the image or than 256;
    each frame is the image reduced to fit the size.  Without [sizes] it
    works from a list of its own. *)

Definition ico_default_sizes : list (Z * Z) :=
  [(16, 16); (24, 24); (32, 32); (48, 48); (64, 64); (128, 128); (256, 256)].

(** The order and the equality of tuples. *)
Definition size_ltb (a b : Z * Z) : bool :=
  (fst a <? fst b) || ((fst a =? fst b) && (snd a <? snd b)).

Definition size_eqb (a b : Z * Z) : bool :=
  (fst a =? fst b) && (snd a =? snd b).

Fixpoint insert_size (s : Z * Z) (l : list (Z * Z)) : list (Z * Z) :=
  match l with
  | [] => [s]
  | x :: r =>
      if size_eqb s x then l
      else if size_ltb s x then s :: l
      else x :: insert_size s r
  end.

(** [sorted(set(sizes))]. *)
Definition sorted_set (l : list (Z * Z)) : list (Z * Z) :=
  fold_right insert_size [] l.

(** The test of the writer for a size it ignores. *)
Definition ico_ignored (im_size sz : Z * Z) : bool :=
  (fst sz >? fst im_size) || (snd sz >? snd im_size)
  || (fst sz >? 256) || (snd sz >? 256).

(** The sizes for which the writer stores a frame. *)
Definition ico_frames (im : Image) (p : save_params) : list (Z * Z) :=
  let requested :=
    match sizes p with Some l => l | None => ico_default_sizes end in
  List.filter (fun sz => negb (ico_ignored (size im) sz))
    (sorted_set requested).

(** A byte of the file. *)
Definition o8 (n : Z) : ascii := ascii_of_N (Z.to_N (n mod 256)).

(** The file the writer produces: the four bytes [0 0 1 0], the number of
    frames as a 16-bit integer with its low byte first, then one directory
    entry for each frame and the frames themselves. *)
Definition ico_file (frames : list (Z * Z)) (entries_and_frames : string)
  : string :=
  let n := Z.of_nat (length frames) in
  String (o8 0) (String (o8 0) (String (o8 1) (String (o8 0)
    (String (o8 n) (String (o8 (n / 256)) entries_and_frames))))).


End PIL.

(** ** Output formats *)

Inductive format := JPEG | PNG | BMP | TIFF | GIF | WEBP | ICO | SVG.

Definition format_eqb (a b : format) : bool :=
  match a, b with
  | JPEG, JPEG | PNG, PNG | BMP, BMP | TIFF, TIFF
  | GIF, GIF | WEBP, WEBP | ICO, ICO | SVG, SVG => true
  | _, _ => false
  end.

(** The [format_mapping] dictionary of [save_image]. *)
Definition format_mapping (f : format) : string :=
  match f with
  | JPEG => ".jpg"
  | PNG => ".png"
  | BMP => ".bmp"
  | TIFF => ".tiff"
  | GIF => ".gif"
  | WEBP => ".webp"
  | ICO => ".ico"
  | SVG => ".svg"
  end.

(** ** The environment of the program

    Everything the code asks of the outside: the answers of the dialogs,
    the resampling and the encoders of the imaging library, the
    segmentation engine, and whether a path can be written. *)

Record Env := {
  (** Path returned by [QFileDialog.getOpenFileName]; empty when cancelled. *)
  open_dialog_path : string;
  (** [Image.open(path)]. *)
  image_open : string -> Py.outcome PIL.Image;
  (** [os.path.join(temp_dir, "temp_preview.png")], fixed when the window is
      built. *)
  temp_preview_path : string;
  (** Answer to the question asked before a JPEG export with background
      removal: [true] is Yes. *)
  jpeg_warning_yes : bool;
  (** Path returned by [QFileDialog.getSaveFileName]; empty when cancelled. *)
  save_dialog_path : string;
  (** Pixels of [img.resize(new_size, LANCZOS)]. *)
  resample : PIL.Image -> Z * Z -> Py.outcome (list PIL.pixel);
  (** The encoder [Image.save] runs for a format.  Of the ICO writer this is
      the part that packs the frames: it is handed, as [sizes], the sizes of
      the frames to store, and returns what follows the header. *)
  encode : format -> PIL.Image -> PIL.save_params -> Py.outcome string;
  (** Whether [open(path, 'w')] succeeds. *)
  can_write : string -> bool;
  (** What a failed [Image.save(path)] leaves in the file system: the
      library opens the destination itself.  From the content before the
      call to the content after it. *)
  save_residue_at : option string -> option string;
  (** The imports at the head of the try block of
      [apply_background_removal]. *)
  import_rembg : Py.outcome unit;
  (** The four library calls of [BackgroundRemovalThread.run]. *)
  np_array : PIL.Image -> Py.outcome PIL.Image;
  new_session : Py.outcome unit;
  remove : PIL.Image -> Py.outcome PIL.Image;
  fromarray : PIL.Image -> Py.outcome PIL.Image;
  (** [str(e)]. *)
  str_exn : Py.exn -> string;
  (** What a call of [initialize_rembg] leaves in [REMBG_AVAILABLE], and
      returns. *)
  initialize_rembg : bool;
  (** ['rembg' in sys.modules], after that call. *)
  rembg_in_sys_modules : bool
}.

(** ** Signals of [BackgroundRemovalThread] *)

Inductive signal :=
| progress (v : Z)
| finished (img : PIL.Image)
| error (msg : string).

(** A thread object: the image it was built with and the signals it has
    emitted or will emit that the main thread has not handled yet.  The
    window refers to the thread of the last call only; a call returns with
    every signal of its thread handled, so that no earlier thread has a
    signal left when the next one is built. *)
Record Thread := { image : PIL.Image; pending : list signal }.

(** ** What the program does to the outside, in order *)

Inductive msg_kind := Information | Warning | Critical | Question.

Inductive event :=
| EvResize (new_size : Z * Z)
| EvThreadStart (img : PIL.Image)
| EvEncode (f : format) (img : PIL.Image) (p : PIL.save_params)
| EvOpen (path : string)
| EvDisplay (path : string)
| EvMessage (k : msg_kind) (title : string).

(** ** State of [ImageEditorApp] *)

Record State := {
  current_image : option PIL.Image;
  current_image_path : option string;
  original_size : Z * Z;
  width_spin : Qt.SpinBox;
  height_spin : Qt.SpinBox;
  maintain_ratio : bool;
  format_combo : format;
  remove_bg_check : Qt.CheckBox;
  size_16 : bool;
  size_32 : bool;
  size_48 : bool;
  size_64 : bool;
  size_128 : bool;
  size_256 : bool;
  quality_slider : Qt.SpinBox;
  svg_quality_slider : Qt.SpinBox;
  progress_bar : Z;
  processed_image : option PIL.Image;
  bg_thread : option Thread;
  processing_dialog_open : bool;
  REMBG_AVAILABLE : bool;
  files : gmap string string;
  log : list event
}.

Definition set_current_image (v : option PIL.Image) (s : State) : State :=
  {| current_image := v;
     current_image_path := current_image_path s;
     original_size := original_size s;
     width_spin := width_spin s; height_spin := height_spin s;
     maintain_ratio := maintain_ratio s; format_combo := format_combo s;
     remove_bg_check := remove_bg_check s;
     size_16 := size_16 s; size_32 := size_32 s; size_48 := size_48 s;
     size_64 := size_64 s; size_128 := size_128 s; size_256 := size_256 s;
     quality_slider := quality_slider s;
     svg_quality_slider := svg_quality_slider s;
     progress_bar := progress_bar s; processed_image := processed_image s;
     bg_thread := bg_thread s;
     processing_dialog_open := processing_dialog_open s;
     REMBG_AVAILABLE := REMBG_AVAILABLE s; files := files s; log := log s |}.

Definition set_current_image_path (v : option string) (s : State) : State :=
  {| current_image := current_image s;
     current_image_path := v;
     original_size := original_size s;
     width_spin := width_spin s; height_spin := height_spin s;
     maintain_ratio := maintain_ratio s; format_combo := format_combo s;
     remove_bg_check := remove_bg_check s;
     size_16 := size_16 s; size_32 := size_32 s; size_48 := size_48 s;
     size_64 := size_64 s; size_128 := size_128 s; size_256 := size_256 s;
     quality_slider := quality_slider s;
     svg_quality_slider := svg_quality_slider s;
     progress_bar := progress_bar s; processed_image := processed_image s;
     bg_thread := bg_thread s;
     processing_dialog_open := processing_dialog_open s;
     REMBG_AVAILABLE := REMBG_AVAILABLE s; files := files s; log := log s |}.

Definition set_original_size (v : Z * Z) (s : State) : State :=
  {| current_image := current_image s;
     current_image_path := current_image_path s;
     original_size := v;
     width_spin := width_spin s; height_spin := height_spin s;
     maintain_ratio := maintain_ratio s; format_combo := format_combo s;
     remove_bg_check := remove_bg_check s;
     size_16 := size_16 s; size_32 := size_32 s; size_48 := size_48 s;
     size_64 := size_64 s; size_128 := size_128 s; size_256 := size_256 s;
     quality_slider := quality_slider s;
     svg_quality_slider := svg_quality_slider s;
     progress_bar := progress_bar s; processed_image := processed_image s;
     bg_thread := bg_thread s;
     processing_dialog_open := processing_dialog_open s;
     REMBG_AVAILABLE := REMBG_AVAILABLE s; files := files s; log := log s |}.

Definition set_width_spin (v : Qt.SpinBox) (s : State) : State :=
  {| current_image := current_image s;
     current_image_path := current_image_path s;
     original_size := original_size s;
     width_spin := v; height_spin := height_spin s;
     maintain_ratio := maintain_ratio s; format_combo := format_combo s;
     remove_bg_check := remove_bg_check s;
     size_16 := size_16 s; size_32 := size_32 s; size_48 := size_48 s;
     size_64 := size_64 s; size_128 := size_128 s; size_256 := size_256 s;
     quality_slider := quality_slider s;
     svg_quality_slider := svg_quality_slider s;
     progress_bar := progress_bar s; processed_image := processed_image s;
     bg_thread := bg_thread s;
     processing_dialog_open := processing_dialog_open s;
     REMBG_AVAILABLE := REMBG_AVAILABLE s; files := files s; log := log s |}.

Definition set_height_spin (v : Qt.SpinBox) (s : State) : State :=
  {| current_image := current_image s;
     current_image_path := current_image_path s;
     original_size := original_size s;
     width_spin := width_spin s; height_spin := v;
     maintain_ratio := maintain_ratio s; format_combo := format_combo s;
     remove_bg_check := remove_bg_check s;
     size_16 := size_16 s; size_32 := size_32 s; size_48 := size_48 s;
     size_64 := size_64 s; size_128 := size_128 s; size_256 := size_256 s;
     quality_slider := quality_slider s;
     svg_quality_slider := svg_quality_slider s;
     progress_bar := progress_bar s; processed_image := processed_image s;
     bg_thread := bg_thread s;
     processing_dialog_open := processing_dialog_open s;
     REMBG_AVAILABLE := REMBG_AVAILABLE s; files := files s; log := log s |}.

Definition set_maintain_ratio (v : bool) (s : State) : State :=
  {| current_image := current_image s;
     current_image_path := current_image_path s;
     original_size := original_size s;
     width_spin := width_spin s; height_spin := height_spin s;
     maintain_ratio := v; format_combo := format_combo s;
     remove_bg_check := remove_bg_check s;
     size_16 := size_16 s; size_32 := size_32 s; size_48 := size_48 s;
     size_64 := size_64 s; size_128 := size_128 s; size_256 := size_256 s;
     quality_slider := quality_slider s;
     svg_quality_slider := svg_quality_slider s;
     progress_bar := progress_bar s; processed_image := processed_image s;
     bg_thread := bg_thread s;
     processing_dialog_open := processing_dialog_open s;
     REMBG_AVAILABLE := REMBG_AVAILABLE s; files := files s; log := log s |}.

Definition set_format_combo (v : format) (s : State) : State :=
  {| current_image := current_image s;
     current_image_path := current_image_path s;
     original_size := original_size s;
     width_spin := width_spin s; height_spin := height_spin s;
     maintain_ratio := maintain_ratio s; format_combo := v;
     remove_bg_check := remove_bg_check s;
     size_16 := size_16 s; size_32 := size_32 s; size_48 := size_48 s;
     size_64 := size_64 s; size_128 := size_128 s; size_256 := size_256 s;
     quality_slider := quality_slider s;
     svg_quality_slider := svg_quality_slider s;
     progress_bar := progress_bar s; processed_image := processed_image s;
     bg_thread := bg_thread s;
     processing_dialog_open := processing_dialog_open s;
     REMBG_AVAILABLE := REMBG_AVAILABLE s; files := files s; log := log s |}.

Definition set_remove_bg_check (v : Qt.CheckBox) (s : State) : State :=
  {| current_image := current_image s;
     current_image_path := current_image_path s;
     original_size := original_size s;
     width_spin := width_spin s; height_spin := height_spin s;
     maintain_ratio := maintain_ratio s; format_combo := format_combo s;
     remove_bg_check := v;
     size_16 := size_16 s; size_32 := size_32 s; size_48 := size_48 s;
     size_64 := size_64 s; size_128 := size_128 s; size_256 := size_256 s;
     quality_slider := quality_slider s;
     svg_quality_slider := svg_quality_slider s;
     progress_bar := progress_bar s; processed_image := processed_image s;
     bg_thread := bg_thread s;
     processing_dialog_open := processing_dialog_open s;
     REMBG_AVAILABLE := REMBG_AVAILABLE s; files := files s; log := log s |}.

Definition set_progress_bar (v : Z) (s : State) : State :=
  {| current_image := current_image s;
     current_image_path := current_image_path s;
     original_size := original_size s;
     width_spin := width_spin s; height_spin := height_spin s;
     maintain_ratio := maintain_ratio s; format_combo := format_combo s;
     remove_bg_check := remove_bg_check s;
     size_16 := size_16 s; size_32 := size_32 s; size_48 := size_48 s;
     size_64 := size_64 s; size_128 := size_128 s; size_256 := size_256 s;
     quality_slider := quality_slider s;
     svg_quality_slider := svg_quality_slider s;
     progress_bar := v; processed_image := processed_image s;
     bg_thread := bg_thread s;
     processing_dialog_open := processing_dialog_open s;
     REMBG_AVAILABLE := REMBG_AVAILABLE s; files := files s; log := log s |}.

Definition set_processed_image (v : option PIL.Image) (s : State) : State :=
  {| current_image := current_image s;
     current_image_path := current_image_path s;
     original_size := original_size s;
     width_spin := width_spin s; height_spin := height_spin s;
     maintain_ratio := maintain_ratio s; format_combo := format_combo s;
     remove_bg_check := remove_bg_check s;
     size_16 := size_16 s; size_32 := size_32 s; size_48 := size_48 s;
     size_64 := size_64 s; size_128 := size_128 s; size_256 := size_256 s;
     quality_slider := quality_slider s;
     svg_quality_slider := svg_quality_slider s;
     progress_bar := progress_bar s; processed_image := v;
     bg_thread := bg_thread s;
     processing_dialog_open := processing_dialog_open s;
     REMBG_AVAILABLE := REMBG_AVAILABLE s; files := files s; log := log s |}.

Definition set_bg_thread (v : option Thread) (s : State) : State :=
  {| current_image := current_image s;
     current_image_path := current_image_path s;
     original_size := original_size s;
     width_spin := width_spin s; height_spin := height_spin s;
     maintain_ratio := maintain_ratio s; format_combo := format_combo s;
     remove_bg_check := remove_bg_check s;
     size_16 := size_16 s; size_32 := size_32 s; size_48 := size_48 s;
     size_64 := size_64 s; size_128 := size_128 s; size_256 := size_256 s;
     quality_slider := quality_slider s;
     svg_quality_slider := svg_quality_slider s;
     progress_bar := progress_bar s; processed_image := processed_image s;
     bg_thread := v;
     processing_dialog_open := processing_dialog_open s;
     REMBG_AVAILABLE := REMBG_AVAILABLE s; files := files s; log := log s |}.

Definition set_processing_dialog_open (v : bool) (s : State) : State :=
  {| current_image := current_image s;
     current_image_path := current_image_path s;
     original_size := original_size s;
     width_spin := width_spin s; height_spin := height_spin s;
     maintain_ratio := maintain_ratio s; format_combo := format_combo s;
     remove_bg_check := remove_bg_check s;
     size_16 := size_16 s; size_32 := size_32 s; size_48 := size_48 s;
     size_64 := size_64 s; size_128 := size_128 s; size_256 := size_256 s;
     quality_slider := quality_slider s;
     svg_quality_slider := svg_quality_slider s;
     progress_bar := progress_bar s; processed_image := processed_image s;
     bg_thread := bg_thread s;
     processing_dialog_open := v;
     REMBG_AVAILABLE := REMBG_AVAILABLE s; files := files s; log := log s |}.

Definition set_files (v : gmap string string) (s : State) : State :=
  {| current_image := current_image s;
     current_image_path := current_image_path s;
     original_size := original_size s;
     width_spin := width_spin s; height_spin := height_spin s;
     maintain_ratio := maintain_ratio s; format_combo := format_combo s;
     remove_bg_check := remove_bg_check s;
     size_16 := size_16 s; size_32 := size_32 s; size_48 := size_48 s;
     size_64 := size_64 s; size_128 := size_128 s; size_256 := size_256 s;
     quality_slider := quality_slider s;
     svg_quality_slider := svg_quality_slider s;
     progress_bar := progress_bar s; processed_image := processed_image s;
     bg_thread := bg_thread s;
     processing_dialog_open := processing_dialog_open s;
     REMBG_AVAILABLE := REMBG_AVAILABLE s; files := v; log := log s |}.

Definition set_REMBG_AVAILABLE (v : bool) (s : State) : State :=
  {| current_image := current_image s;
     current_image_path := current_image_path s;
     original_size := original_size s;
     width_spin := width_spin s; height_spin := height_spin s;
     maintain_ratio := maintain_ratio s; format_combo := format_combo s;
     remove_bg_check := remove_bg_check s;
     size_16 := size_16 s; size_32 := size_32 s; size_48 := size_48 s;
     size_64 := size_64 s; size_128 := size_128 s; size_256 := size_256 s;
     quality_slider := quality_slider s;
     svg_quality_slider := svg_quality_slider s;
     progress_bar := progress_bar s; processed_image := processed_image s;
     bg_thread := bg_thread s;
     processing_dialog_open := processing_dialog_open s;
     REMBG_AVAILABLE := v; files := files s; log := log s |}.

(** Events are appended in the order they happen. *)
Definition record_event (e : event) (s : State) : State :=
  {| current_image := current_image s;
     current_image_path := current_image_path s;
     original_size := original_size s;
     width_spin := width_spin s; height_spin := height_spin s;
     maintain_ratio := maintain_ratio s; format_combo := format_combo s;
     remove_bg_check := remove_bg_check s;
     size_16 := size_16 s; size_32 := size_32 s; size_48 := size_48 s;
     size_64 := size_64 s; size_128 := size_128 s; size_256 := size_256 s;
     quality_slider := quality_slider s;
     svg_quality_slider := svg_quality_slider s;
     progress_bar := progress_bar s; processed_image := processed_image s;
     bg_thread := bg_thread s;
     processing_dialog_open := processing_dialog_open s;
     REMBG_AVAILABLE := REMBG_AVAILABLE s; files := files s;
     log := log s ++ [e] |}.

(** ** Commands: a state and exception monad

    A command run from a state returns an outcome and the state it leaves,
    or nothing when it never returns (a modal event loop that no slot
    ends). *)

Definition M (A : Type) : Type := State -> option (Py.outcome A * State).

Definition ret {A} (a : A) : M A := fun s => Some (Py.Ok a, s).

Definition bind {A B} (c : M A) (k : A -> M B) : M B :=
  fun s =>
    match c s with
    | Some (Py.Ok a, s') => k a s'
    | Some (Py.Raise e, s') => Some (Py.Raise e, s')
    | None => None
    end.

Definition raise {A} (e : Py.exn) : M A := fun s => Some (Py.Raise e, s).

(** A pure outcome, as a command. *)
Definition lift {A} (o : Py.outcome A) : M A := fun s => Some (o, s).

(** A change of the state that cannot fail. *)
Definition modify (f : State -> State) : M unit :=
  fun s => Some (Py.Ok tt, f s).

Definition get {A} (f : State -> A) : M A := fun s => Some (Py.Ok (f s), s).

(** [try: c except Exception as e: h e]. *)
Definition try_except {A} (c : M A) (h : Py.exn -> M A) : M A :=
  fun s =>
    match c s with
    | Some (Py.Raise e, s') => h e s'
    | r => r
    end.

Declare Scope cmd_scope.
Delimit Scope cmd_scope with cmd.
Notation "x <- c ;; k" := (bind c (fun x => k))
  (at level 100, c at next level, right associativity) : cmd_scope.
Notation "c ;; k" := (bind c (fun _ => k))
  (at level 100, right associativity) : cmd_scope.
Local Open Scope cmd_scope.

Definition show_message (k : msg_kind) (title : string) : M unit :=
  modify (record_event (EvMessage k title)).

(** ** DimensionCalculator: the two spin-box callbacks *)

(** [int(edited * (num / den))]: the two statements both callbacks run,
    [ratio = num / den] and [int(edited * ratio)]. *)
Definition scaled_dimension (edited num den : Z) : Py.outcome Z :=
  Py.obind (Py.int_truediv num den) (fun ratio =>
  Py.obind (Py.int_mul_float edited ratio) Py.int_of_float).

(** [update_height_maintain_ratio]: runs when the width spin box changed.
    The height spin box has its signals blocked while it is set; when
    [setValue] raises, the statement that unblocks them is not reached. *)
Definition update_height_maintain_ratio : M unit :=
  fun st =>
    if maintain_ratio st && (0 <? fst (original_size st)) then
      (new_height <- lift (scaled_dimension (Qt.value (width_spin st))
                             (snd (original_size st))
                             (fst (original_size st))) ;;
       modify (fun s =>
                 set_height_spin (Qt.blockSignals true (height_spin s)) s) ;;
       v <- lift (Qt.int_argument new_height) ;;
       modify (fun s => set_height_spin (Qt.setValue v (height_spin s)) s) ;;
       modify (fun s =>
                 set_height_spin (Qt.blockSignals false (height_spin s)) s)) st
    else Some (Py.Ok tt, st).

(** [update_width_maintain_ratio]: runs when the height spin box changed. *)
Definition update_width_maintain_ratio : M unit :=
  fun st =>
    if maintain_ratio st && (0 <? snd (original_size st)) then
      (new_width <- lift (scaled_dimension (Qt.value (height_spin st))
                            (fst (original_size st))
                            (snd (original_size st))) ;;
       modify (fun s =>
                 set_width_spin (Qt.blockSignals true (width_spin s)) s) ;;
       v <- lift (Qt.int_argument new_width) ;;
       modify (fun s => set_width_spin (Qt.setValue v (width_spin s)) s) ;;
       modify (fun s =>
                 set_width_spin (Qt.blockSignals false (width_spin s)) s)) st
    else Some (Py.Ok tt, st).

(** The pair the spec calls the edited Dimensions. *)
Definition dimensions (st : State) : Z * Z :=
  (Qt.value (width_spin st), Qt.value (height_spin st)).

(** ** Strings *)

Module Str.

(** The double quote and the line feed, which the SVG template needs. *)
Definition dquote : string := String (ascii_of_nat 34) EmptyString.
Definition lf : string := String (ascii_of_nat 10) EmptyString.

(** [str(n)] for an integer. *)
Definition of_int (n : Z) : string :=
  DecimalString.NilZero.string_of_int (Z.to_int n).

(** [c.lower()] on one ASCII character. *)
Definition lower_ascii (c : ascii) : ascii :=
  let n := nat_of_ascii c in
  if (Nat.leb 65 n && Nat.leb n 90)%bool then ascii_of_nat (n + 32) else c.

(** [s.lower()]. *)
Fixpoint lower (s : string) : string :=
  match s with
  | EmptyString => EmptyString
  | String c r => String (lower_ascii c) (lower r)
  end.

(** [s.endswith(suffix)]. *)
Definition endswith (s suffix : string) : bool :=
  let n := String.length s in
  let k := String.length suffix in
  (Nat.leb k n && String.eqb (String.substring (n - k) k s) suffix)%bool.

(** [s.startswith(pat)]. *)
Fixpoint startswith (pat s : string) : bool :=
  match pat with
  | EmptyString => true
  | String a pat' =>
      match s with
      | EmptyString => false
      | String b s' => (Ascii.eqb a b && startswith pat' s')%bool
      end
  end.

(** Number of places at which [pat] occurs in [s]. *)
Fixpoint count (pat s : string) : nat :=
  match s with
  | EmptyString => if startswith pat EmptyString then 1%nat else 0%nat
  | String _ r => ((if startswith pat s then 1 else 0) + count pat r)%nat
  end.

(** No character of [s] opens a tag or ends an attribute value. *)
Fixpoint plain (s : string) : bool :=
  match s with
  | EmptyString => true
  | String c r =>
      (negb (Ascii.eqb c (ascii_of_nat 60))
       && negb (Ascii.eqb c (ascii_of_nat 34)) && plain r)%bool
  end.

End Str.

(** ** Base 64, as [base64.b64encode] produces it *)

Module Base64.

Definition alphabet : string :=
  "ABCDEFGHIJKLMNOPQRSTUVWXYZabcdefghijklmnopqrstuvwxyz0123456789+/".

Definition pad : ascii := ascii_of_nat 61.

(** Six bits, most significant first. *)
Definition sextet : Type := bool * bool * bool * bool * bool * bool.

Definition sextet_index (s : sextet) : nat :=
  let '(b5, b4, b3, b2, b1, b0) := s in
  (Nat.b2n b5 * 32 + Nat.b2n b4 * 16 + Nat.b2n b3 * 8
   + Nat.b2n b2 * 4 + Nat.b2n b1 * 2 + Nat.b2n b0)%nat.

Definition char_of_sextet (s : sextet) : ascii :=
  match String.get (sextet_index s) alphabet with
  | Some c => c
  | None => pad
  end.

Definition sextet_of_index (n : nat) : sextet :=
  (Nat.testbit n 5, Nat.testbit n 4, Nat.testbit n 3,
   Nat.testbit n 2, Nat.testbit n 1, Nat.testbit n 0).

Definition sextet_of_char (c : ascii) : option sextet :=
  let n := nat_of_ascii c in
  if (Nat.leb 65 n && Nat.leb n 90)%bool then Some (sextet_of_index (n - 65))
  else if (Nat.leb 97 n && Nat.leb n 122)%bool then Some (sextet_of_index (n - 71))
  else if (Nat.leb 48 n && Nat.leb n 57)%bool then Some (sextet_of_index (n + 4))
  else if Nat.eqb n 43 then Some (sextet_of_index 62)
  else if Nat.eqb n 47 then Some (sextet_of_index 63)
  else None.

(** Three bytes make four characters; a last group of one or two bytes
    is filled with zero bits and padded. *)
Fixpoint b64encode (s : string) : string :=
  match s with
  | EmptyString => EmptyString
  | String (Ascii a0 a1 a2 a3 a4 a5 a6 a7) EmptyString =>
      String (char_of_sextet (a7, a6, a5, a4, a3, a2))
        (String (char_of_sextet (a1, a0, false, false, false, false))
           (String pad (String pad EmptyString)))
  | String (Ascii a0 a1 a2 a3 a4 a5 a6 a7)
      (String (Ascii b0 b1 b2 b3 b4 b5 b6 b7) EmptyString) =>
      String (char_of_sextet (a7, a6, a5, a4, a3, a2))
        (String (char_of_sextet (a1, a0, b7, b6, b5, b4))
           (String (char_of_sextet (b3, b2, b1, b0, false, false))
              (String pad EmptyString)))
  | String (Ascii a0 a1 a2 a3 a4 a5 a6 a7)
      (String (Ascii b0 b1 b2 b3 b4 b5 b6 b7)
         (String (Ascii c0 c1 c2 c3 c4 c5 c6 c7) rest)) =>
      String (char_of_sextet (a7, a6, a5, a4, a3, a2))
        (String (char_of_sextet (a1, a0, b7, b6, b5, b4))
           (String (char_of_sextet (b3, b2, b1, b0, c7, c6))
              (String (char_of_sextet (c5, c4, c3, c2, c1, c0))
                 (b64encode rest))))
  end.

(** The inverse reading, four characters at a time. *)
Fixpoint b64decode (s : string) : option string :=
  match s with
  | EmptyString => Some EmptyString
  | String x1 (String x2 (String x3 (String x4 rest))) =>
      match sextet_of_char x1, sextet_of_char x2 with
      | Some (a7, a6, a5, a4, a3, a2), Some (a1, a0, b7, b6, b5, b4) =>
          let a := Ascii a0 a1 a2 a3 a4 a5 a6 a7 in
          match sextet_of_char x3, sextet_of_char x4 with
          | Some (b3, b2, b1, b0, c7, c6), Some (c5, c4, c3, c2, c1, c0) =>
              match b64decode rest with
              | Some r =>
                  Some (String a
                          (String (Ascii b0 b1 b2 b3 b4 b5 b6 b7)
                             (String (Ascii c0 c1 c2 c3 c4 c5 c6 c7) r)))
              | None => None
              end
          | Some (b3, b2, b1, b0, _, _), None =>
              if (Ascii.eqb x4 pad && String.eqb rest EmptyString)%bool
              then Some (String a
                           (String (Ascii b0 b1 b2 b3 b4 b5 b6 b7) EmptyString))
              else None
          | None, None =>
              if (Ascii.eqb x3 pad && Ascii.eqb x4 pad
                  && String.eqb rest EmptyString)%bool
              then Some (String a EmptyString)
              else None
          | None, Some _ => None
          end
      | _, _ => None
      end
  | _ => None
  end.

End Base64.

(** ** The SVG document of [save_as_svg_direct]

    The f-string of the source, with the three values it interpolates. *)

Definition svg_template (w h payload : string) : string :=
  let q := Str.dquote in
  ("<?xml version=" ++ q ++ "1.0" ++ q ++ " encoding=" ++ q ++ "UTF-8" ++ q
   ++ " standalone=" ++ q ++ "no" ++ q ++ "?>" ++ Str.lf
   ++ "            <svg xmlns=" ++ q ++ "http://www.w3.org/2000/svg" ++ q ++ " " ++ Str.lf
   ++ "                 xmlns:xlink=" ++ q ++ "http://www.w3.org/1999/xlink" ++ q ++ " " ++ Str.lf
   ++ "                 width=" ++ q ++ w ++ q ++ " height=" ++ q ++ h ++ q
   ++ " viewBox=" ++ q ++ "0 0 " ++ w ++ " " ++ h ++ q ++ ">" ++ Str.lf
   ++ "                <image width=" ++ q ++ w ++ q ++ " height=" ++ q ++ h ++ q ++ " " ++ Str.lf
   ++ "                       xlink:href=" ++ q ++ "data:image/png;base64," ++ payload ++ q ++ "/>" ++ Str.lf
   ++ "            </svg>")%string.

Definition svg_document (width height : Z) (payload : string) : string :=
  svg_template (Str.of_int width) (Str.of_int height) payload.

(** ** The application *)

Section App.

Variable env : Env.

(** [format_changed]: the slot of the format combo box. *)
Definition format_changed (format_name : format) (st : State) : State :=
  if format_eqb format_name SVG then
    set_remove_bg_check
      (Qt.setChecked false (Qt.setEnabled false (remove_bg_check st))) st
  else
    set_remove_bg_check
      (Qt.setEnabled (REMBG_AVAILABLE st) (remove_bg_check st)) st.

(** [format_combo.setCurrentText]: the slot runs when the text changes. *)
Definition setCurrentText (f : format) (st : State) : State :=
  if format_eqb (format_combo st) f then st
  else format_changed f (set_format_combo f st).

(** *** BackgroundRemovalCoordinator *)

(** [BackgroundRemovalThread.run]: the signals the thread emits, in
    order. *)
Definition BackgroundRemovalThread_run (available : bool) (img : PIL.Image)
  : list signal :=
  if negb available then [error "rembg library not available"]
  else
    progress 10 ::
    match np_array env img with
    | Py.Ok img_array =>
        progress 30 ::
        match new_session env with
        | Py.Ok _ =>
            progress 50 ::
            match remove env img_array with
            | Py.Ok output_array =>
                progress 80 ::
                match fromarray env output_array with
                | Py.Ok output_image =>
                    [progress 100; finished output_image]
                | Py.Raise e => [error (str_exn env e)]
                end
            | Py.Raise e => [error (str_exn env e)]
            end
        | Py.Raise e => [error (str_exn env e)]
        end
    | Py.Raise e => [error (str_exn env e)]
    end.

(** [update_progress]. *)
Definition update_progress (v : Z) (st : State) : State :=
  set_progress_bar v st.

(** [on_bg_removal_finished]. *)
Definition on_bg_removal_finished (result_image : PIL.Image) (st : State)
  : State :=
  set_processing_dialog_open false
    (set_processed_image (Some result_image) st).

(** [on_bg_removal_error]. *)
Definition on_bg_removal_error (error_message : string) (st : State)
  : State :=
  record_event (EvMessage Warning "Background Removal Error")
    (set_processing_dialog_open false st).

(** The slot connected to each signal. *)
Definition deliver (s : signal) (st : State) : State :=
  match s with
  | progress v => update_progress v st
  | finished img => on_bg_removal_finished img st
  | error msg => on_bg_removal_error msg st
  end.

(** [processing_dialog.exec_()]: the modal event loop hands the queued
    signals to their slots until one of them accepts the dialog; it
    returns the signals not yet handed over.  With no signal left and the
    dialog still open it never returns. *)
Fixpoint exec_ (sigs : list signal) : M (list signal) :=
  fun st =>
    match sigs with
    | [] => None
    | s :: rest =>
        let st' := deliver s st in
        if processing_dialog_open st' then exec_ rest st'
        else Some (Py.Ok rest, st')
    end.

(** [apply_background_removal]. *)
Definition apply_background_removal (img : PIL.Image) : M PIL.Image :=
  fun st =>
    if negb (REMBG_AVAILABLE st) || negb (Qt.isChecked (remove_bg_check st))
    then Some (Py.Ok img, st)
    else
      try_except
        (lift (import_rembg env) ;;
         available <- get REMBG_AVAILABLE ;;
         let sigs := BackgroundRemovalThread_run available img in
         modify (set_bg_thread (Some {| image := img; pending := sigs |})) ;;
         modify (record_event (EvThreadStart img)) ;;
         modify (set_processing_dialog_open true) ;;
         rest <- exec_ sigs ;;
         modify (set_bg_thread (Some {| image := img; pending := rest |})) ;;
         p <- get processed_image ;;
         match p with
         | Some processed =>
             modify (set_processed_image None) ;; ret processed
         | None => ret img
         end)
        (fun e =>
           show_message Critical "Background Removal Error" ;; ret img)
        st.

(** *** FormatEncoder and persistence *)

(** [img.resize(new_size, Image.Resampling.LANCZOS)]. *)
Definition resize (img : PIL.Image) (new_size : Z * Z) : M PIL.Image :=
  modify (record_event (EvResize new_size)) ;;
  px <- lift (resample env img new_size) ;;
  ret {| PIL.mode := PIL.mode img; PIL.size := new_size; PIL.pixels := px |}.

(** The writer [Image.save] runs for format [f].  The ICO writer settles
    first which frames it stores and announces their number in the header;
    how it packs them is left to the environment. *)
Definition run_encoder (f : format) (img : PIL.Image) (p : PIL.save_params)
  : Py.outcome string :=
  match f with
  | ICO =>
      let frames := PIL.ico_frames img p in
      Py.obind
        (encode env ICO img
           {| PIL.quality := PIL.quality p; PIL.sizes := Some frames |})
        (fun packed => Py.Ok (PIL.ico_file frames packed))
  | _ => encode env f img p
  end.

(** [img.save(buffer, format=f, ...)] into memory. *)
Definition save_to_buffer (img : PIL.Image) (f : format)
    (p : PIL.save_params) : M string :=
  modify (record_event (EvEncode f img p)) ;;
  lift (run_encoder f img p).

(** [img.save(file_path, ...)]: the library opens the destination, then
    runs the encoder of the format into it. *)
Definition save_to_path (img : PIL.Image) (file_path : string) (f : format)
    (p : PIL.save_params) : M unit :=
  if can_write env file_path then
    modify (record_event (EvOpen file_path)) ;;
    modify (record_event (EvEncode f img p)) ;;
    fun st =>
      match run_encoder f img p with
      | Py.Ok data =>
          Some (Py.Ok tt, set_files (<[file_path := data]> (files st)) st)
      | Py.Raise e =>
          Some (Py.Raise e,
                set_files
                  (partial_alter (save_residue_at env) file_path (files st))
                  st)
      end
  else raise (Py.OSError "cannot open destination").

(** [with open(file_path, 'w') as f: f.write(text)]. *)
Definition write_text (file_path text : string) : M unit :=
  if can_write env file_path then
    modify (record_event (EvOpen file_path)) ;;
    modify (fun st => set_files (<[file_path := text]> (files st)) st)
  else raise (Py.OSError "cannot open destination").

(** [save_as_svg_direct]. *)
Definition save_as_svg_direct (img : PIL.Image) (file_path : string)
    (quality : Z) : M unit :=
  try_except
    (png_data <- save_to_buffer img PNG
                   {| PIL.quality := Some quality; PIL.sizes := None |} ;;
     let '(width, height) := PIL.size img in
     let svg := svg_document width height (Base64.b64encode png_data) in
     write_text file_path svg)
    (fun e => raise e).

(** The list of icon sizes [save_image] builds from the check boxes. *)
Definition icon_sizes (st : State) : list (Z * Z) :=
  let sizes :=
    (if size_16 st then [(16, 16)] else [])
    ++ (if size_32 st then [(32, 32)] else [])
    ++ (if size_48 st then [(48, 48)] else [])
    ++ (if size_64 st then [(64, 64)] else [])
    ++ (if size_128 st then [(128, 128)] else [])
    ++ (if size_256 st then [(256, 256)] else []) in
  match sizes with
  | [] => [(32, 32)]
  | _ => sizes
  end.

(** The JPEG branch: an RGBA image is laid over white first. *)
Definition flatten_for_jpeg (img : PIL.Image) : M PIL.Image :=
  if String.eqb (PIL.mode img) "RGBA" then
    let white_bg := PIL.new "RGBA" (PIL.size img) PIL.white in
    composed <- lift (PIL.alpha_composite white_bg img) ;;
    ret (PIL.convert_RGB composed)
  else ret img.

(** The format dispatch of [save_image]: encode and write. *)
Definition encode_and_write (selected_format : format) (file_path : string)
    (img_to_save : PIL.Image) : M unit :=
  match selected_format with
  | JPEG =>
      img_to_save <- flatten_for_jpeg img_to_save ;;
      q <- get (fun st => Qt.value (quality_slider st)) ;;
      save_to_path img_to_save file_path JPEG
        {| PIL.quality := Some q; PIL.sizes := None |}
  | ICO =>
      sizes <- get icon_sizes ;;
      save_to_path img_to_save file_path ICO
        {| PIL.quality := None; PIL.sizes := Some sizes |}
  | SVG =>
      q <- get (fun st => Qt.value (svg_quality_slider st)) ;;
      save_as_svg_direct img_to_save file_path q
  | other => save_to_path img_to_save file_path other PIL.no_params
  end.

(** The body of the try block of [save_image]. *)
Definition save_image_body (cur : PIL.Image) (selected_format : format)
    (file_path : string) : M unit :=
  modify (set_progress_bar 20) ;;
  let img_to_save := cur in
  new_size <- get dimensions ;;
  img_to_save <- resize img_to_save new_size ;;
  modify (set_progress_bar 40) ;;
  checked <- get (fun st => Qt.isChecked (remove_bg_check st)) ;;
  available <- get REMBG_AVAILABLE ;;
  img_to_save <-
    (if checked && available && negb (format_eqb selected_format SVG)
     then apply_background_removal img_to_save
     else ret img_to_save) ;;
  modify (set_progress_bar 80) ;;
  encode_and_write selected_format file_path img_to_save ;;
  modify (set_progress_bar 100) ;;
  show_message Information "Success".

(** The extension is added when the chosen path does not end with it. *)
Definition with_extension (file_path file_ext : string) : string :=
  if Str.endswith (Str.lower file_path) (Str.lower file_ext)
  then file_path
  else (file_path ++ file_ext)%string.

(** [save_image]. *)
Definition save_image : M unit :=
  fun st =>
    match current_image st with
    | None => show_message Warning "Warning" st
    | Some cur =>
        let selected_format := format_combo st in
        let '(selected_format, st) :=
          if format_eqb selected_format JPEG
             && Qt.isChecked (remove_bg_check st)
          then
            let st := record_event (EvMessage Question "JPEG") st in
            if jpeg_warning_yes env then (selected_format, st)
            else (PNG, setCurrentText PNG st)
          else (selected_format, st) in
        let file_ext := format_mapping selected_format in
        let file_path := save_dialog_path env in
        if String.eqb file_path EmptyString then Some (Py.Ok tt, st)
        else
          let file_path := with_extension file_path file_ext in
          try_except
            (save_image_body cur selected_format file_path)
            (fun e =>
               modify (set_progress_bar 0) ;;
               show_message Critical "Error")
            st
    end.

(** [refresh_rembg_status]: the capability is looked up again, the
    removal box follows it, and one message tells the result. *)
Definition refresh_rembg_status : M bool :=
  fun st =>
    let was_available := REMBG_AVAILABLE st in
    let st := set_REMBG_AVAILABLE (initialize_rembg env) st in
    let available := REMBG_AVAILABLE st in
    let st :=
      set_remove_bg_check (Qt.setEnabled available (remove_bg_check st)) st in
    let kind :=
      if available && rembg_in_sys_modules env then Information
      else if negb (Bool.eqb was_available available) then
        (if available then Information else Warning)
      else Warning in
    Some (Py.Ok available, record_event (EvMessage kind "rembg Status") st).

(** *** Loading and previewing *)

(** [display_image]: the label shows what the file holds; [QPixmap] does
    not raise on a file it cannot read. *)
Definition display_image (image_path : string) : M unit :=
  modify (record_event (EvDisplay image_path)).

(** A slot run by a signal the program itself emits: an exception that
    leaves the slot does not reach the statement that emitted the signal,
    PyQt5 ends the process. *)
Definition run_slot (slot : M unit) : M unit :=
  fun st =>
    match slot st with
    | Some (Py.Raise _, _) => None
    | r => r
    end.

(** [self.width_spin.setValue(v)]: [valueChanged] is emitted when the value
    changes and the signals of the box are not blocked, and runs
    [update_height_maintain_ratio]. *)
Definition width_spin_setValue (v : Z) : M unit :=
  i <- lift (Qt.int_argument v) ;;
  fun st =>
    let box := Qt.setValue i (width_spin st) in
    let st' := set_width_spin box st in
    if (Qt.value box =? Qt.value (width_spin st)) || Qt.signalsBlocked box
    then Some (Py.Ok tt, st')
    else run_slot update_height_maintain_ratio st'.

(** [self.height_spin.setValue(v)], likewise with
    [update_width_maintain_ratio]. *)
Definition height_spin_setValue (v : Z) : M unit :=
  i <- lift (Qt.int_argument v) ;;
  fun st =>
    let box := Qt.setValue i (height_spin st) in
    let st' := set_height_spin box st in
    if (Qt.value box =? Qt.value (height_spin st)) || Qt.signalsBlocked box
    then Some (Py.Ok tt, st')
    else run_slot update_width_maintain_ratio st'.

(** [load_image]. *)
Definition load_image : M unit :=
  let file_path := open_dialog_path env in
  if String.eqb file_path EmptyString then ret tt
  else
    try_except
      (modify (set_current_image_path (Some file_path)) ;;
       img <- lift (image_open env file_path) ;;
       modify (set_current_image (Some img)) ;;
       modify (set_original_size (PIL.size img)) ;;
       w <- get (fun st => fst (original_size st)) ;;
       width_spin_setValue w ;;
       h <- get (fun st => snd (original_size st)) ;;
       height_spin_setValue h ;;
       display_image file_path)
      (fun e => show_message Critical "Error").

(** [toggle_aspect_ratio], with the state the click left the button in. *)
Definition toggle_aspect_ratio (ratio_btn_isChecked : bool) (st : State)
  : State :=
  set_maintain_ratio ratio_btn_isChecked st.

(** [preview_changes].  The timer that resets the progress bar a second
    later is a later event. *)
Definition preview_changes : M unit :=
  fun st =>
    match current_image st with
    | None => show_message Warning "Warning" st
    | Some cur =>
        try_except
          (modify (set_progress_bar 10) ;;
           new_size <- get dimensions ;;
           preview_image <- resize cur new_size ;;
           modify (set_progress_bar 40) ;;
           checked <- get (fun st => Qt.isChecked (remove_bg_check st)) ;;
           available <- get REMBG_AVAILABLE ;;
           preview_image <-
             (if checked && available
              then apply_background_removal preview_image
              else ret preview_image) ;;
           modify (set_progress_bar 80) ;;
           save_to_path preview_image (temp_preview_path env) PNG
             PIL.no_params ;;
           display_image (temp_preview_path env) ;;
           modify (set_progress_bar 100))
          (fun e =>
             modify (set_progress_bar 0) ;;
             show_message Critical "Error")
          st
    end.

End App.

(** ** Vocabulary of the statements *)

Section Vocabulary.

Variable env : Env.

(** The image [save_image] holds after the resize stage. *)
Definition resized (cur : PIL.Image) (new_size : Z * Z) (px : list PIL.pixel)
  : PIL.Image :=
  {| PIL.mode := PIL.mode cur; PIL.size := new_size; PIL.pixels := px |}.

(** What is left of [save_image_body] once the image to save is known. *)
Definition finish_export (f : format) (path : string) (img : PIL.Image)
  : M unit :=
  modify (set_progress_bar 80) ;;
  encode_and_write env f path img ;;
  modify (set_progress_bar 100) ;;
  show_message Information "Success".

(** The except clause of [save_image]. *)
Definition on_save_error (e : Py.exn) : M unit :=
  modify (set_progress_bar 0) ;; show_message Critical "Error".

(** The format the export runs with: PNG when the JPEG question was
    answered No. *)
Definition effective_format (st : State) : format :=
  if format_eqb (format_combo st) JPEG && Qt.isChecked (remove_bg_check st)
     && negb (jpeg_warning_yes env)
  then PNG else format_combo st.

(** The state once the JPEG question has been dealt with. *)
Definition after_question (st : State) : State :=
  if format_eqb (format_combo st) JPEG && Qt.isChecked (remove_bg_check st)
  then
    let st := record_event (EvMessage Question "JPEG") st in
    if jpeg_warning_yes env then st else setCurrentText PNG st
  else st.

(** The path the export writes. *)
Definition destination (st : State) : string :=
  with_extension (save_dialog_path env) (format_mapping (effective_format st)).



(** [finished] and [error] end a job. *)
Definition is_terminal (s : signal) : bool :=
  match s with progress _ => false | _ => true end.

Definition progress_value (s : signal) : option Z :=
  match s with progress v => Some v | _ => None end.

(** No job is in flight: the processing dialog is closed and the thread
    the window refers to, if any, has no signal left to hand over. *)
Definition idle (st : State) : Prop :=
  processing_dialog_open st = false
  /\ match bg_thread st with
     | Some t => pending t = []
     | None => True
     end.

(** What a started job hands back: the image of its [finished] signal,
    or else what [processed_image] held, or else the input. *)
Definition job_result (img : PIL.Image) (st : State) (last : signal)
  : PIL.Image :=
  match last with
  | finished out => out
  | _ => match processed_image st with Some p => p | None => img end
  end.

(** A band of a pixel is a byte. *)
Definition is_byte (z : Z) : Prop := 0 <= z <= 255.

Definition pixel_ok (p : PIL.pixel) : Prop :=
  let '(r, g, b, a) := p in is_byte r /\ is_byte g /\ is_byte b /\ is_byte a.

(** [v] is a nearest integer to the blend the specification gives for a
    band [c] under alpha [a] over white,
    [c * a / 255 + 255 * (1 - a / 255)]. *)
Definition nearest_blend (c a v : Z) : Prop :=
  Z.abs (255 * v - (c * a + 255 * (255 - a))) <= 127.

(** An output pixel is the input pixel blended over white, opaque. *)
Definition blended_over_white (src out : PIL.pixel) : Prop :=
  let '(r, g, b, a) := src in
  let '(r', g', b', a') := out in
  nearest_blend r a r' /\ nearest_blend g a g' /\ nearest_blend b a b'
  /\ a' = 255.

(** The 256 values of a band. *)
Definition byte_range : list Z := map Z.of_nat (seq 0 256).

(** A band of [src] laid over white, as the library computes it. *)
Definition band_over_white (c a : Z) : Z :=
  if a =? 0 then 255
  else
    let coef1 := a * 255 * 255 * Z.shiftl 1 PIL.precision_bits
                 / (a * 255 + 255 * (255 - a)) in
    PIL.composite_band coef1 (255 * Z.shiftl 1 PIL.precision_bits - coef1) c 255.

(** The alpha band of [src] laid over white. *)
Definition alpha_over_white (a : Z) : Z :=
  if a =? 0 then 255
  else PIL.shift_for_div255 (a * 255 + 255 * (255 - a) + 128).

(** [name="value"], as an attribute stands in a tag. *)
Definition attribute (name value : string) : string :=
  (name ++ "=" ++ Str.dquote ++ value ++ Str.dquote)%string.

(** [r] is an integer nearest to [n / d]: what any rounding of the
    quotient returns. *)
Definition nearest (n d r : Z) : Prop := 2 * Z.abs (r * d - n) <= d.

(** [t] is [n / d] without its fraction, or one less when the quotient
    is whole. *)
Definition truncated (n d t : Z) : Prop := t * d <= n <= (t + 1) * d.

(** The values a spin box of the window can hold. *)
Definition spin_range : list Z := map Z.of_nat (seq 1 (Z.to_nat 9999)).

(** [f] is the integer [w] written with 53 binary digits. *)
Definition exact_float (w : Z) (f : Py.outcome Py.float) : bool :=
  match f with
  | Py.Ok (S754_finite false m e) =>
      (-52 <=? e) && (e <=? -39) && (Zpos m =? w * 2 ^ (- e))
      && (2 ^ 52 <=? Zpos m) && (Zpos m <? 2 ^ 53)
  | _ => false
  end.

(** The record [(m, r, s)] of a rounding step places the exact value
    [N / D] between [m] and [m + 1]: on [m], below the middle, on it, or
    above it. *)
Definition placed (mrs : shr_record) (N D : Z) : Prop :=
  0 < D /\ 0 <= N - shr_m mrs * D < D
  /\ match shr_r mrs, shr_s mrs with
     | false, false => N - shr_m mrs * D = 0
     | false, true => 0 < 2 * (N - shr_m mrs * D) < D
     | true, false => 2 * (N - shr_m mrs * D) = D
     | true, true => D < 2 * (N - shr_m mrs * D)
     end.

End Vocabulary.

(** ** Frames: what a command may change *)

(** What the user has set in the window. *)
Definition settings (st : State) :=
  (current_image st, current_image_path st, original_size st,
   width_spin st, height_spin st, maintain_ratio st,
   format_combo st, remove_bg_check st,
   (size_16 st, size_32 st, size_48 st, size_64 st, size_128 st, size_256 st),
   quality_slider st, svg_quality_slider st, REMBG_AVAILABLE st).

Definition same_settings (st st' : State) : Prop := settings st' = settings st.

(** The events a command has added to the log. *)
Definition events_since (st st' : State) : list event :=
  drop (length (log st)) (log st').

(** The log has grown by events that satisfy [P]. *)
Definition logged (P : event -> Prop) (st st' : State) : Prop :=
  exists evs, log st' = log st ++ evs /\ Forall P evs.

(** Only the file at [path] may differ. *)
Definition only_file (path : string) (st st' : State) : Prop :=
  forall q, q <> path -> files st' !! q = files st !! q.

(** Whenever the command returns, the states before and after are related
    by [R]. *)
Definition preserves {A} (R : State -> State -> Prop) (c : M A) : Prop :=
  forall st r st', c st = Some (r, st') -> R st st'.

(** The command returns from every state. *)
Definition returns {A} (c : M A) : Prop :=
  forall st, exists r st', c st = Some (r, st').

(** A relation between states that every step of the pipeline respects,
    for the events in [ok_event] and the paths in [ok_path]. *)
Class Frame (R : State -> State -> Prop) (ok_event : event -> Prop)
    (ok_path : string -> Prop) : Prop := {
  frame_refl : forall s, R s s;
  frame_trans : forall s1 s2 s3, R s1 s2 -> R s2 s3 -> R s1 s3;
  frame_progress : forall v s, R s (set_progress_bar v s);
  frame_processed : forall v s, R s (set_processed_image v s);
  frame_thread : forall v s, R s (set_bg_thread v s);
  frame_dialog : forall v s, R s (set_processing_dialog_open v s);
  frame_event : forall e s, ok_event e -> R s (record_event e s);
  frame_files : forall m s,
      (forall q, ~ ok_path q -> m !! q = files s !! q) -> R s (set_files m s)
}.

(** The events of an export in format [f] to [path]: the resize, the
    removal job and its messages, the destination opened, and the encoder
    of the format run on an image it can take (PNG for the SVG
    document). *)
Definition export_event (f : format) (path : string) (e : event) : bool :=
  match e with
  | EvResize _ | EvThreadStart _ | EvMessage _ _ => true
  | EvOpen p => String.eqb p path
  | EvEncode g img _ =>
      if format_eqb f SVG then format_eqb g PNG
      else format_eqb g f
           && negb (format_eqb f JPEG && String.eqb (PIL.mode img) "RGBA")
  | EvDisplay _ => false
  end.

(** The events of a preview. *)
Definition preview_event (path : string) (e : event) : bool :=
  match e with
  | EvResize _ | EvThreadStart _ | EvMessage _ _ => true
  | EvOpen p | EvDisplay p => String.eqb p path
  | EvEncode g _ _ => format_eqb g PNG
  end.

(** The guard of the window: with SVG selected the removal box is not
    ticked. *)
Definition svg_guard (st : State) : Prop :=
  format_combo st = SVG -> Qt.isChecked (remove_bg_check st) = false.

(** The format and the tick of the removal box are as they were. *)
Definition same_choice (st st' : State) : Prop :=
  format_combo st' = format_combo st
  /\ Qt.isChecked (remove_bg_check st') = Qt.isChecked (remove_bg_check st).

(** ** A small concrete world, for examples *)

Module Demo.

Definition rgba (px : list PIL.pixel) (w h : Z) : PIL.Image :=
  {| PIL.mode := "RGBA"; PIL.size := (w, h); PIL.pixels := px |}.

(** The sizes of the frames of an icon, as the demonstration writes
    them. *)
Fixpoint demo_frames (l : list (Z * Z)) : string :=
  match l with
  | [] => EmptyString
  | (w, h) :: r =>
      (" " ++ Str.of_int w ++ "x" ++ Str.of_int h ++ demo_frames r)%string
  end.

(** The encoders of the demonstration: JPEG takes no image with alpha;
    every encoder writes the mode and the size, then the sizes it was
    handed, and ignores the rest. *)
Definition demo_encode (f : format) (img : PIL.Image) (p : PIL.save_params)
  : Py.outcome string :=
  if format_eqb f JPEG && String.eqb (PIL.mode img) "RGBA"
  then Py.Raise (Py.OSError "cannot write mode RGBA as JPEG")
  else Py.Ok (PIL.mode img ++ ":" ++ Str.of_int (fst (PIL.size img))
              ++ "x" ++ Str.of_int (snd (PIL.size img))
              ++ match PIL.sizes p with
                 | Some l => demo_frames l
                 | None => EmptyString
                 end)%string.

(** The picture the open dialog of the examples leads to. *)
Definition small : PIL.Image := rgba (replicate 6 (200, 100, 50, 255)) 3 2.

(** A world: the answer to the JPEG question, the picture the open
    dialog leads to, whether the segmentation call raises, and the path
    the save dialog returns. *)
Definition demo_env_with (answer : bool) (opened : PIL.Image)
    (engine_fails : bool) (path : string) : Env :=
  {| open_dialog_path := "in.png";
     image_open := fun _ => Py.Ok opened;
     temp_preview_path := "temp/temp_preview.png";
     jpeg_warning_yes := answer;
     save_dialog_path := path;
     resample := fun img sz =>
       Py.Ok (replicate (Z.to_nat (fst sz * snd sz)) (10, 20, 30, 128));
     encode := demo_encode;
     can_write := fun _ => true;
     save_residue_at := fun _ => None;
     import_rembg := Py.Ok tt;
     np_array := fun img => Py.Ok img;
     new_session := Py.Ok tt;
     remove := fun img =>
       if engine_fails then Py.Raise (Py.RuntimeError "engine")
       else Py.Ok (rgba (map (fun '(r, g, b, _) => (r, g, b, 0)) (PIL.pixels img))
                     (fst (PIL.size img)) (snd (PIL.size img)));
     fromarray := fun img => Py.Ok img;
     str_exn := fun _ => "engine";
     initialize_rembg := true;
     rembg_in_sys_modules := true |}.

(** [engine_fails] makes the segmentation call raise. *)
Definition demo_env (engine_fails : bool) (path : string) : Env :=
  demo_env_with true small engine_fails path.

Definition spin (v : Z) : Qt.SpinBox :=
  {| Qt.minimum := 1; Qt.maximum := 9999; Qt.value := v;
     Qt.signalsBlocked := false |}.

Definition slider (v : Z) : Qt.SpinBox :=
  {| Qt.minimum := 1; Qt.maximum := 100; Qt.value := v;
     Qt.signalsBlocked := false |}.

(** The window after [load_image] read a picture of the original size,
    with the given spin box values, format and check box. *)
Definition demo_state (original : Z * Z) (w h : Z) (f : format)
    (remove_bg : bool) : State :=
  {| current_image :=
       Some (rgba (replicate (Z.to_nat (fst original * snd original))
                     (200, 100, 50, 255))
               (fst original) (snd original));
     current_image_path := None;
     original_size := original;
     width_spin := spin w; height_spin := spin h;
     maintain_ratio := true;
     format_combo := f;
     remove_bg_check := {| Qt.isChecked := remove_bg; Qt.isEnabled := true |};
     size_16 := true; size_32 := true; size_48 := false;
     size_64 := false; size_128 := false; size_256 := false;
     quality_slider := slider 85; svg_quality_slider := slider 85;
     progress_bar := 0; processed_image := None; bg_thread := None;
     processing_dialog_open := false;
     REMBG_AVAILABLE := true;
     files := ∅; log := [] |}.


(** The world and the windows of the examples. *)
Definition world : Env := demo_env false "out".

Definition failing_world : Env := demo_env true "out".

(** The JPEG question is answered No. *)
Definition declining_world : Env :=
  demo_env_with false small false "out".

(** The open dialog leads to a picture of 2 x 49. *)
Definition tall_world : Env :=
  demo_env_with true (rgba (replicate 98 (200, 100, 50, 255)) 2 49) false "out".

Definition loaded (f : format) (remove_bg : bool) : State :=
  demo_state (4, 2) 2 1 f remove_bg.

Definition dot : PIL.Image := rgba [(10, 20, 30, 128)] 1 1.

(** The picture [loaded] holds. *)
Definition picture : PIL.Image := rgba (replicate 8 (200, 100, 50, 255)) 4 2.

Definition ticked : Qt.CheckBox := {| Qt.isChecked := true; Qt.isEnabled := true |}.

End Demo.

(** * Theorems *)

(** ** Running commands *)

Lemma run_bind_ret {A B} (a : A) (k : A -> M B) (s : State) :
  bind (ret a) k s = k a s.
Proof. reflexivity. Qed.

Lemma run_bind_modify {B} (f : State -> State) (k : unit -> M B) (s : State) :
  bind (modify f) k s = k tt (f s).
Proof. reflexivity. Qed.

Lemma run_bind_get {A B} (f : State -> A) (k : A -> M B) (s : State) :
  bind (get f) k s = k (f s) s.
Proof. reflexivity. Qed.

Lemma run_bind_lift_ok {A B} (a : A) (k : A -> M B) (s : State) :
  bind (lift (Py.Ok a)) k s = k a s.
Proof. reflexivity. Qed.

Lemma run_bind_lift_raise {A B} (e : Py.exn) (k : A -> M B) (s : State) :
  bind (lift (Py.Raise e)) k s = Some (Py.Raise e, s).
Proof. reflexivity. Qed.

Lemma run_bind_raise {A B} (e : Py.exn) (k : A -> M B) (s : State) :
  bind (raise e) k s = Some (Py.Raise e, s).
Proof. reflexivity. Qed.

Lemma run_bind_bind {A B C} (c : M A) (k : A -> M B) (k' : B -> M C) (s : State) :
  bind (bind c k) k' s = bind c (fun a => bind (k a) k') s.
Proof. unfold bind. destruct (c s) as [[[a|e] s']|]; reflexivity. Qed.

Lemma run_show_message {B} (kd : msg_kind) (t : string) (k : unit -> M B) (s : State) :
  bind (show_message kd t) k s = k tt (record_event (EvMessage kd t) s).
Proof. reflexivity. Qed.

Create Rewrite HintDb cmd.
#[export] Hint Rewrite @run_bind_bind @run_bind_ret @run_bind_modify @run_bind_get
  @run_bind_lift_ok @run_bind_lift_raise @run_bind_raise @run_show_message : cmd.

Ltac state_simpl :=
  unfold dimensions in *;
  cbn [current_image current_image_path original_size width_spin height_spin
       maintain_ratio format_combo remove_bg_check size_16 size_32 size_48
       size_64 size_128 size_256 quality_slider svg_quality_slider
       progress_bar processed_image bg_thread processing_dialog_open
       REMBG_AVAILABLE files log
       set_current_image set_current_image_path set_original_size
       set_width_spin set_height_spin set_maintain_ratio set_format_combo
       set_remove_bg_check set_progress_bar set_processed_image set_bg_thread
       set_processing_dialog_open set_files set_REMBG_AVAILABLE record_event
       run_encoder]
    in *.

Ltac run := repeat (progress (autorewrite with cmd; cbv beta; state_simpl)).

(** ** Rounding in binary64 *)

Lemma digits2_pos_bounds (p : positive) :
  2 ^ (Zpos (digits2_pos p) - 1) <= Zpos p < 2 ^ Zpos (digits2_pos p).
Proof.
  induction p as [p IH|p IH|]; cbn [digits2_pos].
  - rewrite Pos2Z.inj_succ.
    replace (Z.succ (Zpos (digits2_pos p)) - 1) with (Z.succ (Zpos (digits2_pos p) - 1)) by lia.
    rewrite !Z.pow_succ_r by lia. lia.
  - rewrite Pos2Z.inj_succ.
    replace (Z.succ (Zpos (digits2_pos p)) - 1) with (Z.succ (Zpos (digits2_pos p) - 1)) by lia.
    rewrite !Z.pow_succ_r by lia. lia.
  - simpl. lia.
Qed.

(** A number of [d] binary digits has no other number of digits. *)
Lemma digits2_pos_unique (p : positive) (d : Z) :
  0 < d -> 2 ^ (d - 1) <= Zpos p < 2 ^ d -> Zpos (digits2_pos p) = d.
Proof.
  intros Hd [Hlo Hhi]. destruct (digits2_pos_bounds p) as [Blo Bhi].
  assert (H1 : Zpos (digits2_pos p) - 1 < d).
  { apply (Z.pow_lt_mono_r_iff 2); lia. }
  assert (H2 : d - 1 < Zpos (digits2_pos p)).
  { apply (Z.pow_lt_mono_r_iff 2); lia. }
  lia.
Qed.

Lemma shr_1_placed (mrs : shr_record) (N D : Z) :
  0 <= shr_m mrs -> placed mrs N D ->
  placed (shr_1 mrs) N (2 * D) /\ shr_m (shr_1 mrs) = shr_m mrs / 2.
Proof.
  destruct mrs as [m r s]. unfold placed. cbn [shr_m shr_r shr_s].
  intros Hm (HD & Hrem & Hloc).
  destruct m as [|p|p]; [| |lia].
  - split; [|reflexivity].
    destruct r, s; cbn [shr_1 shr_m shr_r shr_s orb]; lia.
  - destruct p as [p|p|].
    + split; [|apply Z.div_unique with 1; cbn [shr_1 shr_m]; lia].
      destruct r, s; cbn [shr_1 shr_m shr_r shr_s orb]; lia.
    + split; [|apply Z.div_unique with 0; cbn [shr_1 shr_m]; lia].
      destruct r, s; cbn [shr_1 shr_m shr_r shr_s orb]; lia.
    + split; [|reflexivity].
      destruct r, s; cbn [shr_1 shr_m shr_r shr_s orb]; lia.
Qed.

Lemma iter_shr_1_placed (p : positive) :
  forall (mrs : shr_record) (N D : Z),
    0 <= shr_m mrs -> placed mrs N D ->
    placed (SpecFloat.iter_pos shr_1 p mrs) N (D * 2 ^ Zpos p)
    /\ shr_m (SpecFloat.iter_pos shr_1 p mrs) = shr_m mrs / 2 ^ Zpos p.
Proof.
  induction p as [p IH|p IH|]; intros mrs N D Hm Hp; cbn [SpecFloat.iter_pos].
  - destruct (shr_1_placed mrs N D Hm Hp) as [H1 E1].
    assert (Hm1 : 0 <= shr_m (shr_1 mrs)) by (rewrite E1; apply Z.div_pos; lia).
    destruct (IH _ _ _ Hm1 H1) as [H2 E2].
    assert (Hm2 : 0 <= shr_m (SpecFloat.iter_pos shr_1 p (shr_1 mrs)))
      by (rewrite E2; apply Z.div_pos; lia).
    destruct (IH _ _ _ Hm2 H2) as [H3 E3].
    replace (Zpos p~1) with (1 + Zpos p + Zpos p) by lia.
    rewrite !Z.pow_add_r by lia. rewrite Z.pow_1_r.
    split.
    + replace (D * (2 * 2 ^ Zpos p * 2 ^ Zpos p))
        with (2 * D * 2 ^ Zpos p * 2 ^ Zpos p) by ring. exact H3.
    + rewrite E3, E2, E1. rewrite !Z.div_div by lia. f_equal. ring.
  - destruct (IH _ _ _ Hm Hp) as [H2 E2].
    assert (Hm2 : 0 <= shr_m (SpecFloat.iter_pos shr_1 p mrs))
      by (rewrite E2; apply Z.div_pos; lia).
    destruct (IH _ _ _ Hm2 H2) as [H3 E3].
    replace (Zpos p~0) with (Zpos p + Zpos p) by lia.
    rewrite !Z.pow_add_r by lia.
    split.
    + replace (D * (2 ^ Zpos p * 2 ^ Zpos p))
        with (D * 2 ^ Zpos p * 2 ^ Zpos p) by ring. exact H3.
    + rewrite E3, E2. rewrite !Z.div_div by lia. f_equal.
  - destruct (shr_1_placed mrs N D Hm Hp) as [H1 E1].
    rewrite Z.pow_1_r. split; [|exact E1].
    replace (D * 2) with (2 * D) by ring. exact H1.
Qed.

Lemma shr_m_of_loc (m : Z) (l : location) : shr_m (shr_record_of_loc m l) = m.
Proof. destruct l as [|[]]; reflexivity. Qed.

Lemma round_nearest_even_placed (mrs : shr_record) (N D : Z) :
  placed mrs N D ->
  let m' := round_nearest_even (shr_m mrs) (loc_of_shr_record mrs) in
  shr_m mrs <= m' <= shr_m mrs + 1 /\ 2 * Z.abs (m' * D - N) <= D.
Proof.
  destruct mrs as [m r s]. unfold placed. cbn [shr_m shr_r shr_s].
  intros (HD & Hrem & Hloc).
  destruct r, s; cbn [loc_of_shr_record round_nearest_even];
    try destruct (Z.even m); split; nia.
Qed.

(** The exponent of binary64 for a number of [e] digits. *)
Lemma fexp_normal (e : Z) : -1074 <= e - 53 -> fexp 53 1024 e = e - 53.
Proof. unfold fexp, emin. lia. Qed.

(** Rounding to nearest even in the normal range: the result is a float of
    53 digits, at most half a unit of its last place from the exact value
    [N / D * 2 ^ ex]. *)
Lemma binary_round_aux_normal (mx : positive) (ex : Z) (lx : location)
    (N D : Z) :
  let d := Zpos (digits2_pos mx) in
  53 <= d -> -1074 <= d + ex - 53 -> d + ex - 53 < 971 ->
  placed (shr_record_of_loc (Zpos mx) lx) N D ->
  exists m k,
    binary_round_aux 53 1024 false (Zpos mx) ex lx = S754_finite false m (ex + k)
    /\ d - 53 <= k <= d - 52
    /\ 2 ^ 52 <= Zpos m < 2 ^ 53
    /\ 2 * Z.abs (Zpos m * (D * 2 ^ k) - N) <= D * 2 ^ k.
Proof.
  intros d. remember d as d' eqn:Ed. subst d. rename d' into d.
  intros Hd Hlo Hhi Hp.
  destruct (digits2_pos_bounds mx) as [Blo Bhi]. rewrite <- Ed in Blo, Bhi.
  unfold binary_round_aux.
  (* first shift *)
  remember (d - 53) as n eqn:En.
  assert (Hshr : exists mrs,
             shr_fexp 53 1024 (Zpos mx) ex lx = (mrs, ex + n)
             /\ placed mrs N (D * 2 ^ n)
             /\ 2 ^ 52 <= shr_m mrs < 2 ^ 53).
  { unfold shr_fexp. cbn [Zdigits2]. rewrite <- Ed.
    rewrite fexp_normal by lia.
    replace (d + ex - 53 - ex) with n by lia.
    destruct n as [|p|p]; [| |lia].
    - exists (shr_record_of_loc (Zpos mx) lx). cbn [shr].
      rewrite Z.add_0_r, Z.pow_0_r, Z.mul_1_r, shr_m_of_loc.
      assert (d = 53) by lia. subst d. split; [reflexivity|]. split; [exact Hp|].
      rewrite H in Blo, Bhi. simpl in Blo. lia.
    - cbn [shr].
      assert (Hm0 : 0 <= shr_m (shr_record_of_loc (Zpos mx) lx))
        by (rewrite shr_m_of_loc; lia).
      destruct (iter_shr_1_placed p _ N D Hm0 Hp) as [H1 E1].
      eexists. split; [reflexivity|]. split; [exact H1|].
      rewrite E1, shr_m_of_loc.
      assert (Hpow : 2 ^ (d - 1) = 2 ^ 52 * 2 ^ Zpos p).
      { rewrite <- Z.pow_add_r by lia. f_equal. lia. }
      assert (Hpow' : 2 ^ d = 2 ^ 53 * 2 ^ Zpos p).
      { rewrite <- Z.pow_add_r by lia. f_equal. lia. }
      assert (0 < 2 ^ Zpos p) by (apply Z.pow_pos_nonneg; lia).
      split.
      + apply Z.div_le_lower_bound; lia.
      + apply Z.div_lt_upper_bound; lia. }
  destruct Hshr as (mrs & -> & Hp1 & Hm1).
  destruct (round_nearest_even_placed mrs N (D * 2 ^ n) Hp1) as [Hr Herr].
  remember (round_nearest_even (shr_m mrs) (loc_of_shr_record mrs)) as m1 eqn:Em1.
  assert (Hn : 0 <= n) by lia.
  assert (HDn : 0 < D * 2 ^ n).
  { destruct Hp1 as [H _]. exact H. }
  destruct (Z.eq_dec m1 (2 ^ 53)) as [Ecarry|Hnc].
  - (* the rounding carried into a 54th digit *)
    rewrite Ecarry. exists (Z.to_pos (2 ^ 52)), (n + 1).
    split.
    { unfold shr_fexp.
      change (Zdigits2 (2 ^ 53)) with 54.
      rewrite fexp_normal by lia.
      replace (54 + (ex + n) - 53 - (ex + n)) with 1 by lia.
      change (shr_record_of_loc (2 ^ 53) loc_Exact)
        with {| shr_m := 2 ^ 53; shr_r := false; shr_s := false |}.
      change (shr {| shr_m := 2 ^ 53; shr_r := false; shr_s := false |} (ex + n) 1)
        with ({| shr_m := 2 ^ 52; shr_r := false; shr_s := false |}, ex + n + 1).
      cbn [shr_m]. change (2 ^ 52) with (Zpos (Z.to_pos (2 ^ 52))) at 1.
      cbv iota beta.
      replace (ex + n + 1 <=? 1024 - 53) with true by (symmetry; apply Z.leb_le; lia).
      f_equal. lia. }
    split; [lia|]. split; [simpl; lia|].
    rewrite Ecarry in Herr.
    replace (Zpos (Z.to_pos (2 ^ 52)) * (D * 2 ^ (n + 1))) with (2 ^ 53 * (D * 2 ^ n)).
    2:{ change (Zpos (Z.to_pos (2 ^ 52))) with (2 ^ 52).
        change (2 ^ 53) with (2 * 2 ^ 52).
        rewrite Z.pow_add_r, Z.pow_1_r by lia. ring. }
    rewrite Z.pow_add_r, Z.pow_1_r by lia. lia.
  - assert (Hm1' : 2 ^ 52 <= m1 < 2 ^ 53) by lia.
    destruct m1 as [|p1|p1]; try (simpl in Hm1'; lia).
    exists p1, n. split.
    { unfold shr_fexp. cbn [Zdigits2].
      rewrite (digits2_pos_unique p1 53) by lia.
      rewrite fexp_normal by lia.
      replace (53 + (ex + n) - 53 - (ex + n)) with 0 by lia.
      cbn [shr shr_record_of_loc shr_m].
      replace (ex + n <=? 1024 - 53) with true by (symmetry; apply Z.leb_le; lia).
      reflexivity. }
    split; [lia|]. split; [exact Hm1'|exact Herr].
Qed.

Lemma new_location_placed (q b r : Z) :
  0 < b -> 0 <= r < b ->
  placed (shr_record_of_loc q (new_location b r)) (q * b + r) b.
Proof.
  intros Hb Hr. unfold placed. rewrite shr_m_of_loc.
  split; [exact Hb|]. split; [lia|].
  replace (q * b + r - q * b) with r by ring.
  unfold new_location.
  destruct (Z.even b) eqn:Eb.
  - unfold new_location_even.
    destruct (Z.eqb_spec r 0) as [->|Hr0]; [reflexivity|].
    destruct (Z.compare_spec (2 * r) b); cbn [shr_record_of_loc shr_r shr_s]; lia.
  - unfold new_location_odd.
    destruct (Z.eqb_spec r 0) as [->|Hr0]; [reflexivity|].
    assert (Hodd : Z.odd b = true) by (rewrite <- Z.negb_even, Eb; reflexivity).
    apply Z.odd_spec in Hodd as [c Hc].
    destruct (Z.compare_spec (2 * r + 1) b); cbn [shr_record_of_loc shr_r shr_s]; lia.
Qed.

(** Python's [a / b] on two positive integers below [2 ^ 31]: a float of 53
    digits with a negative exponent, within half a unit of its last place
    of the quotient. *)
Lemma SFdiv_ints (a b : positive) :
  Zpos a < 2 ^ 31 -> Zpos b < 2 ^ 31 ->
  exists m E,
    SFdiv 53 1024 (S754_finite false a 0) (S754_finite false b 0)
    = S754_finite false m (- E)
    /\ 21 <= E <= 84
    /\ 2 ^ 52 <= Zpos m < 2 ^ 53
    /\ 2 * Z.abs (Zpos m * Zpos b - Zpos a * 2 ^ E) <= Zpos b.
Proof.
  intros Ha Hb.
  destruct (digits2_pos_bounds a) as [Alo Ahi].
  destruct (digits2_pos_bounds b) as [Blo Bhi].
  remember (Zpos (digits2_pos a)) as d1 eqn:Ed1.
  remember (Zpos (digits2_pos b)) as d2 eqn:Ed2.
  assert (Hd1 : 1 <= d1 <= 31).
  { split; [lia|]. destruct (Z_le_gt_dec d1 31); [assumption|].
    assert (2 ^ 31 <= 2 ^ (d1 - 1)) by (apply Z.pow_le_mono_r; lia). lia. }
  assert (Hd2 : 1 <= d2 <= 31).
  { split; [lia|]. destruct (Z_le_gt_dec d2 31); [assumption|].
    assert (2 ^ 31 <= 2 ^ (d2 - 1)) by (apply Z.pow_le_mono_r; lia). lia. }
  set (s := 53 + d2 - d1).
  assert (Hs : 0 < s) by (unfold s; lia).
  unfold SFdiv, SFdiv_core_binary. cbn [Zdigits2 xorb].
  rewrite <- Ed1, <- Ed2.
  rewrite fexp_normal by lia.
  replace (Z.min (d1 + 0 - (d2 + 0) - 53) (0 - 0)) with (- s) by (unfold s; lia).
  replace (0 - 0 - - s) with s by lia.
  destruct s as [|ps|ps] eqn:Es; try lia. rewrite <- Es in *.
  rewrite Z.shiftl_mul_pow2 by lia.
  pose proof (Z_div_mod (Zpos a * 2 ^ s) (Zpos b) ltac:(lia)) as Hdm.
  destruct (Z.div_eucl (Zpos a * 2 ^ s) (Zpos b)) as [q r].
  destruct Hdm as [Hdm Hr].
  (* the quotient has 53 or 54 digits *)
  assert (Hps : 0 < 2 ^ s) by (apply Z.pow_pos_nonneg; lia).
  assert (Hlo : 2 ^ (52 + d2) <= Zpos a * 2 ^ s).
  { replace (52 + d2) with (d1 - 1 + s) by (unfold s in Es; lia).
    rewrite Z.pow_add_r by lia. nia. }
  assert (Hhi : Zpos a * 2 ^ s < 2 ^ (53 + d2)).
  { replace (53 + d2) with (d1 + s) by (unfold s in Es; lia).
    rewrite Z.pow_add_r by lia. nia. }
  assert (Hq : 2 ^ 52 <= q < 2 ^ 54).
  { assert (H52 : 2 ^ (52 + d2) = 2 ^ 52 * 2 ^ d2) by (apply Z.pow_add_r; lia).
    assert (H53 : 2 ^ (53 + d2) = 2 ^ 54 * 2 ^ (d2 - 1)).
    { rewrite <- Z.pow_add_r by lia. f_equal. lia. }
    split; nia. }
  destruct q as [|pq|pq]; try (simpl in Hq; lia).
  assert (Hdq : 53 <= Zpos (digits2_pos pq) <= 54).
  { destruct (digits2_pos_bounds pq) as [Qlo Qhi].
    split.
    - destruct (Z_le_gt_dec 53 (Zpos (digits2_pos pq))); [assumption|].
      assert (2 ^ Zpos (digits2_pos pq) <= 2 ^ 52) by (apply Z.pow_le_mono_r; lia). lia.
    - destruct (Z_le_gt_dec (Zpos (digits2_pos pq)) 54); [assumption|].
      assert (2 ^ 54 <= 2 ^ (Zpos (digits2_pos pq) - 1)) by (apply Z.pow_le_mono_r; lia).
      lia. }
  destruct (binary_round_aux_normal pq (- s) (new_location (Zpos b) r)
              (Zpos pq * Zpos b + r) (Zpos b)) as (m & k & E & Hk & Hm & Herr);
    try lia.
  { apply new_location_placed; lia. }
  exists m, (s - k). rewrite E.
  split; [f_equal; lia|]. split; [unfold s in Es; lia|]. split; [exact Hm|].
  assert (Hk0 : 0 <= k) by lia.
  assert (Hsk : 0 <= s - k) by (unfold s in Es; lia).
  assert (Hpk : 0 < 2 ^ k) by (apply Z.pow_pos_nonneg; lia).
  assert (Hsplit : 2 ^ s = 2 ^ (s - k) * 2 ^ k).
  { rewrite <- Z.pow_add_r by lia. f_equal. lia. }
  replace (Zpos pq * Zpos b + r) with (Zpos a * 2 ^ (s - k) * 2 ^ k) in Herr by nia.
  replace (Zpos m * (Zpos b * 2 ^ k) - Zpos a * 2 ^ (s - k) * 2 ^ k)
    with ((Zpos m * Zpos b - Zpos a * 2 ^ (s - k)) * 2 ^ k) in Herr by ring.
  rewrite Z.abs_mul, (Z.abs_eq (2 ^ k)) in Herr by lia.
  nia.
Qed.

(** The product of two floats of 53 digits with negative exponents. *)
Lemma SFmul_normal (mw mr : positive) (Ew Er : Z) :
  2 ^ 52 <= Zpos mw < 2 ^ 53 -> 2 ^ 52 <= Zpos mr < 2 ^ 53 ->
  0 <= Ew <= 52 -> 0 <= Er <= 84 ->
  exists m k,
    SFmul 53 1024 (S754_finite false mw (- Ew)) (S754_finite false mr (- Er))
    = S754_finite false m (- Ew + - Er + k)
    /\ 52 <= k <= 54
    /\ 2 ^ 52 <= Zpos m < 2 ^ 53
    /\ 2 * Z.abs (Zpos m * 2 ^ k - Zpos mw * Zpos mr) <= 2 ^ k.
Proof.
  intros Hw Hr HEw HEr. cbn [SFmul xorb].
  assert (Hd : 105 <= Zpos (digits2_pos (mw * mr)) <= 106).
  { destruct (digits2_pos_bounds (mw * mr)) as [Plo Phi].
    rewrite Pos2Z.inj_mul in Plo, Phi.
    assert (Hlo : 2 ^ 52 * 2 ^ 52 <= Zpos mw * Zpos mr)
      by (apply Z.mul_le_mono_nonneg; lia).
    assert (Hhi : Zpos mw * Zpos mr < 2 ^ 53 * 2 ^ 53)
      by (apply Z.mul_lt_mono_nonneg; lia).
    change (2 ^ 52 * 2 ^ 52) with (2 ^ 104) in Hlo.
    change (2 ^ 53 * 2 ^ 53) with (2 ^ 106) in Hhi.
    split.
    - destruct (Z_le_gt_dec 105 (Zpos (digits2_pos (mw * mr)))); [assumption|].
      assert (2 ^ Zpos (digits2_pos (mw * mr)) <= 2 ^ 104)
        by (apply Z.pow_le_mono_r; lia).
      lia.
    - destruct (Z_le_gt_dec (Zpos (digits2_pos (mw * mr))) 106); [assumption|].
      assert (2 ^ 106 <= 2 ^ (Zpos (digits2_pos (mw * mr)) - 1))
        by (apply Z.pow_le_mono_r; lia).
      lia. }
  destruct (binary_round_aux_normal (mw * mr) (- Ew + - Er) loc_Exact
              (Zpos mw * Zpos mr) 1) as (m & k & E & Hk & Hm & Herr); try lia.
  { unfold placed. cbn [shr_record_of_loc shr_m shr_r shr_s].
    rewrite Pos2Z.inj_mul. lia. }
  exists m, k. split; [exact E|]. split; [lia|]. split; [exact Hm|].
  rewrite !Z.mul_1_l in Herr. exact Herr.
Qed.

(** Two roundings whose errors add up to less than one unit of the scaled
    product leave the truncation within one unit below the exact
    quotient. *)
Lemma truncation_within_unit (w a b mw mr my Pw Pr K Py t : Z) :
  0 < b -> 0 <= mw -> 0 < K -> 0 < Py ->
  mw = w * Pw -> Py * K = Pw * Pr ->
  2 * Z.abs (mr * b - a * Pr) <= b ->
  2 * Z.abs (my * K - mw * mr) <= K ->
  b * (mw + K) < 2 * (Pw * Pr) ->
  t * Py <= my < (t + 1) * Py ->
  t * b <= w * a <= (t + 1) * b.
Proof.
  intros Hb Hmw HK HPy Emw Eprod Hdiv Hmul Hbig Ht.
  assert (U1 : 2 * (my * K) * b <= (2 * (mw * mr) + K) * b)
    by (apply Z.mul_le_mono_nonneg_r; lia).
  assert (U2 : mw * (2 * (mr * b)) <= mw * (2 * (a * Pr) + b))
    by (apply Z.mul_le_mono_nonneg_l; lia).
  assert (D1 : (2 * (mw * mr) - K) * b <= 2 * (my * K) * b)
    by (apply Z.mul_le_mono_nonneg_r; lia).
  assert (D2 : mw * (2 * (a * Pr) - b) <= mw * (2 * (mr * b)))
    by (apply Z.mul_le_mono_nonneg_l; lia).
  assert (Eexact : mw * (a * Pr) = w * a * (Py * K)) by (rewrite Eprod, Emw; ring).
  assert (Hup : (my * b) * K < ((w * a + 1) * Py) * K) by lia.
  assert (Hdown : ((w * a - 1) * Py) * K < (my * b) * K) by lia.
  apply Z.mul_lt_mono_pos_r in Hup; [|exact HK].
  apply Z.mul_lt_mono_pos_r in Hdown; [|exact HK].
  assert (T1 : (t * Py) * b <= my * b) by (apply Z.mul_le_mono_nonneg_r; lia).
  assert (T2 : my * b < ((t + 1) * Py) * b) by (apply Z.mul_lt_mono_pos_r; lia).
  assert (L : (t * b) * Py < (w * a + 1) * Py) by lia.
  assert (R : (w * a - 1) * Py < ((t + 1) * b) * Py) by lia.
  apply Z.mul_lt_mono_pos_r in L; [|exact HPy].
  apply Z.mul_lt_mono_pos_r in R; [|exact HPy].
  lia.
Qed.

(** [int(w * (a / b))] stays within one unit below [w * a / b]: the
    arithmetic behind the two roundings and the truncation. *)
Lemma truncated_product_bounds (w a b mw mr my Ew Er k t : Z) :
  0 < a < 2 ^ 31 -> 0 < b < 2 ^ 31 ->
  2 ^ 52 <= mw < 2 ^ 53 -> mw = w * 2 ^ Ew -> 39 <= Ew ->
  2 ^ 52 <= mr < 2 ^ 53 -> 0 <= Er ->
  2 * Z.abs (mr * b - a * 2 ^ Er) <= b ->
  52 <= k <= 54 -> 0 <= Ew + Er - k ->
  2 * Z.abs (my * 2 ^ k - mw * mr) <= 2 ^ k ->
  t = my / 2 ^ (Ew + Er - k) ->
  t * b <= w * a <= (t + 1) * b.
Proof.
  intros Ha Hb Hmw Emw HEw Hmr HEr Hdiv Hk HEy Hmul Et.
  remember (2 ^ Ew) as Pw eqn:EPw. remember (2 ^ Er) as Pr eqn:EPr.
  remember (2 ^ k) as K eqn:EK. remember (2 ^ (Ew + Er - k)) as Py eqn:EPy.
  assert (HPy : 0 < Py) by (subst Py; apply Z.pow_pos_nonneg; lia).
  assert (HK : 0 < K <= 2 ^ 54).
  { subst K. split; [apply Z.pow_pos_nonneg; lia|apply Z.pow_le_mono_r; lia]. }
  assert (HPw : 2 ^ 39 <= Pw) by (subst Pw; apply Z.pow_le_mono_r; lia).
  assert (Hprod : Py * K = Pw * Pr).
  { subst Py K Pw Pr. rewrite <- !Z.pow_add_r by lia. f_equal. lia. }
  assert (Ht : t * Py <= my < (t + 1) * Py).
  { subst t. pose proof (Z.div_mod my Py ltac:(lia)) as Hdm.
    pose proof (Z.mod_pos_bound my Py HPy) as Hmod.
    rewrite (Z.mul_comm (my / Py) Py), (Z.mul_comm (my / Py + 1) Py). lia. }
  clear EPw EPr EK EPy Et.
  (* the ratio is large enough for the errors to stay below one unit *)
  assert (Hmrb : 2 ^ 52 * b <= mr * b) by (apply Z.mul_le_mono_nonneg_r; lia).
  assert (HaPr : (2 ^ 52 - 1) * b <= a * Pr) by lia.
  assert (Hbig : b * (mw + K) < 2 * (Pw * Pr)).
  { assert (S0 : 0 <= b * (mw + K)) by (apply Z.mul_nonneg_nonneg; lia).
    assert (S1 : a * (b * (mw + K)) <= 2 ^ 31 * (b * (mw + K)))
      by (apply Z.mul_le_mono_nonneg_r; lia).
    assert (S2 : b * (mw + K) < b * 2 ^ 55) by (apply Z.mul_lt_mono_pos_l; lia).
    assert (S3 : 2 ^ 39 * (a * Pr) <= Pw * (a * Pr))
      by (apply Z.mul_le_mono_nonneg_r; lia).
    apply (Z.mul_lt_mono_pos_l a); [lia|].
    replace (a * (2 * (Pw * Pr))) with (2 * (Pw * (a * Pr))) by ring.
    lia. }
  apply (truncation_within_unit w a b mw mr my Pw Pr K Py t); try assumption; lia.
Qed.

(** [float(w)] is exact for every value a spin box can hold. *)
Lemma float_of_int_spin (w : Z) :
  1 <= w <= 9999 ->
  exists m E,
    Py.float_of_int w = Py.Ok (S754_finite false m (- E))
    /\ 39 <= E <= 52 /\ Zpos m = w * 2 ^ E /\ 2 ^ 52 <= Zpos m < 2 ^ 53.
Proof.
  intros Hw.
  assert (Hall : forallb (fun w => exact_float w (Py.float_of_int w)) spin_range = true)
    by (vm_compute; reflexivity).
  rewrite forallb_forall in Hall.
  assert (Hin : In w spin_range).
  { unfold spin_range. replace w with (Z.of_nat (Z.to_nat w)) by lia.
    apply in_map, in_seq. lia. }
  specialize (Hall w Hin). unfold exact_float in Hall.
  destruct (Py.float_of_int w) as [[| | |[] m e]|]; try discriminate.
  apply andb_true_iff in Hall as [Hall H5]. apply andb_true_iff in Hall as [Hall H4].
  apply andb_true_iff in Hall as [Hall H3]. apply andb_true_iff in Hall as [H1 H2].
  exists m, (- e). rewrite Z.opp_involutive.
  split; [reflexivity|]. lia.
Qed.

(** [int(x)] on a positive float with a negative exponent drops the
    fraction. *)
Lemma int_of_float_truncates (m : positive) (E : Z) :
  0 <= E ->
  Py.int_of_float (S754_finite false m (- E)) = Py.Ok (Zpos m / 2 ^ E).
Proof.
  intros HE. cbn [Py.int_of_float]. rewrite Z.shiftl_div_pow2 by lia.
  rewrite Z.opp_involutive. reflexivity.
Qed.

(** [int(w * (a / b))] for a spin box value and an image size: the call
    returns, and what it returns is [w * a / b] without its fraction, or
    one less when the quotient is whole. *)
Lemma scaled_dimension_bounds (w a b : Z) :
  1 <= w <= 9999 -> 0 < a < 2 ^ 31 -> 0 < b < 2 ^ 31 ->
  exists t, scaled_dimension w a b = Py.Ok t /\ t * b <= w * a <= (t + 1) * b.
Proof.
  intros Hw Ha Hb.
  destruct a as [|pa|pa]; try lia. destruct b as [|pb|pb]; try lia.
  destruct (SFdiv_ints pa pb) as (mr & Er & Ediv & HEr & Hmr & Hdiv); try lia.
  destruct (float_of_int_spin w Hw) as (mw & Ew & Efl & HEw & Emw & Hmw).
  destruct (SFmul_normal mw mr Ew Er) as (my & k & Emul & Hk & Hmy & Hmul);
    try lia.
  exists (Zpos my / 2 ^ (Ew + Er - k)). split.
  - unfold scaled_dimension, Py.int_mul_float.
    change (Py.int_truediv (Zpos pa) (Zpos pb))
      with (match SFdiv 53 1024 (S754_finite false pa 0) (S754_finite false pb 0) with
            | S754_infinity _ => Py.Raise Py.OverflowError
            | f => Py.Ok f
            end).
    rewrite Ediv. cbn [Py.obind]. rewrite Efl. cbn [Py.obind].
    unfold Py.prec, Py.emax. rewrite Emul.
    replace (- Ew + - Er + k) with (- (Ew + Er - k)) by lia.
    apply int_of_float_truncates. lia.
  - apply (truncated_product_bounds w (Zpos pa) (Zpos pb) (Zpos mw) (Zpos mr)
             (Zpos my) Ew Er k); try assumption; try lia.
Qed.

(** ** DimensionCalculator *)

Lemma int_truediv_no_zero_division (a b : Z) :
  b <> 0 -> Py.int_truediv a b <> Py.Raise Py.ZeroDivisionError.
Proof.
  intros Hb. unfold Py.int_truediv.
  destruct (Z.eqb_spec b 0) as [->|_]; [congruence|].
  destruct (a =? 0); [discriminate|].
  destruct (SFdiv _ _ _ _); discriminate.
Qed.

Lemma int_of_float_no_zero_division (x : Py.float) :
  Py.int_of_float x <> Py.Raise Py.ZeroDivisionError.
Proof. destruct x; discriminate. Qed.

Lemma scaled_dimension_no_zero_division (v n d : Z) :
  d <> 0 -> scaled_dimension v n d <> Py.Raise Py.ZeroDivisionError.
Proof.
  intros Hd. unfold scaled_dimension.
  pose proof (int_truediv_no_zero_division n d Hd) as H.
  destruct (Py.int_truediv n d) as [ratio|e]; simpl; [|congruence].
  unfold Py.int_mul_float.
  destruct (Py.float_of_int v) as [f|e] eqn:Hf; simpl.
  - apply int_of_float_no_zero_division.
  - unfold Py.float_of_int in Hf.
    destruct (binary_normalize _ _ _ _ _); congruence.
Qed.

Lemma int_argument_fits (t : Z) :
  0 <= t <= Qt.INT_MAX -> Qt.int_argument t = Py.Ok t.
Proof.
  intros H. unfold Qt.int_argument, Qt.INT_MIN, Qt.INT_MAX in *.
  destruct (Z.leb_spec (- 2 ^ 31) t); [|lia].
  destruct (Z.leb_spec t (2 ^ 31 - 1)); [reflexivity|lia].
Qed.

Lemma int_argument_overflows (t : Z) :
  Qt.INT_MAX < t -> Qt.int_argument t = Py.Raise Py.OverflowError.
Proof.
  intros H. unfold Qt.int_argument, Qt.INT_MIN, Qt.INT_MAX in *.
  destruct (Z.leb_spec t (2 ^ 31 - 1)); [lia|].
  rewrite andb_false_r. reflexivity.
Qed.

Lemma truncated_nonneg (n d t : Z) :
  0 < n -> 0 < d -> truncated n d t -> 0 <= t.
Proof. unfold truncated. intros Hn Hd [_ H]. nia. Qed.

(** The callback of the width box, with the lock on and a loaded image:
    it computes the truncated product [t]; when [t] fits the [int] of
    [setValue] it returns with the height box set, and otherwise it raises
    with the signals of the height box left blocked. *)
Lemma update_height_runs (st : State) :
  maintain_ratio st = true ->
  0 < fst (original_size st) < 2 ^ 31 ->
  0 < snd (original_size st) < 2 ^ 31 ->
  1 <= Qt.value (width_spin st) <= 9999 ->
  exists t,
    truncated (Qt.value (width_spin st) * snd (original_size st))
      (fst (original_size st)) t
    /\ (t <= Qt.INT_MAX ->
        update_height_maintain_ratio st
        = Some (Py.Ok tt,
                set_height_spin
                  (Qt.blockSignals false (Qt.setValue t (height_spin st))) st))
    /\ (Qt.INT_MAX < t ->
        update_height_maintain_ratio st
        = Some (Py.Raise Py.OverflowError,
                set_height_spin (Qt.blockSignals true (height_spin st)) st)).
Proof.
  intros Hm Hw Hh Hv.
  destruct (scaled_dimension_bounds (Qt.value (width_spin st))
              (snd (original_size st)) (fst (original_size st)) Hv Hh Hw)
    as (t & Et & Ht).
  assert (H0 : 0 <= t) by (refine (truncated_nonneg _ _ _ _ _ Ht); nia).
  exists t. split; [exact Ht|].
  unfold update_height_maintain_ratio. rewrite Hm.
  replace (0 <? fst (original_size st)) with true by (symmetry; apply Z.ltb_lt; lia).
  cbn [andb]. rewrite Et. split; intros Hfit.
  - run. rewrite (int_argument_fits t (conj H0 Hfit)). reflexivity.
  - run. rewrite (int_argument_overflows t Hfit). reflexivity.
Qed.

Lemma update_width_runs (st : State) :
  maintain_ratio st = true ->
  0 < fst (original_size st) < 2 ^ 31 ->
  0 < snd (original_size st) < 2 ^ 31 ->
  1 <= Qt.value (height_spin st) <= 9999 ->
  exists t,
    truncated (Qt.value (height_spin st) * fst (original_size st))
      (snd (original_size st)) t
    /\ (t <= Qt.INT_MAX ->
        update_width_maintain_ratio st
        = Some (Py.Ok tt,
                set_width_spin
                  (Qt.blockSignals false (Qt.setValue t (width_spin st))) st))
    /\ (Qt.INT_MAX < t ->
        update_width_maintain_ratio st
        = Some (Py.Raise Py.OverflowError,
                set_width_spin (Qt.blockSignals true (width_spin st)) st)).
Proof.
  intros Hm Hw Hh Hv.
  destruct (scaled_dimension_bounds (Qt.value (height_spin st))
              (fst (original_size st)) (snd (original_size st)) Hv Hw Hh)
    as (t & Et & Ht).
  assert (H0 : 0 <= t) by (refine (truncated_nonneg _ _ _ _ _ Ht); nia).
  exists t. split; [exact Ht|].
  unfold update_width_maintain_ratio. rewrite Hm.
  replace (0 <? snd (original_size st)) with true by (symmetry; apply Z.ltb_lt; lia).
  cbn [andb]. rewrite Et. split; intros Hfit.
  - run. rewrite (int_argument_fits t (conj H0 Hfit)). reflexivity.
  - run. rewrite (int_argument_overflows t Hfit). reflexivity.
Qed.

(** C2, as the code has it.  With the aspect lock on and an original size
    with both sides positive (and below [2 ^ 31]), an edit of the width
    box to a value of its range [1 .. 9999] makes the callback compute
    [t = int(width * (original height / original width))] in binary64:
    [t <= width * original height / original width <= t + 1], that is the
    quotient without its fraction, or one less when the quotient is whole
    and the float product falls just below it.  The product is truncated,
    not rounded.  When [t] fits the [int] that [setValue] takes, the
    callback returns normally and the height box holds [t] brought into
    its range.  When [t] is above [2 ^ 31 - 1], [setValue] raises
    [OverflowError]: the height box keeps its value and its signals stay
    blocked.  The same holds for an edit of the height box. *)
Theorem aspect_lock_truncates (st : State) :
  maintain_ratio st = true ->
  0 < fst (original_size st) < 2 ^ 31 ->
  0 < snd (original_size st) < 2 ^ 31 ->
  (1 <= Qt.value (width_spin st) <= 9999 ->
   exists t,
     truncated (Qt.value (width_spin st) * snd (original_size st))
       (fst (original_size st)) t
     /\ (t <= Qt.INT_MAX ->
         update_height_maintain_ratio st
         = Some (Py.Ok tt,
                 set_height_spin
                   (Qt.blockSignals false (Qt.setValue t (height_spin st)))
                   st)
         /\ Qt.value (Qt.blockSignals false (Qt.setValue t (height_spin st)))
            = Z.max (Qt.minimum (height_spin st))
                (Z.min (Qt.maximum (height_spin st)) t))
     /\ (Qt.INT_MAX < t ->
         update_height_maintain_ratio st
         = Some (Py.Raise Py.OverflowError,
                 set_height_spin (Qt.blockSignals true (height_spin st)) st)))
  /\ (1 <= Qt.value (height_spin st) <= 9999 ->
      exists t,
        truncated (Qt.value (height_spin st) * fst (original_size st))
          (snd (original_size st)) t
        /\ (t <= Qt.INT_MAX ->
            update_width_maintain_ratio st
            = Some (Py.Ok tt,
                    set_width_spin
                      (Qt.blockSignals false (Qt.setValue t (width_spin st)))
                      st)
            /\ Qt.value (Qt.blockSignals false (Qt.setValue t (width_spin st)))
               = Z.max (Qt.minimum (width_spin st))
                   (Z.min (Qt.maximum (width_spin st)) t))
        /\ (Qt.INT_MAX < t ->
            update_width_maintain_ratio st
            = Some (Py.Raise Py.OverflowError,
                    set_width_spin (Qt.blockSignals true (width_spin st)) st))).
Proof.
  intros Hm Hw Hh. split; intros Hv.
  - destruct (update_height_runs st Hm Hw Hh Hv) as (t & Ht & Hok & Hover).
    exists t. split; [exact Ht|]. split; [|exact Hover].
    intros Hfit. split; [exact (Hok Hfit)|reflexivity].
  - destruct (update_width_runs st Hm Hw Hh Hv) as (t & Ht & Hok & Hover).
    exists t. split; [exact Ht|]. split; [|exact Hover].
    intros Hfit. split; [exact (Hok Hfit)|reflexivity].
Qed.

Lemma aspect_lock_truncates_witness :
  (exists t,
      truncated (100 * 100) 200 t
      /\ update_height_maintain_ratio
           (Demo.demo_state (200, 100) 100 7 PNG false)
         = Some (Py.Ok tt,
                 set_height_spin
                   (Qt.blockSignals false (Qt.setValue t (Demo.spin 7)))
                   (Demo.demo_state (200, 100) 100 7 PNG false))
      /\ Qt.value (Qt.blockSignals false (Qt.setValue t (Demo.spin 7)))
         = Z.max 1 (Z.min 9999 t))
  /\ (exists t,
         truncated (9999 * 300000) 1 t
         /\ update_height_maintain_ratio
              (Demo.demo_state (1, 300000) 9999 7 PNG false)
            = Some (Py.Raise Py.OverflowError,
                    set_height_spin (Qt.blockSignals true (Demo.spin 7))
                      (Demo.demo_state (1, 300000) 9999 7 PNG false))).
Proof.
  split.
  - destruct (proj1 (aspect_lock_truncates
                       (Demo.demo_state (200, 100) 100 7 PNG false) eq_refl
                       ltac:(cbn; lia) ltac:(cbn; lia)) ltac:(cbn; lia))
      as (t & Ht & Hok & _).
    exists t. split; [exact Ht|]. apply Hok.
    cbn in Ht. unfold truncated in Ht. unfold Qt.INT_MAX. lia.
  - destruct (proj1 (aspect_lock_truncates
                       (Demo.demo_state (1, 300000) 9999 7 PNG false) eq_refl
                       ltac:(cbn; lia) ltac:(cbn; lia)) ltac:(cbn; lia))
      as (t & Ht & _ & Hover).
    exists t. split; [exact Ht|]. apply Hover.
    cbn in Ht. unfold truncated in Ht. unfold Qt.INT_MAX. lia.
Defined.

(** An original of 3 x 2 and a width of 4: the height becomes 2, while
    4 * 2 / 3 rounds to 3. *)
Lemma aspect_lock_not_rounded :
  exists st',
    update_height_maintain_ratio (Demo.demo_state (3, 2) 4 7 PNG false)
    = Some (Py.Ok tt, st')
    /\ dimensions st' = (4, 2)
    /\ nearest (4 * 2) 3 3
    /\ ~ nearest (4 * 2) 3 2.
Proof.
  eexists. split; [vm_compute; reflexivity|].
  split; [reflexivity|]. unfold nearest. split; lia.
Qed.

(** C5, as the code has it.  Each callback guards its own divisor only:
    with an original width of 0 the width callback leaves the state as it
    is, and so does the height callback with an original height of 0;
    neither callback ever raises a division by zero.  (With an original
    height of 0 and a positive original width, the width callback does
    compute: it sets the height box to [int(width * 0.0)] brought into its
    range.) *)
Theorem zero_divisor_leaves_edited (st : State) :
  (fst (original_size st) = 0 ->
     update_height_maintain_ratio st = Some (Py.Ok tt, st))
  /\ (snd (original_size st) = 0 ->
        update_width_maintain_ratio st = Some (Py.Ok tt, st))
  /\ (forall st', update_height_maintain_ratio st
                  <> Some (Py.Raise Py.ZeroDivisionError, st'))
  /\ (forall st', update_width_maintain_ratio st
                  <> Some (Py.Raise Py.ZeroDivisionError, st')).
Proof.
  unfold update_height_maintain_ratio, update_width_maintain_ratio.
  repeat split.
  - intros ->. rewrite andb_false_r. reflexivity.
  - intros ->. rewrite andb_false_r. reflexivity.
  - intros st'. destruct (maintain_ratio st); cbn [andb]; [|congruence].
    destruct (Z.ltb_spec 0 (fst (original_size st))) as [Hpos|_]; [|congruence].
    pose proof (scaled_dimension_no_zero_division
                  (Qt.value (width_spin st)) (snd (original_size st))
                  (fst (original_size st))) as H.
    destruct (scaled_dimension _ _ _) as [t|e].
    + run. unfold Qt.int_argument. destruct (_ && _); run; unfold modify; congruence.
    + run. intros [=]. apply H; [lia|congruence].
  - intros st'. destruct (maintain_ratio st); cbn [andb]; [|congruence].
    destruct (Z.ltb_spec 0 (snd (original_size st))) as [Hpos|_]; [|congruence].
    pose proof (scaled_dimension_no_zero_division
                  (Qt.value (height_spin st)) (fst (original_size st))
                  (snd (original_size st))) as H.
    destruct (scaled_dimension _ _ _) as [t|e].
    + run. unfold Qt.int_argument. destruct (_ && _); run; unfold modify; congruence.
    + run. intros [=]. apply H; [lia|congruence].
Qed.

Lemma zero_divisor_leaves_edited_witness :
  update_height_maintain_ratio (Demo.demo_state (0, 0) 3 7 PNG false)
  = Some (Py.Ok tt, Demo.demo_state (0, 0) 3 7 PNG false)
  /\ update_width_maintain_ratio (Demo.demo_state (0, 0) 3 7 PNG false)
     = Some (Py.Ok tt, Demo.demo_state (0, 0) 3 7 PNG false).
Proof.
  split.
  - apply (proj1 (zero_divisor_leaves_edited (Demo.demo_state (0, 0) 3 7 PNG false))).
    reflexivity.
  - apply (proj1 (proj2 (zero_divisor_leaves_edited (Demo.demo_state (0, 0) 3 7 PNG false)))).
    reflexivity.
Defined.

(** An original height of 0 with an original width of 5: the edited
    dimensions (3, 7) do not come back unchanged, the height becomes 1. *)
Lemma zero_height_changes_edited :
  exists st st',
    snd (original_size st) = 0
    /\ update_height_maintain_ratio st = Some (Py.Ok tt, st')
    /\ dimensions st = (3, 7)
    /\ dimensions st' = (3, 1).
Proof.
  exists (Demo.demo_state (5, 0) 3 7 PNG false).
  eexists. split; [reflexivity|]. split; [vm_compute; reflexivity|].
  split; reflexivity.
Qed.

(** ** The pipeline, stage by stage *)

Section Pipeline.
Variable env : Env.

Lemma apply_background_removal_skipped (img : PIL.Image) (st : State) :
  REMBG_AVAILABLE st = false
  \/ Qt.isChecked (remove_bg_check st) = false
  \/ (exists e, import_rembg env = Py.Raise e) ->
  exists st',
    apply_background_removal env img st = Some (Py.Ok img, st')
    /\ files st' = files st
    /\ bg_thread st' = bg_thread st
    /\ dimensions st' = dimensions st
    /\ (log st' = log st
        \/ log st' = log st ++ [EvMessage Critical "Background Removal Error"]).
Proof.
  intros H. unfold apply_background_removal.
  destruct (REMBG_AVAILABLE st) eqn:Ha; simpl.
  2:{ exists st. repeat split; auto. }
  destruct (Qt.isChecked (remove_bg_check st)) eqn:Hc; simpl.
  2:{ exists st. repeat split; auto. }
  destruct H as [H|[H|[e He]]]; try discriminate.
  unfold try_except. rewrite He. run.
  eexists. split; [reflexivity|]. repeat split; auto.
Qed.

Lemma save_image_body_skips_removal (cur : PIL.Image) (f : format)
    (path : string) (px : list PIL.pixel) (st : State) :
  resample env cur (dimensions st) = Py.Ok px ->
  REMBG_AVAILABLE st = false
  \/ Qt.isChecked (remove_bg_check st) = false
  \/ (exists e, import_rembg env = Py.Raise e) ->
  exists st1,
    save_image_body env cur f path st
    = finish_export env f path (resized cur (dimensions st) px) st1
    /\ files st1 = files st
    /\ bg_thread st1 = bg_thread st.
Proof.
  intros Hr H. unfold save_image_body, resize. run.
  rewrite Hr. run.
  fold (resized cur (Qt.value (width_spin st), Qt.value (height_spin st)) px).
  set (st0 := set_progress_bar 40 _).
  destruct (Qt.isChecked (remove_bg_check st) && REMBG_AVAILABLE st
            && negb (format_eqb f SVG)) eqn:Hg.
  - destruct (apply_background_removal_skipped
                (resized cur (Qt.value (width_spin st), Qt.value (height_spin st)) px) st0)
      as (st1 & E & Hf & Ht & _).
    { exact H. }
    unfold bind at 1. rewrite E.
    exists st1. split; [reflexivity|]. split; assumption.
  - run. exists st0. split; [reflexivity|]. split; reflexivity.
Qed.











(** *** The coordinator *)

(** Every run ends with its only terminal signal, after progress values
    taken in order from 10, 30, 50, 80, 100. *)
Lemma run_signals_shape (available : bool) (img : PIL.Image) :
  exists pre last,
    BackgroundRemovalThread_run env available img = pre ++ [last]
    /\ is_terminal last = true
    /\ forallb (fun s => negb (is_terminal s)) pre = true
    /\ exists k, omap progress_value pre = take k [10; 30; 50; 80; 100].
Proof.
  unfold BackgroundRemovalThread_run.
  destruct available; simpl.
  2:{ exists [], (error "rembg library not available").
      repeat split. exists 0%nat. reflexivity. }
  destruct (np_array env img) as [arr|e].
  2:{ exists [progress 10], (error (str_exn env e)).
      repeat split. exists 1%nat. reflexivity. }
  destruct (new_session env) as [[]|e].
  2:{ exists [progress 10; progress 30], (error (str_exn env e)).
      repeat split. exists 2%nat. reflexivity. }
  destruct (remove env arr) as [out|e].
  2:{ exists [progress 10; progress 30; progress 50], (error (str_exn env e)).
      repeat split. exists 3%nat. reflexivity. }
  destruct (fromarray env out) as [res|e].
  2:{ exists [progress 10; progress 30; progress 50; progress 80],
        (error (str_exn env e)).
      repeat split. exists 4%nat. reflexivity. }
  exists [progress 10; progress 30; progress 50; progress 80; progress 100],
    (finished res).
  repeat split. exists 5%nat. reflexivity.
Qed.

(** The slots leave the file system and the thread reference alone. *)
Lemma deliver_frame (s : signal) (st : State) :
  files (deliver s st) = files st
  /\ bg_thread (deliver s st) = bg_thread st
  /\ width_spin (deliver s st) = width_spin st
  /\ height_spin (deliver s st) = height_spin st
  /\ exists msgs, log (deliver s st) = log st ++ msgs
                  /\ forall i, EvThreadStart i ∉ msgs.
Proof.
  destruct s; simpl; repeat split; try reflexivity.
  - exists []. rewrite app_nil_r. split; [reflexivity|]. intros i Hi. inversion Hi.
  - exists []. rewrite app_nil_r. split; [reflexivity|]. intros i Hi. inversion Hi.
  - eexists. split; [reflexivity|]. intros i Hi.
    apply list_elem_of_In in Hi. simpl in Hi. intuition discriminate.
Qed.

Lemma deliver_progress_keeps_dialog (s : signal) (st : State) :
  is_terminal s = false ->
  processing_dialog_open (deliver s st) = processing_dialog_open st.
Proof. destruct s; simpl; congruence. Qed.

Lemma deliver_terminal_closes_dialog (s : signal) (st : State) :
  is_terminal s = true -> processing_dialog_open (deliver s st) = false.
Proof. destruct s; simpl; congruence. Qed.

(** The modal loop returns at the first terminal signal. *)
Lemma exec_returns (pre : list signal) (last : signal) (st : State) :
  processing_dialog_open st = true ->
  forallb (fun s => negb (is_terminal s)) pre = true ->
  is_terminal last = true ->
  exec_ (pre ++ [last]) st
  = Some (Py.Ok [], deliver last (foldl (fun s x => deliver x s) st pre)).
Proof.
  revert st. induction pre as [|s pre IH]; intros st Hopen Hpre Hlast; simpl.
  - rewrite (deliver_terminal_closes_dialog _ _ Hlast). reflexivity.
  - simpl in Hpre. apply andb_true_iff in Hpre as [Hs Hpre].
    apply negb_true_iff in Hs.
    rewrite (deliver_progress_keeps_dialog _ _ Hs), Hopen.
    apply IH; auto.
    rewrite (deliver_progress_keeps_dialog _ _ Hs). exact Hopen.
Qed.

(** Without a terminal signal the modal loop never returns. *)
Lemma exec_hangs (pre : list signal) (st : State) :
  processing_dialog_open st = true ->
  forallb (fun s => negb (is_terminal s)) pre = true ->
  exec_ pre st = None.
Proof.
  revert st. induction pre as [|s pre IH]; intros st Hopen Hpre; simpl.
  - reflexivity.
  - simpl in Hpre. apply andb_true_iff in Hpre as [Hs Hpre].
    apply negb_true_iff in Hs.
    rewrite (deliver_progress_keeps_dialog _ _ Hs), Hopen.
    apply IH; auto.
    rewrite (deliver_progress_keeps_dialog _ _ Hs). exact Hopen.
Qed.

Lemma foldl_deliver_frame (sigs : list signal) (st : State) :
  let st' := foldl (fun s x => deliver x s) st sigs in
  files st' = files st
  /\ bg_thread st' = bg_thread st
  /\ width_spin st' = width_spin st
  /\ height_spin st' = height_spin st
  /\ exists msgs, log st' = log st ++ msgs
                  /\ forall i, EvThreadStart i ∉ msgs.
Proof.
  revert st. induction sigs as [|s sigs IH]; intros st; simpl.
  - repeat split. exists []. rewrite app_nil_r. split; [reflexivity|].
    intros i Hi. inversion Hi.
  - destruct (IH (deliver s st)) as (Hf & Ht & Hw & Hh & msgs & Hl & Hn).
    destruct (deliver_frame s st) as (Hf' & Ht' & Hw' & Hh' & msgs' & Hl' & Hn').
    simpl in *.
    repeat split; try congruence.
    exists (msgs' ++ msgs). split.
    + rewrite Hl, Hl', app_assoc. reflexivity.
    + intros i Hi. apply elem_of_app in Hi as [Hi|Hi]; [eapply Hn'|eapply Hn]; eauto.
Qed.

Lemma processed_image_foldl_progress (pre : list signal) (st : State) :
  forallb (fun s => negb (is_terminal s)) pre = true ->
  processed_image (foldl (fun s x => deliver x s) st pre) = processed_image st.
Proof.
  revert st. induction pre as [|s pre IH]; intros st Hpre; simpl; [reflexivity|].
  simpl in Hpre. apply andb_true_iff in Hpre as [Hs Hpre].
  rewrite IH by assumption. destruct s; simpl in *; congruence.
Qed.

Lemma apply_background_removal_runs (img : PIL.Image) (st : State) :
  REMBG_AVAILABLE st = true ->
  Qt.isChecked (remove_bg_check st) = true ->
  import_rembg env = Py.Ok tt ->
  exists pre last st',
    BackgroundRemovalThread_run env true img = pre ++ [last]
    /\ is_terminal last = true
    /\ apply_background_removal env img st
       = Some (Py.Ok (job_result img st last), st')
    /\ files st' = files st
    /\ bg_thread st' = Some {| image := img; pending := [] |}
    /\ processing_dialog_open st' = false
    /\ exists msgs, log st' = log st ++ EvThreadStart img :: msgs
                    /\ forall i, EvThreadStart i ∉ msgs.
Proof.
  intros Ha Hc Hi.
  destruct (run_signals_shape true img) as (pre & last & Hrun & Hlast & Hpre & _).
  exists pre, last.
  set (st1 := set_processing_dialog_open true
                (record_event (EvThreadStart img)
                   (set_bg_thread
                      (Some {| image := img; pending := pre ++ [last] |}) st))).
  destruct (foldl_deliver_frame pre st1) as (Hf & Ht & _ & _ & msgs & Hl & Hn).
  simpl in Hf, Ht, Hl.
  destruct (deliver_frame last (foldl (fun s x => deliver x s) st1 pre))
    as (Hf' & Ht' & _ & _ & msgs' & Hl' & Hn').
  pose proof (processed_image_foldl_progress pre st1 Hpre) as Hp.
  pose proof (deliver_terminal_closes_dialog last
                (foldl (fun s x => deliver x s) st1 pre) Hlast) as Hd.
  assert (Hexec : exec_ (pre ++ [last]) st1
                  = Some (Py.Ok [], deliver last (foldl (fun s x => deliver x s) st1 pre)))
    by (apply exec_returns; auto).
  set (st2 := deliver last _) in *.
  assert (Hlog : log st2 = log st ++ EvThreadStart img :: (msgs ++ msgs')).
  { rewrite Hl', Hl. subst st1. simpl. rewrite <- !app_assoc. reflexivity. }
  assert (Hno : forall i, EvThreadStart i ∉ msgs ++ msgs').
  { intros i Hin. apply elem_of_app in Hin as [Hin|Hin];
      [eapply Hn|eapply Hn']; eauto. }
  assert (Hpi : processed_image st2
                = match last with
                  | finished out => Some out
                  | _ => processed_image st
                  end).
  { subst st2. destruct last; simpl; try rewrite Hp; reflexivity. }
  assert (Happ : apply_background_removal env img st
                 = (p <- get processed_image ;;
                    match p with
                    | Some processed =>
                        modify (set_processed_image None) ;; ret processed
                    | None => ret img
                    end)
                     (set_bg_thread (Some {| image := img; pending := [] |}) st2)).
  { unfold apply_background_removal. rewrite Ha, Hc. simpl.
    unfold try_except. rewrite Hi. run. rewrite Ha, Hrun.
    fold st1. unfold bind at 1. rewrite Hexec. run.
    rewrite Hpi.
    destruct last as [v|out|msg]; [discriminate|reflexivity|].
    destruct (processed_image st); reflexivity. }
  rewrite Happ. run. rewrite Hpi.
  assert (Hend : forall (r : PIL.Image) s',
             files s' = files st2 -> bg_thread s' = Some {| image := img; pending := [] |} ->
             processing_dialog_open s' = false -> log s' = log st2 ->
             exists st',
               BackgroundRemovalThread_run env true img = pre ++ [last]
               /\ is_terminal last = true
               /\ Some (Py.Ok r, s') = Some (Py.Ok r, st')
               /\ files st' = files st
               /\ bg_thread st' = Some {| image := img; pending := [] |}
               /\ processing_dialog_open st' = false
               /\ exists msgs, log st' = log st ++ EvThreadStart img :: msgs
                               /\ forall i, EvThreadStart i ∉ msgs).
  { intros r s' H1 H2 H3 H4. exists s'.
    repeat (split; [first [assumption|reflexivity|congruence]|]).
    exists (msgs ++ msgs'). split; [congruence|assumption]. }
  destruct last as [v|out|msg]; [discriminate| |].
  - apply Hend; solve [reflexivity|exact Hd].
  - simpl. destruct (processed_image st) as [p|]; apply Hend;
      solve [reflexivity|exact Hd].
Qed.

(** Background removal never touches the file system. *)
Lemma apply_background_removal_files (img : PIL.Image) (st : State) r st' :
  apply_background_removal env img st = Some (r, st') -> files st' = files st.
Proof.
  intros H.
  destruct (REMBG_AVAILABLE st) eqn:Ha.
  2:{ destruct (apply_background_removal_skipped img st) as (s & E & Hf & _); auto.
      congruence. }
  destruct (Qt.isChecked (remove_bg_check st)) eqn:Hc.
  2:{ destruct (apply_background_removal_skipped img st) as (s & E & Hf & _); auto.
      congruence. }
  destruct (import_rembg env) as [[]|e] eqn:Hi.
  - destruct (apply_background_removal_runs img st Ha Hc Hi)
      as (pre & last & s & _ & _ & E & Hf & _). congruence.
  - destruct (apply_background_removal_skipped img st) as (s & E & Hf & _); eauto.
    congruence.
Qed.

(** *** Persistence *)

Lemma save_to_path_frame img path f p (st : State) r st' :
  save_to_path env img path f p st = Some (r, st') ->
  forall q, q <> path -> files st' !! q = files st !! q.
Proof.
  unfold save_to_path. destruct (can_write env path); run.
  - destruct (run_encoder env f img p); intros [= <- <-] q Hq; state_simpl.
    + rewrite lookup_insert_ne; auto.
    + rewrite lookup_partial_alter_ne; auto.
  - unfold raise. intros [= <- <-]. auto.
Qed.

Lemma write_text_frame path text (st : State) r st' :
  write_text env path text st = Some (r, st') ->
  forall q, q <> path -> files st' !! q = files st !! q.
Proof.
  unfold write_text. destruct (can_write env path); run.
  - unfold modify. intros [= <- <-] q Hq; state_simpl.
    rewrite lookup_insert_ne; auto.
  - unfold raise. intros [= <- <-]. auto.
Qed.

(** The SVG writer opens the destination only with the whole document in
    hand: a failing PNG encoder leaves the file system as it was. *)
Lemma save_as_svg_direct_cases img path q (st : State) :
  match encode env PNG img {| PIL.quality := Some q; PIL.sizes := None |} with
  | Py.Raise e =>
      exists st', save_as_svg_direct env img path q st = Some (Py.Raise e, st')
                  /\ files st' = files st
                  /\ forall p, EvOpen p ∉ drop (length (log st)) (log st')
  | Py.Ok png =>
      if can_write env path then
        exists st', save_as_svg_direct env img path q st = Some (Py.Ok tt, st')
                    /\ files st'
                       = <[path := svg_document (fst (PIL.size img)) (snd (PIL.size img))
                                     (Base64.b64encode png)]> (files st)
      else
        exists e st', save_as_svg_direct env img path q st = Some (Py.Raise e, st')
                      /\ files st' = files st
  end.
Proof.
  unfold save_as_svg_direct, save_to_buffer, try_except. run.
  destruct (encode env PNG img _) as [png|e]; run.
  - destruct (PIL.size img) as [w h]. unfold write_text.
    destruct (can_write env path); run.
    + eexists. split; reflexivity.
    + unfold raise. eexists _, _. split; reflexivity.
  - unfold raise. eexists. split; [reflexivity|]. split; [reflexivity|].
    state_simpl. rewrite drop_app_length. intros p Hp.
    apply list_elem_of_In in Hp. simpl in Hp. intuition discriminate.
Qed.

Lemma apply_background_removal_total (img : PIL.Image) (st : State) :
  exists r st',
    apply_background_removal env img st = Some (Py.Ok r, st')
    /\ files st' = files st.
Proof.
  destruct (REMBG_AVAILABLE st) eqn:Ha.
  2:{ destruct (apply_background_removal_skipped img st) as (s & E & Hf & _); eauto. }
  destruct (Qt.isChecked (remove_bg_check st)) eqn:Hc.
  2:{ destruct (apply_background_removal_skipped img st) as (s & E & Hf & _); eauto. }
  destruct (import_rembg env) as [[]|e] eqn:Hi.
  - destruct (apply_background_removal_runs img st Ha Hc Hi)
      as (pre & last & s & _ & _ & E & Hf & _). eauto.
  - destruct (apply_background_removal_skipped img st) as (s & E & Hf & _); eauto.
Qed.

Lemma flatten_for_jpeg_state img (st : State) r st' :
  flatten_for_jpeg img st = Some (r, st') -> st' = st.
Proof.
  unfold flatten_for_jpeg. destruct (String.eqb _ _).
  - destruct (PIL.alpha_composite _ img); run; unfold ret; congruence.
  - unfold ret. congruence.
Qed.

Lemma encode_and_write_frame f path img (st : State) r st' :
  encode_and_write env f path img st = Some (r, st') ->
  forall q, q <> path -> files st' !! q = files st !! q.
Proof.
  destruct f; unfold encode_and_write; run;
    try (apply save_to_path_frame).
  - (* JPEG *)
    unfold bind at 1.
    destruct (flatten_for_jpeg img st) as [[[flat|e] s]|] eqn:E; try discriminate.
    + rewrite (flatten_for_jpeg_state _ _ _ _ E). run. apply save_to_path_frame.
    + rewrite (flatten_for_jpeg_state _ _ _ _ E). intros [= <- <-]. auto.
  - (* SVG *)
    unfold save_as_svg_direct, save_to_buffer, try_except. run.
    destruct (encode env PNG img _) as [png|e]; run.
    + destruct (PIL.size img) as [w h].
      destruct (write_text env path _ _) as [[[[]|e] s]|] eqn:E; try discriminate.
      * intros [= <- <-] q Hq.
        rewrite (write_text_frame _ _ _ _ _ E q Hq). reflexivity.
      * unfold raise. intros [= <- <-] q Hq.
        rewrite (write_text_frame _ _ _ _ _ E q Hq). reflexivity.
    + unfold raise. intros [= <- <-]. auto.
Qed.

Lemma finish_export_frame f path img (st : State) r st' :
  finish_export env f path img st = Some (r, st') ->
  forall q, q <> path -> files st' !! q = files st !! q.
Proof.
  unfold finish_export. run. unfold bind at 1.
  destruct (encode_and_write env f path img _) as [[[[]|e] s]|] eqn:E;
    try discriminate; run.
  - unfold modify. intros [= <- <-] q Hq. state_simpl.
    rewrite (encode_and_write_frame _ _ _ _ _ _ E q Hq). reflexivity.
  - intros [= <- <-] q Hq.
    rewrite (encode_and_write_frame _ _ _ _ _ _ E q Hq). reflexivity.
Qed.

(** The first two stages of [save_image_body]: a failed resize ends the
    body before anything is written; otherwise the body goes on to encode
    some image, with the file system untouched so far. *)
Lemma save_image_body_stages (cur : PIL.Image) (f : format) (path : string)
    (st : State) :
  match resample env cur (dimensions st) with
  | Py.Raise e =>
      exists st1, save_image_body env cur f path st = Some (Py.Raise e, st1)
                  /\ files st1 = files st
  | Py.Ok px =>
      exists img st1,
        save_image_body env cur f path st = finish_export env f path img st1
        /\ files st1 = files st
  end.
Proof.
  unfold save_image_body, resize. run.
  destruct (resample env cur _) as [px|e]; run.
  - set (st0 := set_progress_bar 40 _).
    set (img := {| PIL.mode := PIL.mode cur |}).
    destruct (Qt.isChecked (remove_bg_check st) && REMBG_AVAILABLE st
              && negb (format_eqb f SVG)).
    + destruct (apply_background_removal_total img st0) as (r & s & E & Hf).
      unfold bind at 1. rewrite E. exists r, s. split; [reflexivity|exact Hf].
    + run. exists img, st0. split; reflexivity.
  - eexists. split; reflexivity.
Qed.

(** *** [save_image] as a whole *)

Lemma save_image_unfold (st : State) (cur : PIL.Image) :
  current_image st = Some cur ->
  save_dialog_path env <> EmptyString ->
  save_image env st
  = try_except
      (save_image_body env cur (effective_format env st) (destination env st))
      on_save_error (after_question env st).
Proof.
  intros Hc Hp. unfold save_image, effective_format, after_question, destination.
  rewrite Hc.
  destruct (String.eqb_spec (save_dialog_path env) EmptyString) as [E|_];
    [contradiction|].
  unfold effective_format.
  destruct (format_eqb (format_combo st) JPEG && Qt.isChecked (remove_bg_check st));
    simpl; [|reflexivity].
  destruct (jpeg_warning_yes env); simpl; reflexivity.
Qed.

Lemma save_image_cancelled (st : State) (cur : PIL.Image) :
  current_image st = Some cur ->
  save_dialog_path env = EmptyString ->
  save_image env st = Some (Py.Ok tt, after_question env st).
Proof.
  intros Hc Hp. unfold save_image, after_question. rewrite Hc, Hp.
  destruct (format_eqb (format_combo st) JPEG && Qt.isChecked (remove_bg_check st));
    simpl; [|reflexivity].
  destruct (jpeg_warning_yes env); reflexivity.
Qed.

Lemma after_question_frame (st : State) :
  files (after_question env st) = files st
  /\ dimensions (after_question env st) = dimensions st.
Proof.
  unfold after_question, setCurrentText, format_changed.
  destruct (format_eqb (format_combo st) JPEG && Qt.isChecked (remove_bg_check st));
    [|split; reflexivity].
  destruct (jpeg_warning_yes env); [split; reflexivity|].
  state_simpl.
  destruct (format_eqb (format_combo st) PNG); split; reflexivity.
Qed.

(** [save_image] catches every exception: when it returns, it returns
    normally. *)
Lemma save_image_returns_ok (st : State) r st' :
  save_image env st = Some (r, st') -> r = Py.Ok tt.
Proof.
  destruct (current_image st) as [cur|] eqn:Hc.
  2:{ unfold save_image. rewrite Hc. intros [= <- <-]. reflexivity. }
  destruct (String.eqb_spec (save_dialog_path env) EmptyString) as [E|Hp].
  { rewrite (save_image_cancelled st cur Hc E). intros [= <- <-]. reflexivity. }
  rewrite (save_image_unfold st cur Hc Hp). unfold try_except.
  destruct (save_image_body _ _ _ _ _) as [[[[]|e] s]|]; try discriminate.
  - intros [= <- <-]. reflexivity.
  - unfold on_save_error. run. intros [= <- <-]. reflexivity.
Qed.

(** Only the destination can change. *)
Lemma save_image_frame (st : State) r st' :
  save_image env st = Some (r, st') ->
  forall q, q <> destination env st -> files st' !! q = files st !! q.
Proof.
  destruct (current_image st) as [cur|] eqn:Hc.
  2:{ unfold save_image. rewrite Hc. intros [= <- <-]. reflexivity. }
  destruct (String.eqb_spec (save_dialog_path env) EmptyString) as [E|Hp].
  { rewrite (save_image_cancelled st cur Hc E). intros [= <- <-] q _.
    rewrite (proj1 (after_question_frame st)). reflexivity. }
  rewrite (save_image_unfold st cur Hc Hp). unfold try_except.
  destruct (after_question_frame st) as [Hf Hd].
  pose proof (save_image_body_stages cur (effective_format env st) (destination env st)
                (after_question env st)) as Hs.
  destruct (resample env cur _) as [px|e].
  - destruct Hs as (img & st1 & -> & Hf1).
    destruct (finish_export _ _ _ _) as [[[[]|e] s]|] eqn:E; try discriminate.
    + intros [= <- <-] q Hq.
      rewrite (finish_export_frame _ _ _ _ _ _ E q Hq). congruence.
    + unfold on_save_error. run. intros [= <- <-] q Hq. state_simpl.
      rewrite (finish_export_frame _ _ _ _ _ _ E q Hq). congruence.
  - destruct Hs as (st1 & -> & Hf1).
    unfold on_save_error. run. intros [= <- <-] q Hq. state_simpl. congruence.
Qed.
End Pipeline.

(** ** Background removal and persistence *)

Section Coordinator.
Variable env : Env.

(** C10.  [apply_background_removal] hands back its input image, as a
  normal return, when the capability is not available, when the box is
  not ticked, or when the imports at the head of its try block raise;
  it starts no job and writes no file, and [save_image] goes on to
  encode the resized image as it is. *)
Theorem removal_skipped_returns_input (img : PIL.Image) (st : State) :
  REMBG_AVAILABLE st = false
  \/ Qt.isChecked (remove_bg_check st) = false
  \/ (exists e, import_rembg env = Py.Raise e) ->
  (exists st',
      apply_background_removal env img st = Some (Py.Ok img, st')
      /\ files st' = files st
      /\ bg_thread st' = bg_thread st)
  /\ forall cur f path px,
      resample env cur (dimensions st) = Py.Ok px ->
      exists st1,
        save_image_body env cur f path st
        = finish_export env f path (resized cur (dimensions st) px) st1
        /\ files st1 = files st
        /\ bg_thread st1 = bg_thread st.
Proof.
  intros H. split.
  - destruct (apply_background_removal_skipped env img st H)
      as (st' & E & Hf & Ht & _).
    exists st'. auto.
  - intros cur f path px Hr.
    apply save_image_body_skips_removal; assumption.
Qed.

(** X16.  A submission runs one job to its end.  From a window with no job
  in flight, each call of [apply_background_removal] that gets past its
  guards starts exactly one thread on its input, and does not return
  before that thread has sent its one terminal signal: the modal dialog
  holds the caller while the progress signals are handled and is closed
  by [finished] or [error].  On return no signal of the job is left
  unhandled and the dialog is closed: again no job is in flight.  The
  call returns the image of [finished]; after [error] it returns what
  [processed_image] held, or else its input. *)
Theorem submission_starts_one_job_and_waits (img : PIL.Image) (st : State) :
  idle st ->
  REMBG_AVAILABLE st = true ->
  Qt.isChecked (remove_bg_check st) = true ->
  import_rembg env = Py.Ok tt ->
  exists pre last st',
    BackgroundRemovalThread_run env true img = pre ++ [last]
    /\ is_terminal last = true
    /\ forallb (fun s => negb (is_terminal s)) pre = true
    /\ apply_background_removal env img st
       = Some (Py.Ok (job_result img st last), st')
    /\ bg_thread st' = Some {| image := img; pending := [] |}
    /\ processing_dialog_open st' = false
    /\ idle st'
    /\ exists msgs, log st' = log st ++ EvThreadStart img :: msgs
                    /\ forall i, EvThreadStart i ∉ msgs.
Proof.
  intros _ Ha Hc Hi.
  destruct (apply_background_removal_runs env img st Ha Hc Hi)
    as (pre & last & st' & Hrun & Hlast & E & _ & Ht & Hd & Hlog).
  destruct (run_signals_shape env true img) as (pre' & last' & Hrun' & _ & Hpre' & _).
  rewrite Hrun in Hrun'. apply app_inj_tail in Hrun' as [-> ->].
  assert (Hidle : idle st') by (unfold idle; rewrite Hd, Ht; split; reflexivity).
  exists pre', last', st'. auto 10.
Qed.

(** C8, as the code has it.  An export that has an image and a path
  always returns normally and changes no file other than the
  destination.  A failed resize leaves the file system as it was, and so
  does a failed PNG encoding in the SVG branch, which opens the
  destination only with the whole document in hand.  A failed
  background removal does not stop the export: the job ends with an
  error signal, the call returns the image it was given, and the export
  goes on with it. *)
Theorem export_writes_only_destination (st : State) (cur : PIL.Image) :
  current_image st = Some cur ->
  save_dialog_path env <> EmptyString ->
  (forall r st',
      save_image env st = Some (r, st') ->
      r = Py.Ok tt
      /\ forall q, q <> destination env st -> files st' !! q = files st !! q)
  /\ (forall e,
        resample env cur (dimensions st) = Py.Raise e ->
        exists st', save_image env st = Some (Py.Ok tt, st')
                    /\ files st' = files st)
  /\ (forall px e,
        effective_format env st = SVG ->
        resample env cur (dimensions st) = Py.Ok px ->
        encode env PNG (resized cur (dimensions st) px)
          {| PIL.quality := Some (Qt.value (svg_quality_slider st));
             PIL.sizes := None |} = Py.Raise e ->
        exists st', save_image env st = Some (Py.Ok tt, st')
                    /\ files st' = files st)
  /\ (forall img s pre msg,
        processed_image s = None ->
        REMBG_AVAILABLE s = true ->
        Qt.isChecked (remove_bg_check s) = true ->
        import_rembg env = Py.Ok tt ->
        BackgroundRemovalThread_run env true img = pre ++ [error msg] ->
        exists s', apply_background_removal env img s = Some (Py.Ok img, s')
                   /\ files s' = files s).
Proof.
  intros Hc Hp. repeat split.
  - eapply save_image_returns_ok; eauto.
  - eapply save_image_frame; eauto.
  - intros e Hr. rewrite (save_image_unfold env st cur Hc Hp). unfold try_except.
    destruct (after_question_frame env st) as [Hf Hd].
    pose proof (save_image_body_stages env cur (effective_format env st)
                  (destination env st) (after_question env st)) as Hs.
    rewrite Hd, Hr in Hs. destruct Hs as (st1 & -> & Hf1).
    unfold on_save_error. run. eexists. split; [reflexivity|].
    state_simpl. congruence.
  - intros px e Hfmt Hr He.
    rewrite (save_image_unfold env st cur Hc Hp). unfold try_except.
    assert (Hq : after_question env st = st).
    { unfold after_question. unfold effective_format in Hfmt.
      destruct (format_combo st); simpl in *; try reflexivity;
        destruct (Qt.isChecked (remove_bg_check st)); simpl in *; try reflexivity;
        destruct (jpeg_warning_yes env); simpl in *; try reflexivity; discriminate. }
    rewrite Hq, Hfmt.
    unfold save_image_body, resize. run. rewrite Hr. run.
    rewrite andb_false_r. run.
    unfold encode_and_write. run.
    fold (resized cur (Qt.value (width_spin st), Qt.value (height_spin st)) px).
    unfold bind at 1.
    pose proof (save_as_svg_direct_cases env
                  (resized cur (Qt.value (width_spin st), Qt.value (height_spin st)) px)
                  (destination env st) (Qt.value (svg_quality_slider st))
                  (set_progress_bar 80
                     (set_progress_bar 40
                        (record_event
                           (EvResize (Qt.value (width_spin st), Qt.value (height_spin st)))
                           (set_progress_bar 20 st))))) as Hs.
    rewrite He in Hs. destruct Hs as (st' & -> & Hf & _).
    unfold on_save_error. run. eexists. split; [reflexivity|].
    state_simpl. exact Hf.
  - intros img s pre msg Hpi Ha Hck Hi Hrun.
    destruct (apply_background_removal_runs env img s Ha Hck Hi)
      as (pre' & last & s' & Hrun' & _ & E & Hf & _).
    rewrite Hrun in Hrun'. apply app_inj_tail in Hrun' as [_ <-].
    exists s'. split; [|exact Hf]. rewrite E. unfold job_result. rewrite Hpi.
    reflexivity.
Qed.
End Coordinator.

(** ** SVG and JPEG *)

Section Formats.
Variable env : Env.

Lemma not_thread_start_in (l : list event) :
  forallb (fun e => match e with EvThreadStart _ => false | _ => true end) l = true ->
  forall i, EvThreadStart i ∉ l.
Proof.
  intros H i Hi. rewrite forallb_forall in H.
  apply list_elem_of_In in Hi. specialize (H _ Hi). discriminate.
Qed.

(** An SVG export run twice, from a state and from the same state with
    another check box: the same files, the same events, no job. *)
Lemma save_image_svg (st : State) (c : Qt.CheckBox) :
  format_combo st = SVG ->
  exists st1 st2 evs,
    save_image env st = Some (Py.Ok tt, st1)
    /\ save_image env (set_remove_bg_check c st) = Some (Py.Ok tt, st2)
    /\ files st1 = files st2
    /\ log st1 = log st2
    /\ log st1 = log st ++ evs
    /\ forallb (fun e => match e with EvThreadStart _ => false | _ => true end)
         evs = true
    /\ bg_thread st1 = bg_thread st.
Proof.
  intros Hfmt. unfold save_image. state_simpl. rewrite Hfmt. simpl format_eqb.
  cbn [andb].
  destruct (current_image st) as [cur|].
  2:{ unfold show_message, modify. eexists _, _, _. do 2 (split; [reflexivity|]).
      state_simpl. repeat split; reflexivity. }
  destruct (String.eqb (save_dialog_path env) EmptyString).
  { exists st, (set_remove_bg_check c st), []. rewrite app_nil_r. repeat split. }
  unfold try_except, save_image_body, resize. run.
  destruct (resample env cur _) as [px|e]; run.
  2:{ eexists _, _, _. do 2 (split; [reflexivity|]). state_simpl.
      do 2 (split; [reflexivity|]).
      split; [rewrite <- app_assoc; reflexivity|]. split; reflexivity. }
  rewrite !andb_false_r. run.
  unfold encode_and_write, save_as_svg_direct, save_to_buffer, try_except. run.
  destruct (encode env PNG _ _) as [png|e]; run.
  2:{ unfold raise. run. eexists _, _, _. do 2 (split; [reflexivity|]). state_simpl.
      do 2 (split; [reflexivity|]).
      split; [rewrite <- !app_assoc; reflexivity|]. split; reflexivity. }
  unfold write_text. destruct (can_write env _); run.
  - eexists _, _, _. do 2 (split; [reflexivity|]). state_simpl.
    do 2 (split; [reflexivity|]).
    split; [rewrite <- !app_assoc; reflexivity|]. split; reflexivity.
  - unfold raise. run. eexists _, _, _. do 2 (split; [reflexivity|]). state_simpl.
    do 2 (split; [reflexivity|]).
    split; [rewrite <- !app_assoc; reflexivity|]. split; reflexivity.
Qed.

(** C1, as the code has it.  With SVG selected [save_image] rejects
  nothing: it runs the same export whatever the state of the
  background-removal box (the same files, the same events), starts no
  removal job, and returns normally.  What guards the combination is
  the window: [format_changed] unticks and disables the box when SVG is
  chosen. *)
Theorem svg_export_ignores_removal_flag (st : State) (c : Qt.CheckBox) :
  format_combo st = SVG ->
  (exists st1 st2 evs,
      save_image env st = Some (Py.Ok tt, st1)
      /\ save_image env (set_remove_bg_check c st) = Some (Py.Ok tt, st2)
      /\ files st1 = files st2
      /\ log st1 = log st2
      /\ log st1 = log st ++ evs
      /\ (forall i, EvThreadStart i ∉ evs)
      /\ bg_thread st1 = bg_thread st)
  /\ remove_bg_check (format_changed SVG st)
     = {| Qt.isChecked := false; Qt.isEnabled := false |}.
Proof.
  intros Hfmt. split; [|reflexivity].
  destruct (save_image_svg st c Hfmt)
    as (st1 & st2 & evs & E1 & E2 & Hf & Hl & Hl' & Hn & Ht).
  exists st1, st2, evs. repeat split; auto.
  apply not_thread_start_in; assumption.
Qed.

(** C9.  [save_as_svg_direct] passes the quality to the PNG encoder and
  uses it nowhere else: if the PNG encoder returns the same bytes for
  all qualities in [1 .. 100], two calls that differ in the quality only
  have the same outcome and leave the same files. *)
Theorem svg_output_independent_of_quality (img : PIL.Image) (path : string)
    (q1 q2 : Z) (st : State) :
  1 <= q1 <= 100 -> 1 <= q2 <= 100 ->
  (forall q q',
      1 <= q <= 100 -> 1 <= q' <= 100 ->
      encode env PNG img {| PIL.quality := Some q; PIL.sizes := None |}
      = encode env PNG img {| PIL.quality := Some q'; PIL.sizes := None |}) ->
  exists r s1 s2,
    save_as_svg_direct env img path q1 st = Some (r, s1)
    /\ save_as_svg_direct env img path q2 st = Some (r, s2)
    /\ files s1 = files s2
    /\ EvEncode PNG img {| PIL.quality := Some q1; PIL.sizes := None |} ∈ log s1
    /\ EvEncode PNG img {| PIL.quality := Some q2; PIL.sizes := None |} ∈ log s2.
Proof.
  intros H1 H2 Henc.
  unfold save_as_svg_direct, save_to_buffer, try_except. run.
  rewrite (Henc q2 q1 H2 H1).
  destruct (encode env PNG img _) as [png|e]; run.
  - destruct (PIL.size img) as [w h]. unfold write_text.
    destruct (can_write env path); run.
    + eexists _, _, _. do 2 (split; [reflexivity|]). state_simpl.
      split; [reflexivity|]. split; rewrite !elem_of_app, !list_elem_of_singleton; tauto.
    + unfold raise. run. eexists _, _, _. do 2 (split; [reflexivity|]). state_simpl.
      split; [reflexivity|]. split; rewrite !elem_of_app, !list_elem_of_singleton; tauto.
  - unfold raise. eexists _, _, _. do 2 (split; [reflexivity|]). state_simpl.
    split; [reflexivity|]. split; rewrite !elem_of_app, !list_elem_of_singleton; tauto.
Qed.

(** *** JPEG: compositing over white *)

Lemma byte_in_range (z : Z) : is_byte z -> In z byte_range.
Proof.
  intros [H0 H1]. unfold byte_range.
  replace z with (Z.of_nat (Z.to_nat z)) by lia.
  apply in_map, in_seq. lia.
Qed.

Lemma forall_bytes (P : Z -> Z -> bool) :
  forallb (fun c => forallb (P c) byte_range) byte_range = true ->
  forall c a, is_byte c -> is_byte a -> P c a = true.
Proof.
  intros H c a Hc Ha. rewrite forallb_forall in H.
  specialize (H c (byte_in_range c Hc)). rewrite forallb_forall in H.
  exact (H a (byte_in_range a Ha)).
Qed.

Lemma composite_over_white (r g b a : Z) :
  PIL.composite_pixel PIL.white (r, g, b, a)
  = (band_over_white r a, band_over_white g a, band_over_white b a,
     alpha_over_white a).
Proof.
  unfold PIL.composite_pixel, PIL.white, band_over_white, alpha_over_white.
  destruct (a =? 0); reflexivity.
Qed.

Lemma band_over_white_nearest (c a : Z) :
  is_byte c -> is_byte a -> nearest_blend c a (band_over_white c a).
Proof.
  intros Hc Ha. unfold nearest_blend. apply Z.leb_le.
  revert c a Hc Ha.
  apply (forall_bytes
           (fun c a => Z.abs (255 * band_over_white c a
                              - (c * a + 255 * (255 - a))) <=? 127)).
  vm_compute. reflexivity.
Qed.

Lemma alpha_over_white_opaque (a : Z) : is_byte a -> alpha_over_white a = 255.
Proof.
  intros Ha. apply Z.eqb_eq. revert Ha.
  generalize (forall_bytes (fun _ a => alpha_over_white a =? 255)).
  intros H Ha. apply (H ltac:(vm_compute; reflexivity) 0 a); [unfold is_byte; lia|exact Ha].
Qed.

Lemma composite_white_blended (px : list PIL.pixel) :
  Forall pixel_ok px ->
  Forall2 blended_over_white px
    (map (fun '(r, g, b, _) => (r, g, b, 255))
       (zip_with PIL.composite_pixel (replicate (length px) PIL.white) px)).
Proof.
  induction 1 as [|[[[r g] b] a] px Hp Hpx IH];
    cbn [length replicate zip_with map]; constructor; try exact IH.
  rewrite composite_over_white. destruct Hp as (Hr & Hg & Hb & Ha).
  cbn [blended_over_white]. repeat split; auto using band_over_white_nearest.
Qed.

(** C3.  The JPEG branch of [save_image], given an RGBA image whose pixels
  are bytes: the image is laid over an opaque white image of its size
  and converted to RGB before it is encoded.  Every band of every pixel
  of the result is an integer nearest to
  [src * alpha / 255 + 255 * (1 - alpha / 255)], and the result has no
  transparency left (alpha 255, mode RGB).  The flattened image is
  encoded at the value of the quality slider, and the branch returns
  normally when the JPEG encoder accepts RGB images and the destination
  can be opened. *)
Theorem jpeg_export_flattens_rgba (img : PIL.Image) (path : string)
    (st : State) :
  PIL.mode img = "RGBA" ->
  length (PIL.pixels img)
  = Z.to_nat (fst (PIL.size img) * snd (PIL.size img)) ->
  Forall pixel_ok (PIL.pixels img) ->
  (forall im p, PIL.mode im = "RGB" -> exists data, encode env JPEG im p = Py.Ok data) ->
  can_write env path = true ->
  exists flat data st',
    flatten_for_jpeg img st = Some (Py.Ok flat, st)
    /\ PIL.mode flat = "RGB"
    /\ PIL.size flat = PIL.size img
    /\ Forall2 blended_over_white (PIL.pixels img) (PIL.pixels flat)
    /\ encode env JPEG flat
         {| PIL.quality := Some (Qt.value (quality_slider st));
            PIL.sizes := None |} = Py.Ok data
    /\ encode_and_write env JPEG path img st = Some (Py.Ok tt, st')
    /\ files st' = <[path := data]> (files st)
    /\ log st'
       = log st ++ [EvOpen path;
                    EvEncode JPEG flat
                      {| PIL.quality := Some (Qt.value (quality_slider st));
                         PIL.sizes := None |}].
Proof.
  intros Hm Hlen Hpx Henc Hw.
  set (flat := PIL.convert_RGB
                 {| PIL.mode := "RGBA"; PIL.size := PIL.size img;
                    PIL.pixels := zip_with PIL.composite_pixel
                                    (replicate (length (PIL.pixels img)) PIL.white)
                                    (PIL.pixels img) |}).
  assert (Hflat : flatten_for_jpeg img st = Some (Py.Ok flat, st)).
  { unfold flatten_for_jpeg. rewrite Hm. simpl String.eqb. cbv iota.
    unfold PIL.alpha_composite, PIL.new. cbn [PIL.mode PIL.size PIL.pixels].
    rewrite Hm. simpl String.eqb. rewrite !Z.eqb_refl. simpl. run.
    rewrite <- Hlen. reflexivity. }
  destruct (Henc flat {| PIL.quality := Some (Qt.value (quality_slider st));
                         PIL.sizes := None |} eq_refl) as [data Hdata].
  exists flat, data. eexists.
  split; [exact Hflat|]. split; [reflexivity|]. split; [reflexivity|].
  split; [apply composite_white_blended; exact Hpx|].
  split; [exact Hdata|].
  unfold encode_and_write. unfold bind at 1. rewrite Hflat. run.
  unfold save_to_path. rewrite Hw. run. rewrite Hdata.
  split; [reflexivity|]. state_simpl. split; [reflexivity|].
  rewrite <- app_assoc. reflexivity.
Qed.
End Formats.

(** ** Base 64 *)

Lemma sextet_of_char_of_sextet (s : Base64.sextet) :
  Base64.sextet_of_char (Base64.char_of_sextet s) = Some s.
Proof.
  destruct s as [[[[[b5 b4] b3] b2] b1] b0].
  destruct b5, b4, b3, b2, b1, b0; vm_compute; reflexivity.
Qed.

Lemma sextet_of_pad : Base64.sextet_of_char Base64.pad = None.
Proof. vm_compute. reflexivity. Qed.

Lemma string_ind3 (P : string -> Prop) :
  P EmptyString ->
  (forall a, P (String a EmptyString)) ->
  (forall a b, P (String a (String b EmptyString))) ->
  (forall a b c r, P r -> P (String a (String b (String c r)))) ->
  forall s, P s.
Proof.
  intros H0 H1 H2 H3 s.
  enough (P s /\ (forall a, P (String a s)) /\ forall a b, P (String a (String b s)))
    by tauto.
  induction s as [|c r (IH0 & IH1 & IH2)].
  - auto.
  - split; [apply IH1|]. split; [intros a; apply IH2|].
    intros a b. apply H3. exact IH0.
Qed.

Lemma b64decode_b64encode (s : string) :
  Base64.b64decode (Base64.b64encode s) = Some s.
Proof.
  induction s as [|a|a b|a b c r IH] using string_ind3.
  - reflexivity.
  - destruct a as [a0 a1 a2 a3 a4 a5 a6 a7].
    cbn [Base64.b64encode Base64.b64decode].
    rewrite !sextet_of_char_of_sextet, sextet_of_pad. reflexivity.
  - destruct a as [a0 a1 a2 a3 a4 a5 a6 a7], b as [b0 b1 b2 b3 b4 b5 b6 b7].
    cbn [Base64.b64encode Base64.b64decode].
    rewrite !sextet_of_char_of_sextet, sextet_of_pad. reflexivity.
  - destruct a as [a0 a1 a2 a3 a4 a5 a6 a7], b as [b0 b1 b2 b3 b4 b5 b6 b7],
      c as [c0 c1 c2 c3 c4 c5 c6 c7].
    cbn [Base64.b64encode Base64.b64decode].
    rewrite !sextet_of_char_of_sextet, IH. reflexivity.
Qed.

(** ** Counting tags *)

#[local] Arguments String.append !_ _ / : simpl nomatch.

Lemma count_plain_app (c0 : ascii) (pat s t : string) :
  c0 = ascii_of_nat 60 ->
  Str.plain s = true ->
  Str.count (String c0 pat) (s ++ t) = Str.count (String c0 pat) t.
Proof.
  intros E Hs. induction s as [|c r IH]; [reflexivity|].
  cbn [Str.plain] in Hs. apply andb_true_iff in Hs as [Hc Hr].
  apply andb_true_iff in Hc as [Hc _]. apply negb_true_iff in Hc.
  rewrite <- E in Hc.
  cbn [String.append Str.count Str.startswith].
  rewrite Ascii.eqb_sym, Hc. cbn [andb]. rewrite IH by assumption. reflexivity.
Qed.

Lemma plain_of_uint (d : Decimal.uint) :
  Str.plain (NilEmpty.string_of_uint d) = true.
Proof. induction d; simpl; auto. Qed.

Lemma plain_of_int (n : Z) : Str.plain (Str.of_int n) = true.
Proof.
  unfold Str.of_int, NilZero.string_of_int, NilZero.string_of_uint.
  destruct (Z.to_int n) as [d|d]; destruct d; try reflexivity;
    try (cbn [Str.plain]; rewrite ?andb_true_l); apply plain_of_uint.
Qed.

Lemma plain_b64encode (s : string) : Str.plain (Base64.b64encode s) = true.
Proof.
  assert (Hc : forall x, (negb (Ascii.eqb (Base64.char_of_sextet x) (ascii_of_nat 60))
                          && negb (Ascii.eqb (Base64.char_of_sextet x) (ascii_of_nat 34)))%bool
                         = true).
  { intros [[[[[b5 b4] b3] b2] b1] b0].
    destruct b5, b4, b3, b2, b1, b0; vm_compute; reflexivity. }
  induction s as [|a|a b|a b c r IH] using string_ind3.
  - reflexivity.
  - destruct a as [a0 a1 a2 a3 a4 a5 a6 a7].
    cbn [Base64.b64encode Str.plain]. rewrite !Hc. reflexivity.
  - destruct a as [a0 a1 a2 a3 a4 a5 a6 a7], b as [b0 b1 b2 b3 b4 b5 b6 b7].
    cbn [Base64.b64encode Str.plain]. rewrite !Hc. reflexivity.
  - destruct a as [a0 a1 a2 a3 a4 a5 a6 a7], b as [b0 b1 b2 b3 b4 b5 b6 b7],
      c as [c0 c1 c2 c3 c4 c5 c6 c7].
    cbn [Base64.b64encode Str.plain]. rewrite !Hc, IH. reflexivity.
Qed.

Ltac count_tags :=
  unfold svg_template;
  let q := eval vm_compute in Str.dquote in change Str.dquote with q;
  let l := eval vm_compute in Str.lf in change Str.lf with l;
  repeat first
    [ rewrite count_plain_app by (reflexivity || assumption)
    | progress cbn [String.append Str.count Str.startswith Ascii.eqb Bool.eqb andb
                    Nat.add] ].

Lemma svg_template_one_image (w h p : string) :
  Str.plain w = true -> Str.plain h = true -> Str.plain p = true ->
  Str.count "<image" (svg_template w h p) = 1%nat
  /\ Str.count "<svg" (svg_template w h p) = 1%nat.
Proof.
  intros Hw Hh Hp. split.
  - count_tags. reflexivity.
  - count_tags. reflexivity.
Qed.

Lemma string_append_assoc (s t u : string) :
  ((s ++ t) ++ u = s ++ t ++ u)%string.
Proof. induction s as [|c s IH]; cbn [String.append]; [|rewrite IH]; reflexivity. Qed.

Section SvgDocument.
Variable env : Env.
Local Open Scope string_scope.

(** C7.  [save_as_svg_direct] writes a document with one [<svg>] element
  and one [<image>] element.  The [<svg>] tag carries [width] and
  [height] equal to the size of the image and
  [viewBox="0 0 width height"]; the [<image>] tag, inside it, carries
  the same [width] and [height] and
  [xlink:href="data:image/png;base64,<data>"], where [<data>] is the
  base 64 encoding of the PNG bytes of the image and decodes back to
  them. *)
Theorem svg_document_structure (img : PIL.Image) (path : string) (q : Z)
    (st : State) (png : string) :
  encode env PNG img {| PIL.quality := Some q; PIL.sizes := None |} = Py.Ok png ->
  can_write env path = true ->
  let w := Str.of_int (fst (PIL.size img)) in
  let h := Str.of_int (snd (PIL.size img)) in
  let payload := Base64.b64encode png in
  exists st' doc,
    save_as_svg_direct env img path q st = Some (Py.Ok tt, st')
    /\ files st' !! path = Some doc
    /\ (exists head ns body gap tail,
          doc = head ++ "<svg " ++ ns
                ++ attribute "width" w ++ " " ++ attribute "height" h ++ " "
                ++ attribute "viewBox" ("0 0 " ++ w ++ " " ++ h) ++ ">"
                ++ body ++ "<image "
                ++ attribute "width" w ++ " " ++ attribute "height" h
                ++ gap
                ++ attribute "xlink:href" ("data:image/png;base64," ++ payload)
                ++ "/>" ++ tail
          /\ Str.count "<" ns = 0%nat /\ Str.count ">" ns = 0%nat
          /\ Str.count "<" body = 0%nat
          /\ Str.count "<" gap = 0%nat /\ Str.count ">" gap = 0%nat
          /\ Str.count "<svg" tail = 0%nat /\ Str.count "<image" tail = 0%nat)
    /\ Str.count "<svg" doc = 1%nat
    /\ Str.count "<image" doc = 1%nat
    /\ Base64.b64decode payload = Some png.
Proof.
  intros Henc Hw w h payload.
  pose proof (save_as_svg_direct_cases env img path q st) as Hs.
  rewrite Henc, Hw in Hs. destruct Hs as (st' & E & Hf).
  exists st', (svg_document (fst (PIL.size img)) (snd (PIL.size img)) payload).
  split; [exact E|]. split; [rewrite Hf; apply lookup_insert_eq|].
  split.
  - unfold svg_document, svg_template, attribute. fold w h.
    eexists _, _, _, _, _. split.
    + instantiate (5 := "<?xml version=" ++ Str.dquote ++ "1.0" ++ Str.dquote
                        ++ " encoding=" ++ Str.dquote ++ "UTF-8" ++ Str.dquote
                        ++ " standalone=" ++ Str.dquote ++ "no" ++ Str.dquote
                        ++ "?>" ++ Str.lf ++ "            ").
      instantiate (4 := "xmlns=" ++ Str.dquote ++ "http://www.w3.org/2000/svg"
                        ++ Str.dquote ++ " " ++ Str.lf
                        ++ "                 xmlns:xlink=" ++ Str.dquote
                        ++ "http://www.w3.org/1999/xlink" ++ Str.dquote ++ " "
                        ++ Str.lf ++ "                 ").
      instantiate (3 := Str.lf ++ "                ").
      instantiate (2 := " " ++ Str.lf ++ "                       ").
      instantiate (1 := Str.lf ++ "            </svg>").
      rewrite !string_append_assoc. reflexivity.
    + repeat split; vm_compute; reflexivity.
  - unfold svg_document.
    destruct (svg_template_one_image w h payload) as [Hi Hsv];
      try apply plain_of_int; try apply plain_b64encode.
    split; [exact Hsv|]. split; [exact Hi|]. apply b64decode_b64encode.
Qed.
End SvgDocument.

(** ** Frames of the pipeline *)

Section Frames.

Context {R : State -> State -> Prop} {ok_event : event -> Prop}
  {ok_path : string -> Prop} `{!Frame R ok_event ok_path}.
Variable env : Env.

Lemma preserves_ret {A} (a : A) : preserves R (ret a).
Proof. intros st r st' [= <- <-]. apply frame_refl. Qed.

Lemma preserves_raise {A} (e : Py.exn) : preserves R (@raise A e).
Proof. intros st r st' [= <- <-]. apply frame_refl. Qed.

Lemma preserves_lift {A} (o : Py.outcome A) : preserves R (lift o).
Proof. intros st r st' [= <- <-]. apply frame_refl. Qed.

Lemma preserves_get {A} (f : State -> A) : preserves R (get f).
Proof. intros st r st' [= <- <-]. apply frame_refl. Qed.

Lemma preserves_modify (f : State -> State) :
  (forall s, R s (f s)) -> preserves R (modify f).
Proof. intros Hf st r st' [= <- <-]. apply Hf. Qed.

Lemma preserves_bind {A B} (c : M A) (k : A -> M B) :
  preserves R c -> (forall a, preserves R (k a)) -> preserves R (bind c k).
Proof.
  intros Hc Hk st r st'. unfold bind.
  destruct (c st) as [[[a|e] s1]|] eqn:E; try discriminate.
  - intros Hka. eapply frame_trans; [eapply Hc; eauto|eapply Hk; eauto].
  - intros [= <- <-]. eapply Hc; eauto.
Qed.

Lemma preserves_try_except {A} (c : M A) (h : Py.exn -> M A) :
  preserves R c -> (forall e, preserves R (h e)) -> preserves R (try_except c h).
Proof.
  intros Hc Hh st r st'. unfold try_except.
  destruct (c st) as [[[a|e] s1]|] eqn:E; try discriminate.
  - intros [= <- <-]. eapply Hc; eauto.
  - intros Hhe. eapply frame_trans; [eapply Hc; eauto|eapply Hh; eauto].
Qed.

Lemma preserves_event (e : event) :
  ok_event e -> preserves R (modify (record_event e)).
Proof. intros He. apply preserves_modify. intros s. apply frame_event, He. Qed.

Lemma preserves_show_message (k : msg_kind) (t : string) :
  ok_event (EvMessage k t) -> preserves R (show_message k t).
Proof. apply preserves_event. Qed.

Lemma preserves_progress (v : Z) : preserves R (modify (set_progress_bar v)).
Proof. apply preserves_modify, frame_progress. Qed.

(** *** The removal job *)

Lemma frame_deliver (s : signal) (st : State) :
  (forall k t, ok_event (EvMessage k t)) -> R st (deliver s st).
Proof.
  intros Hmsg. destruct s as [v|img|msg]; cbn [deliver].
  - apply frame_progress.
  - unfold on_bg_removal_finished.
    eapply frame_trans; [apply frame_processed|apply frame_dialog].
  - unfold on_bg_removal_error.
    eapply frame_trans; [apply frame_dialog|apply frame_event, Hmsg].
Qed.

Lemma preserves_exec (sigs : list signal) :
  (forall k t, ok_event (EvMessage k t)) -> preserves R (exec_ sigs).
Proof.
  intros Hmsg. induction sigs as [|s sigs IH]; intros st r st'; cbn [exec_].
  - discriminate.
  - destruct (processing_dialog_open (deliver s st)).
    + intros E. eapply frame_trans; [apply frame_deliver, Hmsg|eapply IH, E].
    + intros [= <- <-]. apply frame_deliver, Hmsg.
Qed.

Lemma preserves_apply_background_removal (img : PIL.Image) :
  (forall k t, ok_event (EvMessage k t)) -> ok_event (EvThreadStart img) ->
  preserves R (apply_background_removal env img).
Proof.
  intros Hmsg Hstart st r st'. unfold apply_background_removal.
  destruct (negb (REMBG_AVAILABLE st) || negb (Qt.isChecked (remove_bg_check st))).
  { intros [= <- <-]. apply frame_refl. }
  revert st r st'. apply preserves_try_except.
  - apply preserves_bind; [apply preserves_lift|intros _].
    apply preserves_bind; [apply preserves_get|intros available].
    apply preserves_bind; [apply preserves_modify, frame_thread|intros _].
    apply preserves_bind; [apply preserves_event, Hstart|intros _].
    apply preserves_bind; [apply preserves_modify, frame_dialog|intros _].
    apply preserves_bind; [apply preserves_exec, Hmsg|intros rest].
    apply preserves_bind; [apply preserves_modify, frame_thread|intros _].
    apply preserves_bind; [apply preserves_get|intros [p|]].
    + apply preserves_bind; [apply preserves_modify, frame_processed|intros _].
      apply preserves_ret.
    + apply preserves_ret.
  - intros e. apply preserves_bind; [apply preserves_show_message, Hmsg|intros _].
    apply preserves_ret.
Qed.

(** *** Resizing, encoding, writing *)

Lemma preserves_resize (img : PIL.Image) (new_size : Z * Z) :
  ok_event (EvResize new_size) -> preserves R (resize env img new_size).
Proof.
  intros He. unfold resize.
  apply preserves_bind; [apply preserves_event, He|intros _].
  apply preserves_bind; [apply preserves_lift|intros px]. apply preserves_ret.
Qed.

Lemma preserves_save_to_buffer (img : PIL.Image) (f : format)
    (p : PIL.save_params) :
  ok_event (EvEncode f img p) -> preserves R (save_to_buffer env img f p).
Proof.
  intros He. unfold save_to_buffer.
  apply preserves_bind; [apply preserves_event, He|intros _]. apply preserves_lift.
Qed.

Lemma preserves_save_to_path (img : PIL.Image) (path : string) (f : format)
    (p : PIL.save_params) :
  ok_event (EvOpen path) -> ok_event (EvEncode f img p) -> ok_path path ->
  preserves R (save_to_path env img path f p).
Proof.
  intros Ho He Hp. unfold save_to_path.
  destruct (can_write env path); [|apply preserves_raise].
  apply preserves_bind; [apply preserves_event, Ho|intros _].
  apply preserves_bind; [apply preserves_event, He|intros _].
  intros st r st'.
  destruct (run_encoder env f img p); intros [= <- <-]; apply frame_files;
    intros q Hq.
  - apply lookup_insert_ne. intros ->. contradiction.
  - apply lookup_partial_alter_ne. intros ->. contradiction.
Qed.

Lemma preserves_write_text (path text : string) :
  ok_event (EvOpen path) -> ok_path path ->
  preserves R (write_text env path text).
Proof.
  intros Ho Hp. unfold write_text.
  destruct (can_write env path); [|apply preserves_raise].
  apply preserves_bind; [apply preserves_event, Ho|intros _].
  apply preserves_modify. intros s. apply frame_files. intros q Hq.
  apply lookup_insert_ne. intros ->. contradiction.
Qed.

Lemma preserves_save_as_svg_direct (img : PIL.Image) (path : string) (q : Z) :
  ok_event (EvOpen path) -> ok_path path ->
  ok_event (EvEncode PNG img {| PIL.quality := Some q; PIL.sizes := None |}) ->
  preserves R (save_as_svg_direct env img path q).
Proof.
  intros Ho Hp He. unfold save_as_svg_direct.
  apply preserves_try_except; [|intros e; apply preserves_raise].
  apply preserves_bind; [apply preserves_save_to_buffer, He|intros png].
  destruct (PIL.size img) as [w h]. apply preserves_write_text; assumption.
Qed.

Lemma preserves_flatten_for_jpeg (img : PIL.Image) :
  preserves R (flatten_for_jpeg img).
Proof.
  unfold flatten_for_jpeg. destruct (String.eqb _ _); [|apply preserves_ret].
  apply preserves_bind; [apply preserves_lift|intros c]. apply preserves_ret.
Qed.

End Frames.

(** *** The three frames in use *)

#[export] Instance same_settings_frame :
  Frame same_settings (fun _ => True) (fun _ => True).
Proof.
  split; unfold same_settings; try reflexivity.
  intros s1 s2 s3 H1 H2. congruence.
Qed.

#[export] Instance logged_frame (P : event -> Prop) :
  Frame (logged P) P (fun _ => True).
Proof.
  split.
  - intros s. exists []. rewrite app_nil_r. split; [reflexivity|constructor].
  - intros s1 s2 s3 (e1 & H1 & F1) (e2 & H2 & F2). exists (e1 ++ e2).
    rewrite H2, H1, app_assoc. split; [reflexivity|].
    apply Forall_app. split; assumption.
  - intros v s. exists []. rewrite app_nil_r. split; [reflexivity|constructor].
  - intros v s. exists []. rewrite app_nil_r. split; [reflexivity|constructor].
  - intros v s. exists []. rewrite app_nil_r. split; [reflexivity|constructor].
  - intros v s. exists []. rewrite app_nil_r. split; [reflexivity|constructor].
  - intros e s He. exists [e]. split; [reflexivity|]. constructor; [exact He|constructor].
  - intros m s _. exists []. rewrite app_nil_r. split; [reflexivity|constructor].
Qed.

#[export] Instance only_file_frame (path : string) :
  Frame (only_file path) (fun _ => True) (fun q => q = path).
Proof.
  split; unfold only_file; try reflexivity.
  - intros s1 s2 s3 H1 H2 q Hq. rewrite H2, H1 by assumption. reflexivity.
  - intros m s H q Hq. cbn [files set_files]. apply H. exact Hq.
Qed.

Lemma logged_events_since (P : event -> Prop) (st st' : State) :
  logged P st st' -> Forall P (events_since st st').
Proof.
  intros (evs & E & F). unfold events_since. rewrite E, drop_app_length.
  exact F.
Qed.

(** ** Commands that return *)

Lemma returns_ret {A} (a : A) : returns (ret a).
Proof. intros st. eexists _, _. reflexivity. Qed.

Lemma returns_raise {A} (e : Py.exn) : returns (@raise A e).
Proof. intros st. eexists _, _. reflexivity. Qed.

Lemma returns_lift {A} (o : Py.outcome A) : returns (lift o).
Proof. intros st. eexists _, _. reflexivity. Qed.

Lemma returns_get {A} (f : State -> A) : returns (get f).
Proof. intros st. eexists _, _. reflexivity. Qed.

Lemma returns_modify (f : State -> State) : returns (modify f).
Proof. intros st. eexists _, _. reflexivity. Qed.

Lemma returns_bind {A B} (c : M A) (k : A -> M B) :
  returns c -> (forall a, returns (k a)) -> returns (bind c k).
Proof.
  intros Hc Hk st. unfold bind.
  destruct (Hc st) as ([a|e] & s1 & ->); [apply Hk|eexists _, _; reflexivity].
Qed.

Lemma returns_try_except {A} (c : M A) (h : Py.exn -> M A) :
  returns c -> (forall e, returns (h e)) -> returns (try_except c h).
Proof.
  intros Hc Hh st. unfold try_except.
  destruct (Hc st) as ([a|e] & s1 & ->); [eexists _, _; reflexivity|apply Hh].
Qed.

Section Exporting.

Variable env : Env.

Lemma returns_apply_background_removal (img : PIL.Image) :
  returns (apply_background_removal env img).
Proof.
  intros st. destruct (apply_background_removal_total env img st) as (r & s & E & _).
  eauto.
Qed.

Lemma returns_resize (img : PIL.Image) (sz : Z * Z) : returns (resize env img sz).
Proof.
  unfold resize. apply returns_bind; [apply returns_modify|intros _].
  apply returns_bind; [apply returns_lift|intros px]. apply returns_ret.
Qed.

Lemma returns_save_to_path (img : PIL.Image) (path : string) (f : format)
    (p : PIL.save_params) :
  returns (save_to_path env img path f p).
Proof.
  unfold save_to_path. destruct (can_write env path); [|apply returns_raise].
  apply returns_bind; [apply returns_modify|intros _].
  apply returns_bind; [apply returns_modify|intros _].
  intros st. destruct (run_encoder env f img p); eexists _, _; reflexivity.
Qed.

Lemma returns_write_text (path text : string) : returns (write_text env path text).
Proof.
  unfold write_text. destruct (can_write env path); [|apply returns_raise].
  apply returns_bind; [apply returns_modify|intros _]. apply returns_modify.
Qed.

Lemma returns_save_as_svg_direct (img : PIL.Image) (path : string) (q : Z) :
  returns (save_as_svg_direct env img path q).
Proof.
  unfold save_as_svg_direct, save_to_buffer.
  apply returns_try_except; [|intros e; apply returns_raise].
  apply returns_bind.
  - apply returns_bind; [apply returns_modify|intros _]. apply returns_lift.
  - intros png. destruct (PIL.size img). apply returns_write_text.
Qed.

Lemma returns_flatten_for_jpeg (img : PIL.Image) : returns (flatten_for_jpeg img).
Proof.
  unfold flatten_for_jpeg. destruct (String.eqb _ _); [|apply returns_ret].
  apply returns_bind; [apply returns_lift|intros c]. apply returns_ret.
Qed.

Lemma returns_encode_and_write (f : format) (path : string) (img : PIL.Image) :
  returns (encode_and_write env f path img).
Proof.
  destruct f; unfold encode_and_write;
    try apply returns_save_to_path.
  - apply returns_bind; [apply returns_flatten_for_jpeg|intros flat].
    apply returns_bind; [apply returns_get|intros q]. apply returns_save_to_path.
  - apply returns_bind; [apply returns_get|intros sizes]. apply returns_save_to_path.
  - apply returns_bind; [apply returns_get|intros q].
    apply returns_save_as_svg_direct.
Qed.

Lemma returns_save_image_body (cur : PIL.Image) (f : format) (path : string) :
  returns (save_image_body env cur f path).
Proof.
  unfold save_image_body.
  apply returns_bind; [apply returns_modify|intros _].
  apply returns_bind; [apply returns_get|intros new_size].
  apply returns_bind; [apply returns_resize|intros img].
  apply returns_bind; [apply returns_modify|intros _].
  apply returns_bind; [apply returns_get|intros checked].
  apply returns_bind; [apply returns_get|intros available].
  apply returns_bind.
  { destruct (checked && available && negb (format_eqb f SVG));
      [apply returns_apply_background_removal|apply returns_ret]. }
  intros img'.
  apply returns_bind; [apply returns_modify|intros _].
  apply returns_bind; [apply returns_encode_and_write|intros _].
  apply returns_bind; [apply returns_modify|intros _].
  apply returns_modify.
Qed.

(** [save_image] returns from every state, and returns normally. *)
Lemma save_image_total (st : State) :
  exists st', save_image env st = Some (Py.Ok tt, st').
Proof.
  assert (H : exists r st', save_image env st = Some (r, st')).
  { destruct (current_image st) as [cur|] eqn:Hc.
    2:{ unfold save_image. rewrite Hc. eexists _, _. reflexivity. }
    destruct (String.eqb_spec (save_dialog_path env) EmptyString) as [E|Hp].
    { rewrite (save_image_cancelled env st cur Hc E). eauto. }
    rewrite (save_image_unfold env st cur Hc Hp).
    apply returns_try_except; [apply returns_save_image_body|].
    intros e. unfold on_save_error.
    apply returns_bind; [apply returns_modify|intros _]. apply returns_modify. }
  destruct H as (r & st' & E). exists st'.
  rewrite E, (save_image_returns_ok env st r st' E). reflexivity.
Qed.

(** *** What an export may do *)

Lemma flatten_not_rgba (img flat : PIL.Image) (st st' : State) :
  flatten_for_jpeg img st = Some (Py.Ok flat, st') ->
  String.eqb (PIL.mode flat) "RGBA" = false.
Proof.
  unfold flatten_for_jpeg. destruct (String.eqb (PIL.mode img) "RGBA") eqn:Hm.
  - destruct (PIL.alpha_composite _ img) as [c|e]; run.
    + unfold ret. intros [= <- <-]. reflexivity.
    + discriminate.
  - unfold ret. intros [= <- <-]. exact Hm.
Qed.

Context {R : State -> State -> Prop} {ok_event : event -> Prop}
  {ok_path : string -> Prop} `{!Frame R ok_event ok_path}.

Lemma preserves_encode_and_write (f : format) (path : string) (img : PIL.Image) :
  (forall e, export_event f path e = true -> ok_event e) -> ok_path path ->
  preserves R (encode_and_write env f path img).
Proof.
  intros Hev Hp.
  assert (Hopen : ok_event (EvOpen path)).
  { apply Hev. cbn. apply String.eqb_refl. }
  destruct f; unfold encode_and_write;
    try (apply preserves_save_to_path; try assumption; apply Hev; reflexivity).
  - (* JPEG *)
    intros st r st'. unfold bind at 1.
    destruct (flatten_for_jpeg img st) as [[[flat|e] s]|] eqn:E; try discriminate.
    + pose proof (flatten_not_rgba _ _ _ _ E) as Hm.
      rewrite (flatten_for_jpeg_state _ _ _ _ E). clear E. revert st r st'.
      apply preserves_bind; [apply preserves_get|intros q].
      apply preserves_save_to_path; try assumption.
      apply Hev. cbn. rewrite Hm. reflexivity.
    + intros [= <- <-]. rewrite (flatten_for_jpeg_state _ _ _ _ E).
      apply frame_refl.
  - (* ICO *)
    apply preserves_bind; [apply preserves_get|intros sizes].
    apply preserves_save_to_path; try assumption. apply Hev. reflexivity.
  - (* SVG *)
    apply preserves_bind; [apply preserves_get|intros q].
    apply preserves_save_as_svg_direct; try assumption. apply Hev. reflexivity.
Qed.

Lemma preserves_save_image_body (cur : PIL.Image) (f : format) (path : string) :
  (forall e, export_event f path e = true -> ok_event e) -> ok_path path ->
  preserves R (save_image_body env cur f path).
Proof.
  intros Hev Hp. unfold save_image_body.
  apply preserves_bind; [apply preserves_progress|intros _].
  apply preserves_bind; [apply preserves_get|intros new_size].
  apply preserves_bind; [apply preserves_resize, Hev; reflexivity|intros img].
  apply preserves_bind; [apply preserves_progress|intros _].
  apply preserves_bind; [apply preserves_get|intros checked].
  apply preserves_bind; [apply preserves_get|intros available].
  apply preserves_bind.
  { destruct (checked && available && negb (format_eqb f SVG));
      [|apply preserves_ret].
    apply preserves_apply_background_removal.
    - intros k t. apply Hev. reflexivity.
    - apply Hev. reflexivity. }
  intros img'.
  apply preserves_bind; [apply preserves_progress|intros _].
  apply preserves_bind; [apply preserves_encode_and_write; assumption|intros _].
  apply preserves_bind; [apply preserves_progress|intros _].
  apply preserves_show_message, Hev. reflexivity.
Qed.

(** From the question on, an export stays within the frame. *)
Lemma preserves_export (st : State) (cur : PIL.Image) r st' :
  (forall e, export_event (effective_format env st) (destination env st) e = true ->
             ok_event e) ->
  ok_path (destination env st) ->
  current_image st = Some cur ->
  save_image env st = Some (r, st') ->
  R (after_question env st) st'.
Proof.
  intros Hev Hp Hc.
  destruct (String.eqb_spec (save_dialog_path env) EmptyString) as [E|Hne].
  { rewrite (save_image_cancelled env st cur Hc E). intros [= <- <-].
    apply frame_refl. }
  rewrite (save_image_unfold env st cur Hc Hne).
  apply preserves_try_except.
  - apply preserves_save_image_body; assumption.
  - intros e. unfold on_save_error.
    apply preserves_bind; [apply preserves_progress|intros _].
    apply preserves_show_message, Hev. reflexivity.
Qed.

End Exporting.

(** ** Strings of paths *)

Lemma length_lower (s : string) : String.length (Str.lower s) = String.length s.
Proof. induction s as [|c s IH]; cbn [Str.lower String.length]; congruence. Qed.

Lemma lower_app (s t : string) :
  Str.lower (s ++ t) = (Str.lower s ++ Str.lower t)%string.
Proof.
  induction s as [|c s IH]; cbn [Str.lower String.append]; [reflexivity|].
  rewrite IH. reflexivity.
Qed.

Lemma length_app (s t : string) :
  String.length (s ++ t) = (String.length s + String.length t)%nat.
Proof.
  induction s as [|c s IH]; cbn [String.append String.length]; [reflexivity|].
  rewrite IH. reflexivity.
Qed.

Lemma substring_all (t : string) : String.substring 0 (String.length t) t = t.
Proof.
  induction t as [|c t IH]; cbn [String.substring String.length]; [reflexivity|].
  rewrite IH. reflexivity.
Qed.

Lemma substring_app_suffix (s t : string) :
  String.substring (String.length s) (String.length t) (s ++ t) = t.
Proof.
  induction s as [|c s IH]; cbn [String.append String.length String.substring].
  - apply substring_all.
  - exact IH.
Qed.

Lemma endswith_app (s t : string) : Str.endswith (s ++ t) t = true.
Proof.
  unfold Str.endswith. rewrite length_app.
  replace (String.length s + String.length t - String.length t)%nat
    with (String.length s) by lia.
  rewrite substring_app_suffix, String.eqb_refl.
  rewrite andb_true_r. apply Nat.leb_le. lia.
Qed.

Lemma startswith_app (p e : string) : Str.startswith p (p ++ e) = true.
Proof.
  induction p as [|c p IH]; cbn [Str.startswith String.append]; [reflexivity|].
  rewrite Ascii.eqb_refl, IH. reflexivity.
Qed.

Lemma startswith_refl (p : string) : Str.startswith p p = true.
Proof.
  induction p as [|c p IH]; cbn [Str.startswith]; [reflexivity|].
  rewrite Ascii.eqb_refl, IH. reflexivity.
Qed.

(** The path [save_image] writes ends with the extension of the format,
    whatever the case of its letters. *)
Lemma with_extension_endswith (p e : string) :
  Str.endswith (Str.lower (with_extension p e)) (Str.lower e) = true.
Proof.
  unfold with_extension.
  destruct (Str.endswith (Str.lower p) (Str.lower e)) eqn:E; [exact E|].
  rewrite lower_app. apply endswith_app.
Qed.

(** X1.  [with_extension], the three lines of [save_image] that complete the
    chosen path.  The result ends with the extension, letter case apart;
    it is the chosen path, or the chosen path with the extension added; the
    chosen path is its beginning; and a path so completed is not changed
    when completed again. *)
Theorem with_extension_completes_path (p e : string) :
  Str.endswith (Str.lower (with_extension p e)) (Str.lower e) = true
  /\ (with_extension p e = p \/ with_extension p e = (p ++ e)%string)
  /\ Str.startswith p (with_extension p e) = true
  /\ with_extension (with_extension p e) e = with_extension p e.
Proof.
  split; [apply with_extension_endswith|].
  split; [unfold with_extension; destruct (Str.endswith _ _); auto|].
  split.
  - unfold with_extension. destruct (Str.endswith _ _);
      [apply startswith_refl|apply startswith_app].
  - pose proof (with_extension_endswith p e) as H.
    unfold with_extension at 1. rewrite H. reflexivity.
Qed.

(** ** Exports as a whole *)

Section ExportTheorems.

Variable env : Env.

Lemma after_question_settings (st : State) :
  format_eqb (format_combo st) JPEG && Qt.isChecked (remove_bg_check st)
  && negb (jpeg_warning_yes env) = false ->
  same_settings st (after_question env st).
Proof.
  unfold after_question, same_settings.
  destruct (format_eqb (format_combo st) JPEG && Qt.isChecked (remove_bg_check st));
    [|reflexivity].
  destruct (jpeg_warning_yes env); [reflexivity|discriminate].
Qed.

Lemma after_question_logged (P : event -> Prop) (st : State) :
  (forall k t, P (EvMessage k t)) -> logged P st (after_question env st).
Proof.
  intros HP. unfold after_question, logged.
  destruct (format_eqb (format_combo st) JPEG && Qt.isChecked (remove_bg_check st)).
  2:{ exists []. rewrite app_nil_r. split; [reflexivity|constructor]. }
  exists [EvMessage Question "JPEG"]. split; [|constructor; [apply HP|constructor]].
  destruct (jpeg_warning_yes env); [reflexivity|].
  unfold setCurrentText, format_changed. state_simpl.
  destruct (format_eqb (format_combo st) PNG); reflexivity.
Qed.

Lemma export_settings (st : State) (cur : PIL.Image) r st' :
  current_image st = Some cur ->
  save_image env st = Some (r, st') ->
  same_settings (after_question env st) st'.
Proof.
  intros Hc E. eapply (@preserves_export env same_settings (fun _ => True) (fun _ => True) _);
    eauto.
Qed.

Lemma export_events (st : State) (cur : PIL.Image) r st' :
  current_image st = Some cur ->
  save_image env st = Some (r, st') ->
  Forall (fun e => export_event (effective_format env st)
                     (destination env st) e = true)
    (events_since st st').
Proof.
  intros Hc E.
  set (P := fun e => export_event (effective_format env st) (destination env st) e
                     = true).
  apply logged_events_since.
  eapply (@frame_trans (logged P) P (fun _ => True) _).
  - apply after_question_logged. intros k t. reflexivity.
  - eapply (@preserves_export env (logged P) P (fun _ => True) _); eauto.
Qed.

(** X2.  An export changes nothing the user has set in the window, apart
    from what the JPEG question does: from the state after the question to
    the state [save_image] returns in, the image, the original size, both
    dimension boxes, the lock, the format, the removal box, the icon sizes
    and the quality sliders are the same; and unless the question was asked
    and answered No, they are the same as before the call. *)
Theorem export_keeps_settings (st : State) (cur : PIL.Image) :
  current_image st = Some cur ->
  exists st',
    save_image env st = Some (Py.Ok tt, st')
    /\ same_settings (after_question env st) st'
    /\ (format_eqb (format_combo st) JPEG && Qt.isChecked (remove_bg_check st)
        && negb (jpeg_warning_yes env) = false ->
        same_settings st st').
Proof.
  intros Hc. destruct (save_image_total env st) as [st' E]. exists st'.
  split; [exact E|].
  pose proof (export_settings st cur _ _ Hc E) as H.
  split; [exact H|]. intros Hq.
  pose proof (after_question_settings st Hq) as H0.
  unfold same_settings in *. congruence.
Qed.

(** X3.  The events of an export.  Between the call of [save_image] and its
    return the program resizes, may run one removal job, shows messages,
    opens no path but the destination, displays nothing, and runs no
    encoder but that of the format the export runs with (PNG for an SVG
    document).  The JPEG encoder is never handed an RGBA image. *)
Theorem export_events_follow_format (st : State) (cur : PIL.Image) :
  current_image st = Some cur ->
  exists st',
    save_image env st = Some (Py.Ok tt, st')
    /\ Forall (fun e => export_event (effective_format env st)
                          (destination env st) e = true)
         (events_since st st')
    /\ forall img p,
        EvEncode JPEG img p ∈ events_since st st' -> PIL.mode img <> "RGBA".
Proof.
  intros Hc. destruct (save_image_total env st) as [st' E]. exists st'.
  split; [exact E|].
  pose proof (export_events st cur _ _ Hc E) as H.
  split; [exact H|]. intros img p Hin Hm.
  rewrite Forall_forall in H. specialize (H _ Hin). cbn in H.
  destruct (format_eqb (effective_format env st) SVG); [discriminate|].
  destruct (effective_format env st); try discriminate.
  cbn in H. rewrite Hm in H. discriminate.
Qed.

Lemma save_to_path_ok img path f p (st st' : State) :
  save_to_path env img path f p st = Some (Py.Ok tt, st') ->
  is_Some (files st' !! path).
Proof.
  unfold save_to_path. destruct (can_write env path); run.
  - destruct (run_encoder env f img p) as [data|e]; intros [= <-]. state_simpl.
    rewrite lookup_insert_eq. eauto.
  - unfold raise. discriminate.
Qed.

Lemma encode_and_write_ok f path img (st st' : State) :
  encode_and_write env f path img st = Some (Py.Ok tt, st') ->
  is_Some (files st' !! path).
Proof.
  destruct f; unfold encode_and_write; run; try apply save_to_path_ok.
  - unfold bind at 1.
    destruct (flatten_for_jpeg img st) as [[[flat|e] s]|]; try discriminate.
    run. apply save_to_path_ok.
  - pose proof (save_as_svg_direct_cases env img path
                  (Qt.value (svg_quality_slider st)) st) as H.
    destruct (encode env PNG img _) as [png|e].
    + destruct (can_write env path).
      * destruct H as (s & -> & Hf). intros [= <-]. rewrite Hf, lookup_insert_eq.
        eauto.
      * destruct H as (e & s & -> & _). discriminate.
    + destruct H as (s & -> & _). discriminate.
Qed.

Lemma save_image_body_ok cur f path (st st' : State) :
  save_image_body env cur f path st = Some (Py.Ok tt, st') ->
  progress_bar st' = 100
  /\ last (log st') = Some (EvMessage Information "Success")
  /\ is_Some (files st' !! path).
Proof.
  pose proof (save_image_body_stages env cur f path st) as H.
  destruct (resample env cur (dimensions st)) as [px|e].
  2:{ destruct H as (s & -> & _). discriminate. }
  destruct H as (img & s & -> & _). unfold finish_export. run.
  unfold bind at 1.
  destruct (encode_and_write env f path img _) as [[[[]|e] s2]|] eqn:E;
    try discriminate.
  run. unfold modify. intros [= <-]. state_simpl.
  split; [reflexivity|]. split; [apply last_snoc|].
  eapply encode_and_write_ok, E.
Qed.

(** X4.  What [save_image] reports is what happened.  With an image and a
    path, the call returns normally in one of two ways: the progress bar
    at 100, the Success message the last thing shown, and a file at the
    destination; or the progress bar at 0 and the Error message the last
    thing shown. *)
Theorem export_reports_outcome (st : State) (cur : PIL.Image) :
  current_image st = Some cur ->
  save_dialog_path env <> EmptyString ->
  exists st',
    save_image env st = Some (Py.Ok tt, st')
    /\ ((progress_bar st' = 100
         /\ last (log st') = Some (EvMessage Information "Success")
         /\ is_Some (files st' !! destination env st))
        \/ (progress_bar st' = 0
            /\ last (log st') = Some (EvMessage Critical "Error"))).
Proof.
  intros Hc Hp. rewrite (save_image_unfold env st cur Hc Hp). unfold try_except.
  destruct (returns_save_image_body env cur (effective_format env st)
              (destination env st) (after_question env st))
    as ([[]|e] & s & E); rewrite E.
  - exists s. split; [reflexivity|]. left.
    eapply save_image_body_ok, E.
  - unfold on_save_error. run. eexists. split; [reflexivity|]. right.
    state_simpl. split; [reflexivity|apply last_snoc].
Qed.

(** X5.  The JPEG question answered No.  The export runs as a PNG export:
    the combo box is left on PNG (also when the save dialog is then
    cancelled), the removal box stays ticked, the destination ends in
    [.png], and the JPEG encoder is not run. *)
Theorem declined_jpeg_exports_png (st : State) (cur : PIL.Image) :
  current_image st = Some cur ->
  format_combo st = JPEG ->
  Qt.isChecked (remove_bg_check st) = true ->
  jpeg_warning_yes env = false ->
  exists st',
    save_image env st = Some (Py.Ok tt, st')
    /\ format_combo st' = PNG
    /\ remove_bg_check st'
       = {| Qt.isChecked := true; Qt.isEnabled := REMBG_AVAILABLE st |}
    /\ Str.endswith (Str.lower (destination env st)) ".png" = true
    /\ forall img p, EvEncode JPEG img p ∉ events_since st st'.
Proof.
  intros Hc Hf Hk Hno.
  destruct (save_image_total env st) as [st' E].
  pose proof (export_settings st cur _ _ Hc E) as Hs.
  exists st'. split; [exact E|].
  assert (Ha : after_question env st
               = format_changed PNG
                   (set_format_combo PNG
                      (record_event (EvMessage Question "JPEG") st))).
  { unfold after_question, setCurrentText. rewrite Hf, Hk, Hno. state_simpl.
    rewrite Hf. reflexivity. }
  assert (Hfmt : effective_format env st = PNG).
  { unfold effective_format. rewrite Hf, Hk, Hno. reflexivity. }
  unfold same_settings, settings in Hs. rewrite Ha in Hs.
  unfold format_changed in Hs. cbn [format_eqb] in Hs. state_simpl.
  injection Hs as _ _ _ _ _ _ Hfc Hrb _ _ _.
  split; [exact Hfc|]. split.
  { rewrite Hrb. unfold Qt.setEnabled. cbn. rewrite Hk. reflexivity. }
  split.
  { unfold destination. rewrite Hfmt. apply (with_extension_endswith _ ".png"). }
  intros img p Hin.
  pose proof (export_events st cur _ _ Hc E) as Hev.
  rewrite Forall_forall in Hev. specialize (Hev _ Hin).
  rewrite Hfmt in Hev. discriminate.
Qed.

End ExportTheorems.

(** ** The removal thread and its caller *)

Section Removal.

Variable env : Env.

(** X6.  The signals of [BackgroundRemovalThread.run].  Every run ends with
    exactly one terminal signal, [finished] or [error], and nothing after
    it; before it come progress values only, the first [k] of 10, 30, 50,
    80, 100.  Without the capability the run is the one error signal with
    the fixed text; a run that ends with [finished] has sent all five
    progress values. *)
Theorem run_signal_protocol (available : bool) (img : PIL.Image) :
  exists pre last,
    BackgroundRemovalThread_run env available img = pre ++ [last]
    /\ is_terminal last = true
    /\ forallb (fun s => negb (is_terminal s)) pre = true
    /\ (exists k, omap progress_value pre = take k [10; 30; 50; 80; 100])
    /\ (available = false ->
        pre = [] /\ last = error "rembg library not available")
    /\ (forall out, last = finished out ->
                    omap progress_value pre = [10; 30; 50; 80; 100]).
Proof.
  unfold BackgroundRemovalThread_run.
  destruct available; cbn [negb].
  2:{ exists [], (error "rembg library not available").
      repeat split; try discriminate. exists 0%nat. reflexivity. }
  destruct (np_array env img) as [arr|e].
  2:{ exists [progress 10], (error (str_exn env e)).
      repeat split; try discriminate. exists 1%nat. reflexivity. }
  destruct (new_session env) as [[]|e].
  2:{ exists [progress 10; progress 30], (error (str_exn env e)).
      repeat split; try discriminate. exists 2%nat. reflexivity. }
  destruct (remove env arr) as [out|e].
  2:{ exists [progress 10; progress 30; progress 50], (error (str_exn env e)).
      repeat split; try discriminate. exists 3%nat. reflexivity. }
  destruct (fromarray env out) as [res|e].
  2:{ exists [progress 10; progress 30; progress 50; progress 80],
        (error (str_exn env e)).
      repeat split; try discriminate. exists 4%nat. reflexivity. }
  exists [progress 10; progress 30; progress 50; progress 80; progress 100],
    (finished res).
  repeat split; try discriminate. exists 5%nat. reflexivity.
Qed.

(** X7.  When a run finishes.  The thread sends [finished out] exactly when
    the four library calls succeed one after the other, and [out] is then
    the image the last of them returns. *)
Theorem run_finishes_iff_stages_succeed (img out : PIL.Image) :
  finished out ∈ BackgroundRemovalThread_run env true img
  <-> exists arr res,
        np_array env img = Py.Ok arr
        /\ (exists u, new_session env = Py.Ok u)
        /\ remove env arr = Py.Ok res
        /\ fromarray env res = Py.Ok out.
Proof.
  unfold BackgroundRemovalThread_run. cbn [negb].
  rewrite list_elem_of_In.
  destruct (np_array env img) as [arr|e] eqn:E1.
  2:{ split; [cbn; intuition discriminate|intros (a & r & H & _); discriminate]. }
  destruct (new_session env) as [u|e] eqn:E2.
  2:{ split; [cbn; intuition discriminate|].
      intros (a & r & _ & [u H] & _); discriminate. }
  destruct (remove env arr) as [res|e] eqn:E3.
  2:{ split; [cbn; intuition discriminate|].
      intros (a & r & Ha & _ & H & _). injection Ha as <-. congruence. }
  destruct (fromarray env res) as [o|e] eqn:E4.
  2:{ split; [cbn; intuition discriminate|].
      intros (a & r & Ha & _ & Hr & H). injection Ha as <-.
      rewrite E3 in Hr. injection Hr as <-. congruence. }
  split.
  - cbn. intros H.
    assert (o = out) as -> by (intuition congruence).
    exists arr, res. eauto.
  - intros (a & r & Ha & _ & Hr & H). injection Ha as <-.
    rewrite E3 in Hr. injection Hr as <-. rewrite E4 in H. injection H as <-.
    cbn. auto 10.
Qed.

(** X8.  [apply_background_removal] always comes back.  From every state
    and for every image the call returns, and returns normally: no
    exception leaves it and the modal dialog always ends.  It writes no
    file and changes nothing the user has set.  What it returns is the
    image it was given, or the image a [finished] signal of its run
    carried, or an image left in [processed_image] by an earlier run. *)
Theorem background_removal_always_returns (img : PIL.Image) (st : State) :
  exists r st',
    apply_background_removal env img st = Some (Py.Ok r, st')
    /\ files st' = files st
    /\ same_settings st st'
    /\ (r = img
        \/ processed_image st = Some r
        \/ finished r ∈ BackgroundRemovalThread_run env true img).
Proof.
  assert (Hframe : forall r st',
             apply_background_removal env img st = Some (r, st') ->
             same_settings st st').
  { intros r st'.
    apply (@preserves_apply_background_removal same_settings (fun _ => True)
             (fun _ => True) _ env img); auto. }
  destruct (REMBG_AVAILABLE st) eqn:Ha.
  2:{ destruct (apply_background_removal_skipped env img st) as (s & E & Hf & _);
        [auto|]. exists img, s. eauto 6. }
  destruct (Qt.isChecked (remove_bg_check st)) eqn:Hc.
  2:{ destruct (apply_background_removal_skipped env img st) as (s & E & Hf & _);
        [auto|]. exists img, s. eauto 6. }
  destruct (import_rembg env) as [[]|e] eqn:Hi.
  2:{ destruct (apply_background_removal_skipped env img st) as (s & E & Hf & _);
        [eauto|]. exists img, s. eauto 6. }
  destruct (apply_background_removal_runs env img st Ha Hc Hi)
    as (pre & last & s & Hrun & _ & E & Hf & _).
  exists (job_result img st last), s.
  split; [exact E|]. split; [exact Hf|]. split; [eapply Hframe, E|].
  destruct last as [v|out|msg]; cbn [job_result].
  - destruct (processed_image st); auto.
  - right. right. rewrite Hrun, elem_of_app, list_elem_of_singleton. auto.
  - destruct (processed_image st); auto.
Qed.

End Removal.

(** ** Flattening for JPEG, pixel by pixel *)

Lemma forall_byte (P : Z -> bool) :
  forallb P byte_range = true -> forall c, is_byte c -> P c = true.
Proof.
  intros H c Hc. rewrite forallb_forall in H. apply H, byte_in_range, Hc.
Qed.

Lemma band_over_white_opaque (c : Z) : is_byte c -> band_over_white c 255 = c.
Proof.
  intros Hc. apply Z.eqb_eq. revert c Hc.
  apply (forall_byte (fun c => band_over_white c 255 =? c)).
  vm_compute. reflexivity.
Qed.

Lemma composite_opaque (r g b : Z) :
  is_byte r -> is_byte g -> is_byte b ->
  PIL.composite_pixel PIL.white (r, g, b, 255) = (r, g, b, 255).
Proof.
  intros Hr Hg Hb. rewrite composite_over_white.
  rewrite !band_over_white_opaque by assumption. reflexivity.
Qed.

Lemma lookup_flattened (px : list PIL.pixel) (i : nat) (p : PIL.pixel) :
  px !! i = Some p ->
  map (fun '(r, g, b, _) => (r, g, b, 255))
    (zip_with PIL.composite_pixel (replicate (length px) PIL.white) px) !! i
  = Some (let '(r, g, b, _) := PIL.composite_pixel PIL.white p in (r, g, b, 255)).
Proof.
  revert i. induction px as [|q px IH]; intros [|i] Hi; try discriminate.
  - injection Hi as ->. reflexivity.
  - cbn [length replicate zip_with map]. apply IH. exact Hi.
Qed.

(** X9.  Flattening leaves opaque pixels alone.  In the JPEG branch an RGBA
    image comes out of the compositing with as many pixels as it had;
    every pixel of alpha 255 keeps its three colour bands exactly, and
    every pixel of alpha 0 becomes white. *)
Theorem flatten_keeps_opaque_pixels (img : PIL.Image) (st : State) :
  PIL.mode img = "RGBA" ->
  length (PIL.pixels img) = Z.to_nat (fst (PIL.size img) * snd (PIL.size img)) ->
  Forall pixel_ok (PIL.pixels img) ->
  exists flat,
    flatten_for_jpeg img st = Some (Py.Ok flat, st)
    /\ length (PIL.pixels flat) = length (PIL.pixels img)
    /\ forall (i : nat) r g b a,
        PIL.pixels img !! i = Some (r, g, b, a) ->
        (a = 255 -> PIL.pixels flat !! i = Some (r, g, b, 255))
        /\ (a = 0 -> PIL.pixels flat !! i = Some PIL.white).
Proof.
  intros Hm Hlen Hpx.
  eexists. split.
  { unfold flatten_for_jpeg. rewrite Hm. simpl String.eqb. cbv iota.
    unfold PIL.alpha_composite, PIL.new. cbn [PIL.mode PIL.size PIL.pixels].
    rewrite Hm. simpl String.eqb. rewrite !Z.eqb_refl. simpl. run.
    rewrite <- Hlen. reflexivity. }
  cbn [PIL.convert_RGB PIL.pixels].
  split.
  { rewrite length_map, length_zip_with, length_replicate. lia. }
  intros i r g b a Hi.
  assert (Hok : pixel_ok (r, g, b, a)).
  { rewrite Forall_forall in Hpx. apply Hpx. eapply list_elem_of_lookup_2, Hi. }
  destruct Hok as (Hr & Hg & Hb & Ha).
  pose proof (lookup_flattened _ _ _ Hi) as Hl.
  split; intros ->.
  - rewrite composite_opaque in Hl by assumption. exact Hl.
  - exact Hl.
Qed.

Lemma flatten_keeps_opaque_pixels_witness :
  exists flat,
    flatten_for_jpeg (Demo.rgba [(200, 100, 50, 255); (1, 2, 3, 0)] 2 1)
      (Demo.loaded JPEG false)
    = Some (Py.Ok flat, Demo.loaded JPEG false)
    /\ length (PIL.pixels flat) = 2%nat
    /\ forall (i : nat) r g b a,
        [(200, 100, 50, 255); (1, 2, 3, 0)] !! i = Some (r, g, b, a) ->
        (a = 255 -> PIL.pixels flat !! i = Some (r, g, b, 255))
        /\ (a = 0 -> PIL.pixels flat !! i = Some PIL.white).
Proof.
  refine (flatten_keeps_opaque_pixels
            (Demo.rgba [(200, 100, 50, 255); (1, 2, 3, 0)] 2 1)
            (Demo.loaded JPEG false) eq_refl eq_refl _).
  repeat constructor; cbn; unfold is_byte; lia.
Defined.

(** ** The handlers of the window *)

#[export] Instance same_choice_frame :
  Frame same_choice (fun _ => True) (fun _ => True).
Proof.
  split; unfold same_choice; try (intros; split; reflexivity).
  - intros s1 s2 s3 [H1 H1'] [H2 H2']. split; congruence.
Qed.

Lemma truncated_self (d n t : Z) :
  0 < d -> truncated (d * n) d t -> n - 1 <= t <= n.
Proof. unfold truncated. intros Hd [H1 H2]. nia. Qed.

Section Window.

Variable env : Env.

(** *** Preview *)

Lemma returns_preview_changes : returns (preview_changes env).
Proof.
  intros st. unfold preview_changes.
  destruct (current_image st) as [cur|]; [|eexists _, _; reflexivity].
  revert st. apply returns_try_except.
  - apply returns_bind; [apply returns_modify|intros _].
    apply returns_bind; [apply returns_get|intros new_size].
    apply returns_bind; [apply returns_resize|intros img].
    apply returns_bind; [apply returns_modify|intros _].
    apply returns_bind; [apply returns_get|intros checked].
    apply returns_bind; [apply returns_get|intros available].
    apply returns_bind.
    { destruct (checked && available);
        [apply returns_apply_background_removal|apply returns_ret]. }
    intros img'.
    apply returns_bind; [apply returns_modify|intros _].
    apply returns_bind; [apply returns_save_to_path|intros _].
    apply returns_bind; [apply returns_modify|intros _].
    apply returns_modify.
  - intros e. apply returns_bind; [apply returns_modify|intros _].
    apply returns_modify.
Qed.

Lemma preview_changes_returns_ok (st : State) r st' :
  preview_changes env st = Some (r, st') -> r = Py.Ok tt.
Proof.
  unfold preview_changes.
  destruct (current_image st) as [cur|]; [|intros [= <- <-]; reflexivity].
  unfold try_except.
  match goal with |- context [match ?c st with _ => _ end] =>
    destruct (c st) as [[[[]|e] s]|] end; try discriminate.
  - intros [= <- <-]. reflexivity.
  - run. intros [= <- <-]. reflexivity.
Qed.

Section PreviewFrame.

Context {R : State -> State -> Prop} {ok_event : event -> Prop}
  {ok_path : string -> Prop} `{!Frame R ok_event ok_path}.

Lemma preserves_preview_changes :
  (forall e, preview_event (temp_preview_path env) e = true -> ok_event e) ->
  ok_path (temp_preview_path env) ->
  preserves R (preview_changes env).
Proof.
  intros Hev Hp st r st'. unfold preview_changes.
  destruct (current_image st) as [cur|].
  2:{ apply preserves_show_message, Hev. reflexivity. }
  revert r st'. revert st.
  assert (Hopen : ok_event (EvOpen (temp_preview_path env))).
  { apply Hev. cbn. apply String.eqb_refl. }
  apply preserves_try_except.
  - apply preserves_bind; [apply preserves_progress|intros _].
    apply preserves_bind; [apply preserves_get|intros new_size].
    apply preserves_bind; [apply preserves_resize, Hev; reflexivity|intros img].
    apply preserves_bind; [apply preserves_progress|intros _].
    apply preserves_bind; [apply preserves_get|intros checked].
    apply preserves_bind; [apply preserves_get|intros available].
    apply preserves_bind.
    { destruct (checked && available); [|apply preserves_ret].
      apply preserves_apply_background_removal.
      - intros k t. apply Hev. reflexivity.
      - apply Hev. reflexivity. }
    intros img'.
    apply preserves_bind; [apply preserves_progress|intros _].
    apply preserves_bind.
    { apply preserves_save_to_path; try assumption. apply Hev. reflexivity. }
    intros _.
    apply preserves_bind.
    { unfold display_image. apply preserves_event, Hev. cbn.
      apply String.eqb_refl. }
    intros _. apply preserves_progress.
  - intros e. apply preserves_bind; [apply preserves_progress|intros _].
    apply preserves_show_message, Hev. reflexivity.
Qed.

End PreviewFrame.

(** X10.  A preview.  [preview_changes] returns from every state, and
    returns normally.  It changes no file other than the preview file and
    nothing the user has set; whatever format is selected, the only
    encoder it runs is PNG, and it opens and displays the preview file
    only. *)
Theorem preview_touches_only_preview_file (st : State) :
  exists st',
    preview_changes env st = Some (Py.Ok tt, st')
    /\ only_file (temp_preview_path env) st st'
    /\ same_settings st st'
    /\ Forall (fun e => preview_event (temp_preview_path env) e = true)
         (events_since st st').
Proof.
  destruct (returns_preview_changes st) as (r & st' & E).
  pose proof (preview_changes_returns_ok st r st' E) as ->.
  exists st'. split; [exact E|]. split; [|split].
  - apply (@preserves_preview_changes (only_file (temp_preview_path env))
             (fun _ => True) (fun q => q = temp_preview_path env) _)
      with (r := Py.Ok tt); auto.
  - apply (@preserves_preview_changes same_settings (fun _ => True)
             (fun _ => True) _) with (r := Py.Ok tt); auto.
  - apply logged_events_since.
    apply (@preserves_preview_changes
             (logged (fun e => preview_event (temp_preview_path env) e = true))
             (fun e => preview_event (temp_preview_path env) e = true)
             (fun _ => True) _) with (r := Py.Ok tt); auto.
Qed.

(** *** Nothing to export *)

(** X11.  Nothing to export.  With no image loaded, or with the save dialog
    cancelled, [save_image] returns normally having resized, encoded,
    opened and written nothing: the files, the dimensions and the progress
    bar are as before, and all it has done is show messages. *)
Theorem save_without_image_or_path_does_nothing (st : State) :
  current_image st = None \/ save_dialog_path env = EmptyString ->
  exists st',
    save_image env st = Some (Py.Ok tt, st')
    /\ files st' = files st
    /\ dimensions st' = dimensions st
    /\ progress_bar st' = progress_bar st
    /\ Forall (fun e => exists k t, e = EvMessage k t) (events_since st st').
Proof.
  intros H. destruct (current_image st) as [cur|] eqn:Hc.
  - destruct H as [H|H]; [discriminate|].
    rewrite (save_image_cancelled env st cur Hc H). eexists. split; [reflexivity|].
    destruct (after_question_frame env st) as [Hf Hd].
    split; [exact Hf|]. split; [exact Hd|]. split.
    + unfold after_question, setCurrentText, format_changed.
      destruct (_ && _); [|reflexivity].
      destruct (jpeg_warning_yes env); [reflexivity|]. state_simpl.
      destruct (format_eqb (format_combo st) PNG); reflexivity.
    + apply logged_events_since. apply after_question_logged. eauto.
  - unfold save_image. rewrite Hc. eexists. split; [reflexivity|].
    unfold events_since. state_simpl. rewrite drop_app_length.
    repeat split. repeat constructor. eauto.
Qed.

(** *** The capability looked up again *)

(** X12.  [refresh_rembg_status] and [format_changed].  When SVG is chosen
    the removal box is unticked and disabled; a refresh that finds the
    capability enables the box again although SVG is still selected, and
    leaves the tick as it is.  The refresh shows one message and returns
    the capability. *)
Theorem refresh_enables_box_under_svg (st : State) :
  initialize_rembg env = true ->
  exists st' k,
    refresh_rembg_status env (format_changed SVG (set_format_combo SVG st))
    = Some (Py.Ok true, st')
    /\ format_combo st' = SVG
    /\ remove_bg_check st' = {| Qt.isChecked := false; Qt.isEnabled := true |}
    /\ REMBG_AVAILABLE st' = true
    /\ events_since (format_changed SVG (set_format_combo SVG st)) st'
       = [EvMessage k "rembg Status"].
Proof.
  intros Hi. unfold refresh_rembg_status, format_changed. cbn [format_eqb].
  state_simpl. rewrite Hi. eexists _, _. split; [reflexivity|].
  unfold events_since. state_simpl. rewrite drop_app_length.
  repeat split.
Qed.

(** *** Loading *)

Lemma width_spin_setValue_cases (st : State) (v : Z) :
  1 <= fst (original_size st) <= 9999 ->
  1 <= snd (original_size st) <= 9999 ->
  Qt.minimum (width_spin st) = 1 -> Qt.maximum (width_spin st) = 9999 ->
  1 <= v <= 9999 ->
  width_spin_setValue v st
  = Some (Py.Ok tt, set_width_spin (Qt.setValue v (width_spin st)) st)
  \/ (maintain_ratio st = true
      /\ exists t,
          truncated (v * snd (original_size st)) (fst (original_size st)) t
          /\ width_spin_setValue v st
             = Some (Py.Ok tt,
                     set_height_spin
                       (Qt.blockSignals false (Qt.setValue t (height_spin st)))
                       (set_width_spin (Qt.setValue v (width_spin st)) st))).
Proof.
  intros Hw Hh Hmin Hmax Hv. unfold width_spin_setValue.
  rewrite (int_argument_fits v) by (unfold Qt.INT_MAX; lia). run.
  destruct (_ || _); [left; reflexivity|].
  set (st1 := set_width_spin (Qt.setValue v (width_spin st)) st).
  assert (Hval : Qt.value (width_spin st1) = v).
  { subst st1. cbn. rewrite Hmin, Hmax. lia. }
  destruct (maintain_ratio st) eqn:Hm.
  - right. split; [reflexivity|].
    destruct (update_height_runs st1 Hm) as (t & Ht & Hok & _);
      [subst st1; state_simpl; lia..|].
    rewrite Hval in Ht. exists t. split; [exact Ht|].
    unfold run_slot. rewrite Hok; [reflexivity|].
    subst st1. state_simpl. unfold truncated in Ht. unfold Qt.INT_MAX. nia.
  - left. unfold run_slot, update_height_maintain_ratio.
    subst st1. state_simpl. rewrite Hm. reflexivity.
Qed.

Lemma height_spin_setValue_cases (st : State) (v : Z) :
  1 <= fst (original_size st) <= 9999 ->
  1 <= snd (original_size st) <= 9999 ->
  Qt.minimum (height_spin st) = 1 -> Qt.maximum (height_spin st) = 9999 ->
  1 <= v <= 9999 ->
  height_spin_setValue v st
  = Some (Py.Ok tt, set_height_spin (Qt.setValue v (height_spin st)) st)
  \/ (maintain_ratio st = true
      /\ exists t,
          truncated (v * fst (original_size st)) (snd (original_size st)) t
          /\ height_spin_setValue v st
             = Some (Py.Ok tt,
                     set_width_spin
                       (Qt.blockSignals false (Qt.setValue t (width_spin st)))
                       (set_height_spin (Qt.setValue v (height_spin st)) st))).
Proof.
  intros Hw Hh Hmin Hmax Hv. unfold height_spin_setValue.
  rewrite (int_argument_fits v) by (unfold Qt.INT_MAX; lia). run.
  destruct (_ || _); [left; reflexivity|].
  set (st1 := set_height_spin (Qt.setValue v (height_spin st)) st).
  assert (Hval : Qt.value (height_spin st1) = v).
  { subst st1. cbn. rewrite Hmin, Hmax. lia. }
  destruct (maintain_ratio st) eqn:Hm.
  - right. split; [reflexivity|].
    destruct (update_width_runs st1 Hm) as (t & Ht & Hok & _);
      [subst st1; state_simpl; lia..|].
    rewrite Hval in Ht. exists t. split; [exact Ht|].
    unfold run_slot. rewrite Hok; [reflexivity|].
    subst st1. state_simpl. unfold truncated in Ht. unfold Qt.INT_MAX. nia.
  - left. unfold run_slot, update_width_maintain_ratio.
    subst st1. state_simpl. rewrite Hm. reflexivity.
Qed.

End Window.

Section Loading.

Variable env : Env.

(** X13.  A picture loaded.  When the dialog names a file the imaging library
    opens, with both sides of the picture within the range of the boxes,
    [load_image] returns normally with the picture as the current image and
    its size as the original size.  The height box then holds the height of
    the picture.  The width box holds its width, or one pixel less: setting
    the height box runs the height callback, which recomputes the width in
    floating point and truncates.  With the lock off the width is exact.
    No file is written. *)
Theorem load_image_sets_dimensions (st : State) (img : PIL.Image) :
  open_dialog_path env <> EmptyString ->
  image_open env (open_dialog_path env) = Py.Ok img ->
  1 <= fst (PIL.size img) <= 9999 ->
  1 <= snd (PIL.size img) <= 9999 ->
  Qt.minimum (width_spin st) = 1 -> Qt.maximum (width_spin st) = 9999 ->
  Qt.minimum (height_spin st) = 1 -> Qt.maximum (height_spin st) = 9999 ->
  exists st',
    load_image env st = Some (Py.Ok tt, st')
    /\ current_image st' = Some img
    /\ original_size st' = PIL.size img
    /\ Qt.value (height_spin st') = snd (PIL.size img)
    /\ fst (PIL.size img) - 1 <= Qt.value (width_spin st') <= fst (PIL.size img)
    /\ (maintain_ratio st = false ->
        Qt.value (width_spin st') = fst (PIL.size img))
    /\ files st' = files st.
Proof.
  intros Hp Hopen Hw Hh Hwmin Hwmax Hhmin Hhmax.
  unfold load_image.
  destruct (String.eqb_spec (open_dialog_path env) EmptyString) as [|_];
    [contradiction|].
  unfold try_except. run. rewrite Hopen. run.
  destruct (PIL.size img) as [w h] eqn:Hsz. cbn [fst snd] in *.
  match goal with
  | |- context [bind (width_spin_setValue ?v) _ ?s] =>
      destruct (width_spin_setValue_cases s v) as [E|(Hm & t & Ht & E)];
        state_simpl; cbn [fst snd] in *; try lia; try assumption
  end.
  - (* the width box sent no signal, or the lock is off *)
    unfold bind at 1. rewrite E. clear E. run.
    match goal with
    | |- context [bind (height_spin_setValue ?v) _ ?s] =>
        destruct (height_spin_setValue_cases s v) as [E|(Hm & t & Ht & E)];
          state_simpl; cbn [fst snd] in *; try lia; try assumption
    end.
    + unfold bind at 1. rewrite E. clear E. unfold display_image. run.
      eexists. split; [reflexivity|]. state_simpl.
      cbn [Qt.setValue Qt.blockSignals Qt.value Qt.minimum Qt.maximum].
      rewrite ?Hwmin, ?Hwmax, ?Hhmin, ?Hhmax.
      repeat split; try reflexivity; lia.
    + apply truncated_self in Ht; [|lia].
      unfold bind at 1. rewrite E. clear E. unfold display_image. run.
      eexists. split; [reflexivity|]. state_simpl.
      cbn [Qt.setValue Qt.blockSignals Qt.value Qt.minimum Qt.maximum].
      rewrite ?Hwmin, ?Hwmax, ?Hhmin, ?Hhmax.
      repeat split; try reflexivity; try lia.
      intros Hoff. congruence.
  - (* the width box has run the width callback *)
    cbn [fst snd] in Ht.
    unfold bind at 1. rewrite E. clear E. run.
    match goal with
    | |- context [bind (height_spin_setValue ?v) _ ?s] =>
        destruct (height_spin_setValue_cases s v) as [E|(Hm' & t' & Ht' & E)];
          state_simpl;
          cbn [fst snd Qt.setValue Qt.blockSignals Qt.minimum Qt.maximum] in *;
          try lia; try assumption
    end.
    + unfold bind at 1. rewrite E. clear E. unfold display_image. run.
      eexists. split; [reflexivity|]. state_simpl.
      cbn [Qt.setValue Qt.blockSignals Qt.value Qt.minimum Qt.maximum].
      rewrite ?Hwmin, ?Hwmax, ?Hhmin, ?Hhmax.
      repeat split; try reflexivity; try lia.
    + apply truncated_self in Ht'; [|lia].
      unfold bind at 1. rewrite E. clear E. unfold display_image. run.
      eexists. split; [reflexivity|]. state_simpl.
      cbn [Qt.setValue Qt.blockSignals Qt.value Qt.minimum Qt.maximum].
      rewrite ?Hwmin, ?Hwmax, ?Hhmin, ?Hhmax.
      repeat split; try reflexivity; try lia.
      intros Hoff. congruence.
Qed.

(** X14.  A picture not loaded.  A cancelled dialog leaves the window as it
    is.  A file the imaging library cannot open leaves the current image,
    the original size and both boxes as they are and shows the error, but
    [current_image_path] already names the file that was not loaded. *)
Theorem load_image_failure_keeps_image (st : State) :
  (open_dialog_path env = EmptyString ->
   load_image env st = Some (Py.Ok tt, st))
  /\ (forall e,
        open_dialog_path env <> EmptyString ->
        image_open env (open_dialog_path env) = Py.Raise e ->
        exists st',
          load_image env st = Some (Py.Ok tt, st')
          /\ current_image st' = current_image st
          /\ original_size st' = original_size st
          /\ dimensions st' = dimensions st
          /\ files st' = files st
          /\ current_image_path st' = Some (open_dialog_path env)
          /\ events_since st st' = [EvMessage Critical "Error"]).
Proof.
  split.
  - intros H. unfold load_image. rewrite H. reflexivity.
  - intros e Hp Hopen. unfold load_image.
    destruct (String.eqb_spec (open_dialog_path env) EmptyString) as [|_];
      [contradiction|].
    unfold try_except. run. rewrite Hopen. run.
    eexists. split; [reflexivity|]. unfold events_since. state_simpl.
    rewrite drop_app_length. repeat split.
Qed.

End Loading.

Section Guard.

Variable env : Env.

Lemma svg_guard_same_choice (st st' : State) :
  same_choice st st' -> svg_guard st -> svg_guard st'.
Proof.
  unfold same_choice, svg_guard. intros [Hf Hc] H Hs.
  rewrite Hc. apply H. congruence.
Qed.

Lemma setCurrentText_guard (f : format) (st : State) :
  svg_guard st -> svg_guard (setCurrentText f st).
Proof.
  unfold svg_guard, setCurrentText, format_changed. intros H.
  destruct (format_eqb (format_combo st) f); [exact H|].
  destruct f; cbn [format_eqb]; state_simpl; cbn; try discriminate.
  reflexivity.
Qed.

Lemma update_height_same_choice :
  preserves same_choice update_height_maintain_ratio.
Proof.
  intros st r st'. unfold update_height_maintain_ratio.
  destruct (_ && _); [|intros [= <- <-]; split; reflexivity].
  destruct (scaled_dimension _ _ _); run;
    [destruct (Qt.int_argument _); run|];
    unfold modify; intros [= <- <-]; split; reflexivity.
Qed.

Lemma update_width_same_choice :
  preserves same_choice update_width_maintain_ratio.
Proof.
  intros st r st'. unfold update_width_maintain_ratio.
  destruct (_ && _); [|intros [= <- <-]; split; reflexivity].
  destruct (scaled_dimension _ _ _); run;
    [destruct (Qt.int_argument _); run|];
    unfold modify; intros [= <- <-]; split; reflexivity.
Qed.

Lemma run_slot_same_choice (slot : M unit) :
  preserves same_choice slot -> preserves same_choice (run_slot slot).
Proof.
  intros H st r st'. unfold run_slot.
  destruct (slot st) as [[[[]|e] s]|] eqn:E; try discriminate.
  intros [= <- <-]. eapply H, E.
Qed.

Lemma load_image_same_choice : preserves same_choice (load_image env).
Proof.
  unfold load_image. destruct (String.eqb _ _); [apply preserves_ret|].
  assert (Hset : forall f : State -> State,
             (forall s, format_combo (f s) = format_combo s
                        /\ remove_bg_check (f s) = remove_bg_check s) ->
             preserves same_choice (modify f)).
  { intros f Hf. apply preserves_modify. intros s.
    destruct (Hf s) as [H1 H2]. split; congruence. }
  apply preserves_try_except.
  - apply preserves_bind; [apply Hset; split; reflexivity|intros _].
    apply preserves_bind; [apply preserves_lift|intros img].
    apply preserves_bind; [apply Hset; split; reflexivity|intros _].
    apply preserves_bind; [apply Hset; split; reflexivity|intros _].
    apply preserves_bind; [apply preserves_get|intros w].
    apply preserves_bind.
    { intros st r st'. unfold width_spin_setValue.
      destruct (Qt.int_argument _); run;
        [|intros [= <- <-]; split; reflexivity].
      destruct (_ || _); [intros [= <- <-]; split; reflexivity|].
      intros E. apply (run_slot_same_choice _ update_height_same_choice) in E.
      exact E. }
    intros _.
    apply preserves_bind; [apply preserves_get|intros h].
    apply preserves_bind.
    { intros st r st'. unfold height_spin_setValue.
      destruct (Qt.int_argument _); run;
        [|intros [= <- <-]; split; reflexivity].
      destruct (_ || _); [intros [= <- <-]; split; reflexivity|].
      intros E. apply (run_slot_same_choice _ update_width_same_choice) in E.
      exact E. }
    intros _. apply preserves_event. exact I.
  - intros e. apply preserves_show_message. exact I.
Qed.

Lemma after_question_guard (st : State) :
  svg_guard st -> svg_guard (after_question env st).
Proof.
  intros H. unfold after_question.
  destruct (_ && _); [|exact H].
  destruct (jpeg_warning_yes env); [exact H|].
  apply setCurrentText_guard. exact H.
Qed.

(** X15.  SVG with the removal box ticked does not come from the handlers.
    If the window is not in that state, none of [setCurrentText] (with its
    slot [format_changed]), [save_image], [preview_changes], [load_image],
    [refresh_rembg_status] and [toggle_aspect_ratio] brings it there. *)
Theorem handlers_keep_svg_guard (st : State) :
  svg_guard st ->
  (forall f, svg_guard (setCurrentText f st))
  /\ (forall r st', save_image env st = Some (r, st') -> svg_guard st')
  /\ (forall r st', preview_changes env st = Some (r, st') -> svg_guard st')
  /\ (forall r st', load_image env st = Some (r, st') -> svg_guard st')
  /\ (forall r st', refresh_rembg_status env st = Some (r, st') -> svg_guard st')
  /\ (forall b, svg_guard (toggle_aspect_ratio b st)).
Proof.
  intros H. repeat split.
  - intros f. apply setCurrentText_guard, H.
  - intros r st' E. destruct (current_image st) as [cur|] eqn:Hc.
    + eapply svg_guard_same_choice; [|apply after_question_guard, H].
      eapply (@preserves_export env same_choice (fun _ => True) (fun _ => True) _);
        eauto.
    + unfold save_image in E. rewrite Hc in E. injection E as _ <-. exact H.
  - intros r st' E. eapply svg_guard_same_choice; [|exact H].
    eapply (@preserves_preview_changes env same_choice (fun _ => True)
              (fun _ => True) _); eauto.
  - intros r st' E. eapply svg_guard_same_choice; [|exact H].
    eapply load_image_same_choice, E.
  - intros r st'. unfold refresh_rembg_status. intros [= _ <-]. exact H.
  - intros b. exact H.
Qed.

End Guard.

(** ** The theorems on a concrete window *)

Lemma svg_export_ignores_removal_flag_witness :
  exists st1 st2 evs,
    save_image Demo.world (Demo.loaded SVG false) = Some (Py.Ok tt, st1)
    /\ save_image Demo.world
         (set_remove_bg_check Demo.ticked (Demo.loaded SVG false))
       = Some (Py.Ok tt, st2)
    /\ files st1 = files st2
    /\ log st1 = log st2
    /\ log st1 = log (Demo.loaded SVG false) ++ evs
    /\ (forall i, EvThreadStart i ∉ evs)
    /\ bg_thread st1 = bg_thread (Demo.loaded SVG false).
Proof.
  exact (proj1 (svg_export_ignores_removal_flag Demo.world
                  (Demo.loaded SVG false) Demo.ticked eq_refl)).
Defined.

(** SVG selected and the box ticked: the export is not rejected.  It
    resizes, encodes and writes the document, and returns normally, with
    no removal job started. *)
Lemma svg_with_removal_flag_is_exported :
  exists st',
    save_image Demo.world (Demo.loaded SVG true) = Some (Py.Ok tt, st')
    /\ files st' !! "out.svg"
       = Some (svg_document 2 1 (Base64.b64encode "RGBA:2x1"))
    /\ EvResize (2, 1) ∈ log st'
    /\ forall i, EvThreadStart i ∉ log st'.
Proof.
  eexists. split; [vm_compute; reflexivity|].
  split; [vm_compute; reflexivity|]. split.
  - apply list_elem_of_In. vm_compute. auto.
  - apply not_thread_start_in. vm_compute. reflexivity.
Qed.

Lemma jpeg_export_flattens_rgba_witness :
  exists flat data st',
    flatten_for_jpeg Demo.dot (Demo.loaded JPEG false)
    = Some (Py.Ok flat, Demo.loaded JPEG false)
    /\ PIL.mode flat = "RGB"
    /\ PIL.size flat = PIL.size Demo.dot
    /\ Forall2 blended_over_white (PIL.pixels Demo.dot) (PIL.pixels flat)
    /\ encode Demo.world JPEG flat
         {| PIL.quality := Some (Qt.value (quality_slider (Demo.loaded JPEG false)));
            PIL.sizes := None |} = Py.Ok data
    /\ encode_and_write Demo.world JPEG "out.jpg" Demo.dot (Demo.loaded JPEG false)
       = Some (Py.Ok tt, st')
    /\ files st' = <["out.jpg" := data]> (files (Demo.loaded JPEG false))
    /\ log st'
       = log (Demo.loaded JPEG false)
         ++ [EvOpen "out.jpg";
             EvEncode JPEG flat
               {| PIL.quality := Some (Qt.value (quality_slider (Demo.loaded JPEG false)));
                  PIL.sizes := None |}].
Proof.
  refine (jpeg_export_flattens_rgba Demo.world Demo.dot "out.jpg"
            (Demo.loaded JPEG false) eq_refl eq_refl _ _ eq_refl).
  - constructor; [|constructor]. cbn. unfold is_byte. lia.
  - intros im p Hm. eexists. cbn. unfold Demo.demo_encode.
    rewrite Hm. reflexivity.
Defined.

Lemma submission_starts_one_job_and_waits_witness :
  exists pre last st',
    BackgroundRemovalThread_run Demo.world true Demo.dot = pre ++ [last]
    /\ is_terminal last = true
    /\ forallb (fun s => negb (is_terminal s)) pre = true
    /\ apply_background_removal Demo.world Demo.dot (Demo.loaded PNG true)
       = Some (Py.Ok (job_result Demo.dot (Demo.loaded PNG true) last), st')
    /\ bg_thread st' = Some {| image := Demo.dot; pending := [] |}
    /\ processing_dialog_open st' = false
    /\ idle st'
    /\ exists msgs,
        log st' = log (Demo.loaded PNG true) ++ EvThreadStart Demo.dot :: msgs
        /\ forall i, EvThreadStart i ∉ msgs.
Proof.
  exact (submission_starts_one_job_and_waits Demo.world Demo.dot
           (Demo.loaded PNG true) (conj eq_refl I) eq_refl eq_refl eq_refl).
Defined.



Lemma svg_document_structure_witness :
  exists st' doc,
    save_as_svg_direct Demo.world Demo.dot "out.svg" 85 (Demo.loaded SVG false)
    = Some (Py.Ok tt, st')
    /\ files st' !! "out.svg" = Some doc
    /\ Str.count "<svg" doc = 1%nat
    /\ Str.count "<image" doc = 1%nat
    /\ Base64.b64decode (Base64.b64encode "RGBA:1x1") = Some "RGBA:1x1".
Proof.
  pose proof (svg_document_structure Demo.world Demo.dot "out.svg" 85
                (Demo.loaded SVG false) "RGBA:1x1" eq_refl eq_refl) as H.
  cbv zeta in H. destruct H as (st' & doc & E & Hf & _ & Hs & Hi & Hd).
  exists st', doc. auto.
Defined.

Lemma export_writes_only_destination_witness :
  save_dialog_path Demo.world <> EmptyString
  /\ forall r st',
      save_image Demo.world (Demo.loaded PNG false) = Some (r, st') ->
      r = Py.Ok tt
      /\ forall q, q <> destination Demo.world (Demo.loaded PNG false) ->
                   files st' !! q = files (Demo.loaded PNG false) !! q.
Proof.
  split; [discriminate|].
  exact (proj1 (export_writes_only_destination Demo.world
                  (Demo.loaded PNG false) Demo.picture eq_refl
                  ltac:(discriminate))).
Defined.

(** The segmentation engine fails: the export is not stopped, the file is
    written all the same, with the background still in it. *)
Lemma removal_failure_still_writes_file :
  exists st',
    save_image Demo.failing_world (Demo.loaded PNG true) = Some (Py.Ok tt, st')
    /\ files (Demo.loaded PNG true) !! "out.png" = None
    /\ files st' !! "out.png" = Some "RGBA:2x1"
    /\ EvMessage Warning "Background Removal Error" ∈ log st'.
Proof.
  eexists. split; [vm_compute; reflexivity|].
  split; [reflexivity|]. split; [vm_compute; reflexivity|].
  apply list_elem_of_In. vm_compute. auto.
Qed.

Lemma svg_output_independent_of_quality_witness :
  exists r s1 s2,
    save_as_svg_direct Demo.world Demo.dot "out.svg" 10 (Demo.loaded SVG false)
    = Some (r, s1)
    /\ save_as_svg_direct Demo.world Demo.dot "out.svg" 90 (Demo.loaded SVG false)
       = Some (r, s2)
    /\ files s1 = files s2
    /\ EvEncode PNG Demo.dot {| PIL.quality := Some 10; PIL.sizes := None |} ∈ log s1
    /\ EvEncode PNG Demo.dot {| PIL.quality := Some 90; PIL.sizes := None |} ∈ log s2.
Proof.
  refine (svg_output_independent_of_quality Demo.world Demo.dot "out.svg" 10 90
            (Demo.loaded SVG false) _ _ _); [lia|lia|].
  intros q q' _ _. reflexivity.
Defined.

Lemma removal_skipped_returns_input_witness :
  exists st',
    apply_background_removal Demo.world Demo.dot (Demo.loaded PNG false)
    = Some (Py.Ok Demo.dot, st')
    /\ files st' = files (Demo.loaded PNG false)
    /\ bg_thread st' = bg_thread (Demo.loaded PNG false).
Proof.
  exact (proj1 (removal_skipped_returns_input Demo.world Demo.dot
                  (Demo.loaded PNG false) (or_intror (or_introl eq_refl)))).
Defined.

(** ** More theorems on a concrete window *)

Lemma export_keeps_settings_witness :
  exists st',
    save_image Demo.world (Demo.loaded PNG false) = Some (Py.Ok tt, st')
    /\ same_settings (Demo.loaded PNG false) st'.
Proof.
  destruct (export_keeps_settings Demo.world (Demo.loaded PNG false)
              Demo.picture eq_refl) as (st' & E & _ & H).
  exists st'. split; [exact E|]. apply H. reflexivity.
Defined.

Lemma export_events_follow_format_witness :
  exists st',
    save_image Demo.world (Demo.loaded JPEG false) = Some (Py.Ok tt, st')
    /\ Forall (fun e => export_event (effective_format Demo.world (Demo.loaded JPEG false))
                          (destination Demo.world (Demo.loaded JPEG false)) e
                        = true)
         (events_since (Demo.loaded JPEG false) st')
    /\ forall img p,
        EvEncode JPEG img p ∈ events_since (Demo.loaded JPEG false) st' ->
        PIL.mode img <> "RGBA".
Proof.
  exact (export_events_follow_format Demo.world (Demo.loaded JPEG false)
           Demo.picture eq_refl).
Defined.

Lemma export_reports_outcome_witness :
  exists st',
    save_image Demo.world (Demo.loaded PNG false) = Some (Py.Ok tt, st')
    /\ ((progress_bar st' = 100
         /\ last (log st') = Some (EvMessage Information "Success")
         /\ is_Some (files st' !! destination Demo.world (Demo.loaded PNG false)))
        \/ (progress_bar st' = 0
            /\ last (log st') = Some (EvMessage Critical "Error"))).
Proof.
  refine (export_reports_outcome Demo.world (Demo.loaded PNG false)
            Demo.picture eq_refl _).
  discriminate.
Defined.

Lemma declined_jpeg_exports_png_witness :
  exists st',
    save_image Demo.declining_world (Demo.loaded JPEG true) = Some (Py.Ok tt, st')
    /\ format_combo st' = PNG
    /\ remove_bg_check st'
       = {| Qt.isChecked := true;
            Qt.isEnabled := REMBG_AVAILABLE (Demo.loaded JPEG true) |}
    /\ Str.endswith
         (Str.lower (destination Demo.declining_world (Demo.loaded JPEG true)))
         ".png" = true
    /\ forall img p,
        EvEncode JPEG img p ∉ events_since (Demo.loaded JPEG true) st'.
Proof.
  exact (declined_jpeg_exports_png Demo.declining_world (Demo.loaded JPEG true)
           Demo.picture eq_refl eq_refl eq_refl eq_refl).
Defined.

Lemma save_without_image_or_path_does_nothing_witness :
  exists st',
    save_image (Demo.demo_env false EmptyString) (Demo.loaded PNG false)
    = Some (Py.Ok tt, st')
    /\ files st' = files (Demo.loaded PNG false)
    /\ dimensions st' = dimensions (Demo.loaded PNG false)
    /\ progress_bar st' = progress_bar (Demo.loaded PNG false)
    /\ Forall (fun e => exists k t, e = EvMessage k t)
         (events_since (Demo.loaded PNG false) st').
Proof.
  exact (save_without_image_or_path_does_nothing
           (Demo.demo_env false EmptyString) (Demo.loaded PNG false)
           (or_intror eq_refl)).
Defined.

Lemma refresh_enables_box_under_svg_witness :
  exists st' k,
    refresh_rembg_status Demo.world
      (format_changed SVG (set_format_combo SVG (Demo.loaded PNG true)))
    = Some (Py.Ok true, st')
    /\ format_combo st' = SVG
    /\ remove_bg_check st' = {| Qt.isChecked := false; Qt.isEnabled := true |}
    /\ REMBG_AVAILABLE st' = true
    /\ events_since
         (format_changed SVG (set_format_combo SVG (Demo.loaded PNG true))) st'
       = [EvMessage k "rembg Status"].
Proof.
  exact (refresh_enables_box_under_svg Demo.world (Demo.loaded PNG true) eq_refl).
Defined.

Lemma load_image_sets_dimensions_witness :
  exists st',
    load_image Demo.world (Demo.loaded PNG false) = Some (Py.Ok tt, st')
    /\ current_image st' = Some Demo.small
    /\ original_size st' = PIL.size Demo.small
    /\ Qt.value (height_spin st') = snd (PIL.size Demo.small)
    /\ fst (PIL.size Demo.small) - 1 <= Qt.value (width_spin st')
       <= fst (PIL.size Demo.small)
    /\ (maintain_ratio (Demo.loaded PNG false) = false ->
        Qt.value (width_spin st') = fst (PIL.size Demo.small))
    /\ files st' = files (Demo.loaded PNG false).
Proof.
  refine (load_image_sets_dimensions Demo.world (Demo.loaded PNG false)
            Demo.small _ eq_refl _ _ eq_refl eq_refl eq_refl eq_refl).
  - discriminate.
  - cbn. lia.
  - cbn. lia.
Defined.

(** A picture of 2 x 49 loaded into a window whose width box already shows
    2: the width box ends at 1. *)
Example load_image_can_lose_a_pixel :
  exists st',
    load_image Demo.tall_world (Demo.demo_state (2, 7) 2 7 PNG false)
    = Some (Py.Ok tt, st')
    /\ original_size st' = (2, 49)
    /\ dimensions st' = (1, 49).
Proof.
  eexists. split; [vm_compute; reflexivity|]. split; reflexivity.
Qed.

Lemma handlers_keep_svg_guard_witness :
  (forall f, svg_guard (setCurrentText f (Demo.loaded PNG true)))
  /\ (forall r st',
        save_image Demo.world (Demo.loaded PNG true) = Some (r, st') ->
        svg_guard st')
  /\ (forall r st',
        preview_changes Demo.world (Demo.loaded PNG true) = Some (r, st') ->
        svg_guard st')
  /\ (forall r st',
        load_image Demo.world (Demo.loaded PNG true) = Some (r, st') ->
        svg_guard st')
  /\ (forall r st',
        refresh_rembg_status Demo.world (Demo.loaded PNG true) = Some (r, st') ->
        svg_guard st')
  /\ (forall b, svg_guard (toggle_aspect_ratio b (Demo.loaded PNG true))).
Proof.
  refine (handlers_keep_svg_guard Demo.world (Demo.loaded PNG true) _).
  intros H. discriminate H.
Defined.
